(** * fetch_podcast: a shallow embedding of resources/fetch_podcast.py

    The script turns a podcast feed into a JSON document of episode
    records.  This development embeds its normalisation functions
    ([to_iso_datetime], [strip_html], [parse_duration], [build_episode_id],
    [extract_audio_url], [normalize_entry]) and the collection pipeline of
    [main], and proves properties of them.

    Conventions of the embedding:
    - a Python [str] is the list of its Unicode code points ([pystr]);
    - a Python [int] is a [Z];
    - [None] is [None]; an optional field of a feed entry is an [option];
    - a call that may raise returns a [result]: [Ok v] or [Raise e];
    - the interpreter and its standard library (str methods, [datetime],
      [hashlib.sha256], list slicing and sorting) are modelled by
      executable definitions; the network, the feed parser and dateutil are
      parameters of the sections that use them. *)

From Stdlib Require Import ZArith List Lia Bool String Ascii Sorted Permutation.
From stdpp Require Import base option list gmap.

Local Open Scope Z_scope.

(** ** Exceptions and results *)

Inductive exn : Type :=
  | ValueError
  | TypeError
  | OverflowError
  | UnicodeEncodeError
  | AssertionError
  | ParserRejectedMarkup
  | HTTPError
  | ConnectionError
  | OSError.

Inductive result (A : Type) : Type :=
  | Ok (a : A)
  | Raise (e : exn).

Arguments Ok {A} a.
Arguments Raise {A} e.

Global Instance result_ret : MRet result := fun A a => Ok a.

Global Instance result_bind : MBind result := fun A B f c =>
  match c with
  | Ok a => f a
  | Raise e => Raise e
  end.

Global Instance result_fmap : FMap result := fun A B f c =>
  match c with
  | Ok a => Ok (f a)
  | Raise e => Raise e
  end.

(** ** Strings

    A [str] is a sequence of code points.  [str_lit] reads a literal of
    ASCII characters. *)

Definition codepoint := Z.
Definition pystr := list codepoint.

Definition str_lit (s : string) : pystr :=
  List.map (fun a => Z.of_N (N_of_ascii a)) (list_ascii_of_string s).

(** Truth value of an optional string: [None] and [""] are false. *)
Definition truthy (v : option pystr) : bool :=
  match v with
  | Some (_ :: _) => true
  | _ => false
  end.

(** [a or b] on optional strings. *)
Definition py_or (a b : option pystr) : option pystr :=
  if truthy a then a else b.

(** [a or ""]. *)
Definition or_empty (a : option pystr) : pystr :=
  match a with
  | Some s => s
  | None => []
  end.

Definition in_range (lo hi c : Z) : bool := (lo <=? c) && (c <=? hi).

(** The code points [str.isspace] accepts (Unicode 14, the database of
    CPython 3.11); [str.strip] removes exactly these. *)
Definition isspace_cp (c : codepoint) : bool :=
  in_range 9 13 c || in_range 28 32 c || (c =? 133) || (c =? 160)
  || (c =? 5760) || in_range 8192 8202 c || in_range 8232 8233 c
  || (c =? 8239) || (c =? 8287) || (c =? 12288).

Fixpoint lstrip (s : pystr) : pystr :=
  match s with
  | c :: s' => if isspace_cp c then lstrip s' else s
  | [] => []
  end.

Definition rstrip (s : pystr) : pystr := rev (lstrip (rev s)).

Definition strip (s : pystr) : pystr := rstrip (lstrip s).

(** First code point of every block of ten decimal digits (general
    category Nd): the digit of value [d] is at offset [d]. *)
Definition decimal_zeros : list Z :=
  [ 48; 1632; 1776; 1984; 2406; 2534; 2662; 2790; 2918; 3046; 3174; 3302;
    3430; 3558; 3664; 3792; 3872; 4160; 4240; 6112; 6160; 6470; 6608; 6784;
    6800; 6992; 7088; 7232; 7248; 42528; 43216; 43264; 43472; 43504; 43600;
    44016; 65296; 66720; 68912; 69734; 69872; 69942; 70096; 70384; 70736;
    70864; 71248; 71360; 71472; 71904; 72016; 72784; 73040; 73120; 92768;
    92864; 93008; 120782; 120792; 120802; 120812; 120822; 123200; 123632;
    125264; 130032 ].

(** Characters with Numeric_Type=Digit that are not decimal digits
    (superscripts, subscripts, circled digits, ...): inclusive ranges. *)
Definition digit_not_decimal : list (Z * Z) :=
  [ (178, 179); (185, 185); (4969, 4977); (6618, 6618); (8304, 8304);
    (8308, 8313); (8320, 8329); (9312, 9320); (9332, 9340); (9352, 9360);
    (9450, 9450); (9461, 9469); (9471, 9471); (10102, 10110);
    (10112, 10120); (10122, 10130); (68160, 68163); (69216, 69224);
    (69714, 69722); (127232, 127242) ].

(** [unicodedata.decimal]: the value of a decimal digit. *)
Definition decimal_value (c : codepoint) : option Z :=
  match List.find (fun z => in_range z (z + 9) c) decimal_zeros with
  | Some z => Some (c - z)
  | None => None
  end.

Definition isdecimal_cp (c : codepoint) : bool :=
  match decimal_value c with
  | Some _ => true
  | None => false
  end.

Definition isdigit_cp (c : codepoint) : bool :=
  isdecimal_cp c
  || List.existsb (fun r => in_range (fst r) (snd r) c) digit_not_decimal.

(** [s.isdigit()]: non-empty and every character is a digit. *)
Definition isdigit (s : pystr) : bool :=
  match s with
  | [] => false
  | _ => List.forallb isdigit_cp s
  end.

(** [int(s)] on the strings the program passes to it, which all satisfy
    [isdigit]: the base-ten value when every character is a decimal digit,
    [ValueError] otherwise (a digit such as SUPERSCRIPT TWO has no decimal
    value).  The interpreter's cap on the length of a numeral is not
    modelled. *)
Fixpoint int_digits (acc : Z) (s : pystr) : result Z :=
  match s with
  | [] => Ok acc
  | c :: s' =>
      match decimal_value c with
      | Some d => int_digits (10 * acc + d) s'
      | None => Raise ValueError
      end
  end.

Definition py_int (s : pystr) : result Z :=
  match s with
  | [] => Raise ValueError
  | _ => int_digits 0 s
  end.

(** [s.split(sep)] for a separator of one character. *)
Fixpoint split (sep : codepoint) (s : pystr) : list pystr :=
  match s with
  | [] => [[]]
  | c :: s' =>
      if c =? sep then [] :: split sep s'
      else match split sep s' with
           | p :: ps => (c :: p) :: ps
           | [] => [[c]]
           end
  end.

(** [old] is a prefix of [s]. *)
Fixpoint startswith (old s : pystr) : bool :=
  match old, s with
  | [], _ => true
  | o :: old', c :: s' => (o =? c) && startswith old' s'
  | _ :: _, [] => false
  end.

(** [s.replace(old, new)] for a non-empty [old]: occurrences are replaced
    from left to right without overlap.  [skip] counts the characters of a
    matched occurrence still to be dropped. *)
Fixpoint replace_from (old new : pystr) (skip : nat) (s : pystr) : pystr :=
  match s with
  | [] => []
  | c :: s' =>
      match skip with
      | S k => replace_from old new k s'
      | O =>
          if startswith old s
          then new ++ replace_from old new (Nat.pred (length old)) s'
          else c :: replace_from old new O s'
      end
  end.

Definition replace (old new s : pystr) : pystr := replace_from old new O s.

(** [sep.join(parts)]. *)
Fixpoint join (sep : pystr) (parts : list pystr) : pystr :=
  match parts with
  | [] => []
  | [p] => p
  | p :: ps => p ++ sep ++ join sep ps
  end.

Definition colon : codepoint := 58.

(** ** Feed entries and episodes *)

(** The iTunes duration of an entry: an integer or a string. *)
Inductive duration_raw : Type :=
  | DurInt (n : Z)
  | DurStr (s : pystr).

(** ** parse_duration (lines 75-98) *)

Definition parse_duration (value : option duration_raw) : result (option Z) :=
  match value with
  | None => Ok None
  | Some (DurInt n) => Ok (Some n)
  | Some (DurStr s) =>
      let value := strip s in
      if negb (truthy (Some value)) then Ok None
      else if isdigit value then n ← py_int value; Ok (Some n)
      else
        let parts := List.filter isdigit (split colon value) in
        match parts with
        | [] => Ok None
        | _ =>
            match mapM py_int parts with
            | Raise ValueError => Ok None
            | Raise e => Raise e
            | Ok [minutes; seconds] => Ok (Some (minutes * 60 + seconds))
            | Ok [hours; minutes; seconds] =>
                Ok (Some (hours * 3600 + minutes * 60 + seconds))
            | Ok _ => Ok None
            end
        end
  end.

(** ** datetime

    [tzinfo] is the UTC offset in seconds of an aware value, [None] for a
    naive one. *)

Record datetime : Type := mk_datetime {
  year : Z;
  month : Z;
  day : Z;
  hour : Z;
  minute : Z;
  second : Z;
  microsecond : Z;
  tzinfo : option Z
}.

Definition utc : option Z := Some 0.

Definition is_leap (y : Z) : bool :=
  (y mod 4 =? 0) && (negb (y mod 100 =? 0) || (y mod 400 =? 0)).

Definition days_in_month (y m : Z) : Z :=
  if m =? 2 then (if is_leap y then 29 else 28)
  else if (m =? 4) || (m =? 6) || (m =? 9) || (m =? 11) then 30
  else 31.

(** Days of the year before the first of month [m]. *)
Definition days_before_month (y m : Z) : Z :=
  fold_right Z.add 0
    (List.map (days_in_month y) (List.map Z.of_nat (seq 1 (Z.to_nat (m - 1))))).

Definition days_before_year (y : Z) : Z :=
  let p := y - 1 in p * 365 + p / 4 - p / 100 + p / 400.

(** Proleptic Gregorian ordinal: 0001-01-01 is day 1. *)
Definition ymd2ord (y m d : Z) : Z :=
  days_before_year y + days_before_month y m + d.

Definition max_ordinal : Z := 3652059.

(** The inverse of [ymd2ord], by the 400/100/4/1-year cycles. *)
Definition ord2ymd (n : Z) : Z * Z * Z :=
  let n := n - 1 in
  let n400 := n / 146097 in
  let n := n mod 146097 in
  let n100 := n / 36524 in
  let n := n mod 36524 in
  let n4 := n / 1461 in
  let n := n mod 1461 in
  let n1 := n / 365 in
  let n := n mod 365 in
  let y := n400 * 400 + 1 + n100 * 100 + n4 * 4 + n1 in
  if (n1 =? 4) || (n100 =? 4) then (y - 1, 12, 31)
  else
    let m := Z.shiftr (n + 50) 5 in
    let preceding := days_before_month y m in
    if n <? preceding
    then (y, m - 1, n - (preceding - days_in_month y (m - 1)) + 1)
    else (y, m, n - preceding + 1).

(** A field outside the range of a C int is an [OverflowError]. *)
Definition fits_c_int (v : Z) : bool := in_range (- 2 ^ 31) (2 ^ 31 - 1) v.

(** The constructor [datetime] applied to the positional fields [year,
    month, day, hour, minute, second, microsecond] and the keyword
    [tzinfo]: the first three are required, a field out of range is a
    [ValueError]. *)
Definition datetime_new (args : list Z) (tz : option Z) : result datetime :=
  match args with
  | y :: m :: d :: rest =>
      match rest with
      | _ :: _ :: _ :: _ :: _ :: _ => Raise TypeError
      | _ =>
          let hh := nth 0 rest 0 in
          let mi := nth 1 rest 0 in
          let ss := nth 2 rest 0 in
          let us := nth 3 rest 0 in
          if negb (List.forallb fits_c_int args) then Raise OverflowError
          else if in_range 1 9999 y && in_range 1 12 m
                  && in_range 1 (days_in_month y m) d
                  && in_range 0 23 hh && in_range 0 59 mi
                  && in_range 0 59 ss && in_range 0 999999 us
          then Ok (mk_datetime y m d hh mi ss us tz)
          else Raise ValueError
      end
  | _ => Raise TypeError
  end.

(** The [width] low decimal digits of [n], most significant first:
    ["%0<width>d"] for [0 <= n < 10 ^ width]. *)
Fixpoint zfill (width : nat) (n : Z) : pystr :=
  match width with
  | O => []
  | S w => zfill w (n / 10) ++ [48 + n mod 10]
  end.

(** The UTC offset as [isoformat] prints it: [+HH:MM], with [:SS] when
    the offset has seconds. *)
Definition format_offset (off : Z) : pystr :=
  let a := Z.abs off in
  (if off <? 0 then str_lit "-" else str_lit "+")
  ++ zfill 2 (a / 3600) ++ str_lit ":" ++ zfill 2 (a mod 3600 / 60)
  ++ (if a mod 60 =? 0 then [] else str_lit ":" ++ zfill 2 (a mod 60)).

(** [dt.isoformat()]. *)
Definition isoformat (dt : datetime) : pystr :=
  zfill 4 (year dt) ++ str_lit "-" ++ zfill 2 (month dt) ++ str_lit "-"
  ++ zfill 2 (day dt) ++ str_lit "T" ++ zfill 2 (hour dt) ++ str_lit ":"
  ++ zfill 2 (minute dt) ++ str_lit ":" ++ zfill 2 (second dt)
  ++ (if microsecond dt =? 0 then []
      else str_lit "." ++ zfill 6 (microsecond dt))
  ++ match tzinfo dt with
     | Some off => format_offset off
     | None => []
     end.

(** Seconds from the start of ordinal day 0 to the wall-clock reading. *)
Definition wall_seconds (dt : datetime) : Z :=
  ymd2ord (year dt) (month dt) (day dt) * 86400
  + hour dt * 3600 + minute dt * 60 + second dt.

(** The value with wall-clock reading [t] seconds, if its date is within
    years 1..9999; [OverflowError] otherwise. *)
Definition of_wall_seconds (t us : Z) (tz : option Z) : result datetime :=
  let ord := t / 86400 in
  let r := t mod 86400 in
  if in_range 1 max_ordinal ord then
    let '(y, m, d) := ord2ymd ord in
    Ok (mk_datetime y m d (r / 3600) (r mod 3600 / 60) (r mod 60) us tz)
  else Raise OverflowError.

Definition epoch_seconds : Z := ymd2ord 1970 1 1 * 86400.

(** ** Floating-point numbers

    Every finite binary64 value is an integer multiple of [2 ^ -1074].  A
    [float] is that integer, so two floats compare as their integers do
    and the integer [0] is both the float [0.0] and the int [0].
    [float_of_ratio p q] is the binary64 nearest to [p / q] (ties to even),
    the result of dividing two ints or two floats; the range of the
    quotients formed below is far from overflow. *)

Definition float := Z.

Definition float_unit_exp : Z := 1074.

Definition round_half_even (n d : Z) : Z :=
  let m := n / d in
  let r := n mod d in
  if (d <? 2 * r) || ((d =? 2 * r) && Z.odd m) then m + 1 else m.

(** For [0 < p] and [0 < q]. *)
Definition float_of_pos_ratio (p q : Z) : float :=
  let e0 := Z.log2 p - Z.log2 q in
  let e := if p * 2 ^ Z.max 0 (- e0) <? q * 2 ^ Z.max 0 e0
           then e0 - 1 else e0 in
  let lsb := Z.max (e - 52) (- float_unit_exp) in
  round_half_even (p * 2 ^ Z.max 0 (- lsb)) (q * 2 ^ Z.max 0 lsb)
  * 2 ^ (lsb + float_unit_exp).

Definition float_of_ratio (p q : Z) : float :=
  if (p =? 0) || (q =? 0) then 0
  else Z.sgn p * Z.sgn q * float_of_pos_ratio (Z.abs p) (Z.abs q).

(** The float of an int. *)
Definition float_of_int (n : Z) : float := float_of_ratio n 1.

(** Sum of two floats, rounded. *)
Definition float_add (a b : float) : float :=
  float_of_ratio (a + b) (2 ^ float_unit_exp).

(** ** Feed entries and episodes *)

Record enclosure : Type := mk_enclosure {
  enc_url : option pystr
}.

(** A feed entry as the program reads it: every field holds what
    [entry.get(key)] returns, [None] when the key is missing.  The parsed
    dates are tuples of ints (a [struct_time]). *)
Record entry : Type := mk_entry {
  entry_id : option pystr;
  entry_guid : option pystr;
  entry_title : option pystr;
  entry_summary : option pystr;
  entry_description : option pystr;
  entry_link : option pystr;
  entry_published : option pystr;
  entry_updated : option pystr;
  entry_published_parsed : option (list Z);
  entry_updated_parsed : option (list Z);
  entry_itunes_duration : option duration_raw;
  entry_enclosures : option (list enclosure)
}.

(** The dict [normalize_entry] returns. *)
Record episode : Type := mk_episode {
  id : pystr;
  title : pystr;
  description : pystr;
  published : option pystr;
  link : option pystr;
  audio_url : option pystr;
  duration : option Z
}.

(** Truth value of an optional tuple. *)
Definition truthy_tuple (v : option (list Z)) : bool :=
  match v with
  | Some (_ :: _) => true
  | _ => false
  end.

(** HTTP response of [requests.get]. *)
Record response : Type := mk_response {
  status_code : Z;
  content : list Z
}.

(** What [feedparser.parse] returns: the feed-level title and the
    entries in feed order. *)
Record parsed_feed : Type := mk_parsed_feed {
  feed_title : option pystr;
  entries : list entry
}.

(** ** External collaborators

    The libraries and the environment the script calls into, as an
    interface: dateutil's parser, [datetime.fromisoformat] ([None] when
    it raises [ValueError], the one exception it has for a string), the
    UTC offset of the local zone (for naive values), the HTTP client, the
    feed parser and the clock. *)
Class Collaborators : Type := {
  date_parser_parse : pystr -> result datetime;
  datetime_fromisoformat : pystr -> option datetime;
  local_utcoffset : datetime -> Z;
  requests_get : pystr -> result response;
  feedparser_parse : list Z -> parsed_feed;
  datetime_now_utc : datetime
}.

Section Program.

Context `{Collaborators}.

(** [dt.astimezone(timezone.utc)]. *)
Definition astimezone_utc (dt : datetime) : result datetime :=
  let off := match tzinfo dt with
             | Some off => off
             | None => local_utcoffset dt
             end in
  of_wall_seconds (wall_seconds dt - off) (microsecond dt) utc.

(** [dt.timestamp()]: seconds since 1970-01-01T00:00:00Z as a float.  An
    aware value divides its microsecond count by [10 ** 6]; a naive one is
    read in the local zone and adds the fraction in floating point. *)
Definition timestamp (dt : datetime) : float :=
  match tzinfo dt with
  | Some off =>
      float_of_ratio
        ((wall_seconds dt - off - epoch_seconds) * 10 ^ 6 + microsecond dt)
        (10 ^ 6)
  | None =>
      float_add
        (float_of_int (wall_seconds dt - local_utcoffset dt - epoch_seconds))
        (float_of_ratio (microsecond dt) (10 ^ 6))
  end.

Definition with_tzinfo (tz : option Z) (dt : datetime) : datetime :=
  mk_datetime (year dt) (month dt) (day dt) (hour dt) (minute dt)
    (second dt) (microsecond dt) tz.

(** [dt.isoformat().replace("+00:00", "Z")]. *)
Definition iso_z (dt : datetime) : pystr :=
  replace (str_lit "+00:00") (str_lit "Z") (isoformat dt).

(** [iso_utc_now] (lines 44-45). *)
Definition iso_utc_now : pystr := iso_z datetime_now_utc.

(** ** to_iso_datetime (lines 48-64) *)

Definition to_iso_datetime (e : entry) : result (option pystr) :=
  if truthy_tuple (entry_published_parsed e) then
    dt ← datetime_new (take 6 (default [] (entry_published_parsed e))) utc;
    Ok (Some (iso_z dt))
  else if truthy_tuple (entry_updated_parsed e) then
    dt ← datetime_new (take 6 (default [] (entry_updated_parsed e))) utc;
    Ok (Some (iso_z dt))
  else
    let raw := py_or (entry_published e) (entry_updated e) in
    if negb (truthy raw) then Ok None
    else
      let body :=
        dt ← date_parser_parse (or_empty raw);
        let dt := match tzinfo dt with
                  | None => with_tzinfo utc dt
                  | Some _ => dt
                  end in
        dt' ← astimezone_utc dt;
        Ok (Some (iso_z dt')) in
      match body with
      | Raise ValueError | Raise TypeError => Ok None
      | r => r
      end.

End Program.

(** ** UTF-8 and SHA-256

    [encode_utf8] is [s.encode("utf-8")]: a lone surrogate cannot be
    encoded.  Bytes are [Z] in [0, 255]; SHA-256 words are [Z] in
    [0, 2 ^ 32). *)

Definition utf8_char (c : codepoint) : result (list Z) :=
  if c <? 0x80 then Ok [c]
  else if c <? 0x800 then Ok [0xC0 + c / 64; 0x80 + c mod 64]
  else if in_range 0xD800 0xDFFF c then Raise UnicodeEncodeError
  else if c <? 0x10000
  then Ok [0xE0 + c / 4096; 0x80 + c / 64 mod 64; 0x80 + c mod 64]
  else Ok [0xF0 + c / 262144; 0x80 + c / 4096 mod 64;
           0x80 + c / 64 mod 64; 0x80 + c mod 64].

Definition encode_utf8 (s : pystr) : result (list Z) :=
  parts ← mapM utf8_char s; Ok (concat parts).

Module SHA256.

Definition wrap (x : Z) : Z := x mod 2 ^ 32.

Definition add32 (x y : Z) : Z := wrap (x + y).

Definition rotr (n x : Z) : Z :=
  Z.lor (Z.shiftr x n) (wrap (Z.shiftl x (32 - n))).

Definition xor3 (a b c : Z) : Z := Z.lxor (Z.lxor a b) c.

Definition ch (x y z : Z) : Z :=
  Z.lxor (Z.land x y) (Z.land (Z.lxor x (2 ^ 32 - 1)) z).

Definition maj (x y z : Z) : Z :=
  xor3 (Z.land x y) (Z.land x z) (Z.land y z).

Definition big_sigma0 (x : Z) : Z := xor3 (rotr 2 x) (rotr 13 x) (rotr 22 x).
Definition big_sigma1 (x : Z) : Z := xor3 (rotr 6 x) (rotr 11 x) (rotr 25 x).
Definition small_sigma0 (x : Z) : Z :=
  xor3 (rotr 7 x) (rotr 18 x) (Z.shiftr x 3).
Definition small_sigma1 (x : Z) : Z :=
  xor3 (rotr 17 x) (rotr 19 x) (Z.shiftr x 10).

(** The first 64 primes. *)
Definition is_prime (n : Z) : bool :=
  List.forallb (fun d => negb (n mod Z.of_nat d =? 0))
    (seq 2 (Z.to_nat n - 2)).

Definition primes : list Z :=
  List.filter is_prime (List.map Z.of_nat (seq 2 310)).

(** Integer cube root, bit by bit from bit [b] down. *)
Fixpoint cube_root_bits (b : nat) (n r : Z) : Z :=
  let r' := r + 2 ^ Z.of_nat b in
  let r := if r' * r' * r' <=? n then r' else r in
  match b with
  | O => r
  | S b' => cube_root_bits b' n r
  end.

(** Round constants: the first 32 bits of the fractional parts of the
    cube roots of the primes. *)
Definition round_constants : list Z :=
  List.map (fun p => wrap (cube_root_bits 40 (p * 2 ^ 96) 0)) primes.

(** Initial hash value: the same of the square roots of the first eight
    primes. *)
Definition initial_hash : list Z :=
  List.map (fun p => wrap (Z.sqrt (p * 2 ^ 64))) (take 8 primes).

(** The message followed by the bit 1, zeros, and its length in bits as
    64 bits, a multiple of 64 bytes in all. *)
Definition big_endian (n : nat) (v : Z) : list Z :=
  List.map (fun i => (v / 256 ^ Z.of_nat i) mod 256) (rev (seq 0 n)).

Definition pad (msg : list Z) : list Z :=
  let len := Z.of_nat (length msg) in
  let zeros := Z.to_nat ((55 - len) mod 64) in
  msg ++ [0x80] ++ List.repeat 0 zeros ++ big_endian 8 (8 * len).

Definition word_of_bytes (bs : list Z) : Z :=
  fold_left (fun acc b => acc * 256 + b) bs 0.

(** Cut [l] into [count] pieces of [size] elements. *)
Fixpoint chunks {A} (size count : nat) (l : list A) : list (list A) :=
  match count with
  | O => []
  | S c => take size l :: chunks size c (drop size l)
  end.

(** One round: [win] holds the sixteen schedule words from the current
    one on, [st] the working variables a..h. *)
Definition round (st : list Z * list Z) (k : Z) : list Z * list Z :=
  let '(win, v) := st in
  let w := nth 0 win 0 in
  let a := nth 0 v 0 in let b := nth 1 v 0 in
  let c := nth 2 v 0 in let d := nth 3 v 0 in
  let e := nth 4 v 0 in let f := nth 5 v 0 in
  let g := nth 6 v 0 in let h := nth 7 v 0 in
  let t1 := wrap (h + big_sigma1 e + ch e f g + k + w) in
  let t2 := add32 (big_sigma0 a) (maj a b c) in
  let next := wrap (small_sigma1 (nth 14 win 0) + nth 9 win 0
                    + small_sigma0 (nth 1 win 0) + w) in
  (drop 1 win ++ [next],
   [add32 t1 t2; a; b; c; add32 d t1; e; f; g]).

Definition compress (h : list Z) (block : list Z) : list Z :=
  let words := List.map word_of_bytes (chunks 4 16 block) in
  let '(_, v) := fold_left round round_constants (words, h) in
  List.map (fun p => add32 (fst p) (snd p)) (combine h v).

Definition digest (msg : list Z) : list Z :=
  let padded := pad msg in
  let blocks := chunks 64 (length padded / 64) padded in
  concat (List.map (big_endian 4) (fold_left compress blocks initial_hash)).

Definition hex_digit (d : Z) : codepoint :=
  if d <? 10 then 48 + d else 87 + d.

(** [hashlib.sha256(msg).hexdigest()]. *)
Definition hexdigest (msg : list Z) : pystr :=
  concat (List.map (fun b => [hex_digit (b / 16); hex_digit (b mod 16)])
            (digest msg)).

End SHA256.

(** ** build_episode_id (lines 101-107) *)

Definition build_episode_id (e : entry) (audio_url published : option pystr)
  : result pystr :=
  let guid := py_or (entry_id e) (entry_guid e) in
  if truthy guid then Ok (or_empty guid)
  else
    let title := default [] (entry_title e) in
    let base := title ++ str_lit "|" ++ or_empty published
                ++ str_lit "|" ++ or_empty audio_url in
    bytes ← encode_utf8 base;
    Ok (SHA256.hexdigest bytes).

(** ** extract_audio_url (lines 110-116) *)

Fixpoint first_url (enclosures : list enclosure) : option pystr :=
  match enclosures with
  | [] => None
  | enclosure :: rest =>
      let url := enc_url enclosure in
      if truthy url then url else first_url rest
  end.

Definition extract_audio_url (e : entry) : option pystr :=
  first_url (default [] (entry_enclosures e)).

(** ** Regular expressions

    The matcher of the [re] module for the constructs the HTML libraries
    use: greedy repetition, ordered alternation, groups, a look-behind of
    one character and a negative look-ahead, explored by backtracking. *)

Module Regex.

Inductive regex : Type :=
  | Eps
  | Chr (p : codepoint -> bool)
  | Seq (a b : regex)
  | Alt (a b : regex)
  | Star (a : regex)
  | Group (n : nat) (a : regex)
  | Behind (p : codepoint -> bool)
  | NotAhead (a : regex).

(** A position in the subject: its index, the character before it, the
    characters from it on, and the spans of the groups closed so far. *)
Record mstate : Type := mk_mstate {
  pos : nat;
  prev : option codepoint;
  rest : pystr;
  groups : list (nat * (nat * nat))
}.

Fixpoint run (r : regex) (st : mstate) (k : mstate -> option mstate)
  : option mstate :=
  match r with
  | Eps => k st
  | Chr p =>
      match rest st with
      | c :: s => if p c
                  then k (mk_mstate (S (pos st)) (Some c) s (groups st))
                  else None
      | [] => None
      end
  | Seq a b => run a st (fun st' => run b st' k)
  | Alt a b =>
      match run a st k with
      | Some m => Some m
      | None => run b st k
      end
  | Star a =>
      (fix loop (fuel : nat) (st : mstate) : option mstate :=
         match fuel with
         | O => k st
         | S fuel' =>
             match run a st (fun st' =>
                     if (pos st' =? pos st)%nat then None
                     else loop fuel' st')
             with
             | Some m => Some m
             | None => k st
             end
         end) (length (rest st)) st
  | Group n a =>
      run a st (fun st' =>
        k (mk_mstate (pos st') (prev st') (rest st')
             ((n, (pos st, pos st')) :: groups st')))
  | Behind p =>
      match prev st with
      | Some c => if p c then k st else None
      | None => None
      end
  | NotAhead a =>
      match run a st Some with
      | Some _ => None
      | None => k st
      end
  end.

(** [pattern.match(s, i)]. *)
Definition re_match (r : regex) (s : pystr) (i : nat) : option mstate :=
  if (length s <? i)%nat then None
  else run r (mk_mstate i (last (take i s)) (drop i s) []) Some.

Definition matches (r : regex) (s : pystr) (i : nat) : bool :=
  bool_decide (is_Some (re_match r s i)).

(** [pattern.search(s, i)]: the match and where it starts. *)
Fixpoint search_from (r : regex) (s : pystr) (i : nat) (tries : nat)
  : option (nat * mstate) :=
  match re_match r s i with
  | Some m => Some (i, m)
  | None =>
      match tries with
      | O => None
      | S t => search_from r s (S i) t
      end
  end.

Definition re_search (r : regex) (s : pystr) (i : nat)
  : option (nat * mstate) :=
  if (length s <? i)%nat then None else search_from r s i (length s - i).

(** The span of group [n] of a match. *)
Definition group (n : nat) (m : mstate) : option (nat * nat) :=
  snd <$> List.find (fun g => (fst g =? n)%nat) (groups m).

Definition opt (a : regex) : regex := Alt a Eps.
Definition plus (a : regex) : regex := Seq a (Star a).

Fixpoint upto (n : nat) (a : regex) : regex :=
  match n with
  | O => Eps
  | S n' => opt (Seq a (upto n' a))
  end.

Fixpoint seqs (rs : list regex) : regex :=
  match rs with
  | [] => Eps
  | [r] => r
  | r :: rs' => Seq r (seqs rs')
  end.

Definition one_of (chars : string) (c : codepoint) : bool :=
  bool_decide (c ∈ str_lit chars).

Definition chr (c : codepoint) : regex := Chr (Z.eqb c).

Definition lit (s : string) : regex := seqs (List.map chr (str_lit s)).

Definition alpha (c : codepoint) : bool := in_range 65 90 c || in_range 97 122 c.
Definition digit (c : codepoint) : bool := in_range 48 57 c.
Definition alnum (c : codepoint) : bool := alpha c || digit c.
Definition hex (c : codepoint) : bool :=
  digit c || in_range 65 70 c || in_range 97 102 c.
Definition space : codepoint -> bool := isspace_cp.

End Regex.

(** ** HTML text extraction

    [soup_get_text markup] models
    [BeautifulSoup(markup, "html.parser").get_text(" ", strip=True)] of
    BeautifulSoup 4.12.3, and [unescape] models [html.unescape]:
    - [tokenize] is the tokenizer of the standard library's [html.parser]
      with [convert_charrefs=False] (CPython 3.11): [feed] then [close];
    - [build] is the tree builder's handling of the tokens, down to the
      strings of the document and the class of each;
    - [get_text] joins the stripped, non-empty strings of class
      [NavigableString] or [CData].
    Tag names are lower-cased by the one-to-one case mapping of Unicode;
    the context rule for the final sigma is not modelled. *)

Module HTML.

Import Regex.

(** *** str methods on code points *)

(** Simple lower-case mapping: [(first, last, step, delta)] maps the code
    points [first, first + step, ..., last] to themselves plus [delta]. *)
Definition lower_runs : list (Z * Z * Z * Z) :=
  [ (65, 90, 1, 32); (192, 214, 1, 32); (216, 222, 1, 32);
    (256, 302, 2, 1); (306, 310, 2, 1); (313, 327, 2, 1); (330, 374, 2, 1);
    (376, 376, 1, -121); (377, 381, 2, 1); (385, 385, 1, 210);
    (386, 388, 2, 1); (390, 390, 1, 206); (391, 391, 1, 1);
    (393, 394, 1, 205); (395, 395, 1, 1); (398, 398, 1, 79);
    (399, 399, 1, 202); (400, 400, 1, 203); (401, 401, 1, 1);
    (403, 403, 1, 205); (404, 404, 1, 207); (406, 406, 1, 211);
    (407, 407, 1, 209); (408, 408, 1, 1); (412, 412, 1, 211);
    (413, 413, 1, 213); (415, 415, 1, 214); (416, 420, 2, 1);
    (422, 422, 1, 218); (423, 423, 1, 1); (425, 425, 1, 218);
    (428, 428, 1, 1); (430, 430, 1, 218); (431, 431, 1, 1);
    (433, 434, 1, 217); (435, 437, 2, 1); (439, 439, 1, 219);
    (440, 440, 1, 1); (444, 444, 1, 1); (452, 452, 1, 2); (453, 453, 1, 1);
    (455, 455, 1, 2); (456, 456, 1, 1); (458, 458, 1, 2); (459, 475, 2, 1);
    (478, 494, 2, 1); (497, 497, 1, 2); (498, 500, 2, 1);
    (502, 502, 1, -97); (503, 503, 1, -56); (504, 542, 2, 1);
    (544, 544, 1, -130); (546, 562, 2, 1); (570, 570, 1, 10795);
    (571, 571, 1, 1); (573, 573, 1, -163); (574, 574, 1, 10792);
    (577, 577, 1, 1); (579, 579, 1, -195); (580, 580, 1, 69);
    (581, 581, 1, 71); (582, 590, 2, 1); (880, 882, 2, 1);
    (886, 886, 1, 1); (895, 895, 1, 116); (902, 902, 1, 38);
    (904, 906, 1, 37); (908, 908, 1, 64); (910, 911, 1, 63);
    (913, 929, 1, 32); (931, 939, 1, 32); (975, 975, 1, 8);
    (984, 1006, 2, 1); (1012, 1012, 1, -60); (1015, 1015, 1, 1);
    (1017, 1017, 1, -7); (1018, 1018, 1, 1); (1021, 1023, 1, -130);
    (1024, 1039, 1, 80); (1040, 1071, 1, 32); (1120, 1152, 2, 1);
    (1162, 1214, 2, 1); (1216, 1216, 1, 15); (1217, 1229, 2, 1);
    (1232, 1326, 2, 1); (1329, 1366, 1, 48); (4256, 4293, 1, 7264);
    (4295, 4295, 1, 7264); (4301, 4301, 1, 7264); (5024, 5103, 1, 38864);
    (5104, 5109, 1, 8); (7312, 7354, 1, -3008); (7357, 7359, 1, -3008);
    (7680, 7828, 2, 1); (7838, 7838, 1, -7615); (7840, 7934, 2, 1);
    (7944, 7951, 1, -8); (7960, 7965, 1, -8); (7976, 7983, 1, -8);
    (7992, 7999, 1, -8); (8008, 8013, 1, -8); (8025, 8031, 2, -8);
    (8040, 8047, 1, -8); (8072, 8079, 1, -8); (8088, 8095, 1, -8);
    (8104, 8111, 1, -8); (8120, 8121, 1, -8); (8122, 8123, 1, -74);
    (8124, 8124, 1, -9); (8136, 8139, 1, -86); (8140, 8140, 1, -9);
    (8152, 8153, 1, -8); (8154, 8155, 1, -100); (8168, 8169, 1, -8);
    (8170, 8171, 1, -112); (8172, 8172, 1, -7); (8184, 8185, 1, -128);
    (8186, 8187, 1, -126); (8188, 8188, 1, -9); (8486, 8486, 1, -7517);
    (8490, 8490, 1, -8383); (8491, 8491, 1, -8262); (8498, 8498, 1, 28);
    (8544, 8559, 1, 16); (8579, 8579, 1, 1); (9398, 9423, 1, 26);
    (11264, 11311, 1, 48); (11360, 11360, 1, 1); (11362, 11362, 1, -10743);
    (11363, 11363, 1, -3814); (11364, 11364, 1, -10727);
    (11367, 11371, 2, 1); (11373, 11373, 1, -10780);
    (11374, 11374, 1, -10749); (11375, 11375, 1, -10783);
    (11376, 11376, 1, -10782); (11378, 11378, 1, 1); (11381, 11381, 1, 1);
    (11390, 11391, 1, -10815); (11392, 11490, 2, 1); (11499, 11501, 2, 1);
    (11506, 11506, 1, 1); (42560, 42604, 2, 1); (42624, 42650, 2, 1);
    (42786, 42798, 2, 1); (42802, 42862, 2, 1); (42873, 42875, 2, 1);
    (42877, 42877, 1, -35332); (42878, 42886, 2, 1); (42891, 42891, 1, 1);
    (42893, 42893, 1, -42280); (42896, 42898, 2, 1); (42902, 42920, 2, 1);
    (42922, 42922, 1, -42308); (42923, 42923, 1, -42319);
    (42924, 42924, 1, -42315); (42925, 42925, 1, -42305);
    (42926, 42926, 1, -42308); (42928, 42928, 1, -42258);
    (42929, 42929, 1, -42282); (42930, 42930, 1, -42261);
    (42931, 42931, 1, 928); (42932, 42946, 2, 1); (42948, 42948, 1, -48);
    (42949, 42949, 1, -42307); (42950, 42950, 1, -35384);
    (42951, 42953, 2, 1); (42960, 42960, 1, 1); (42966, 42968, 2, 1);
    (42997, 42997, 1, 1); (65313, 65338, 1, 32); (66560, 66599, 1, 40);
    (66736, 66771, 1, 40); (66928, 66938, 1, 39); (66940, 66954, 1, 39);
    (66956, 66962, 1, 39); (66964, 66965, 1, 39); (68736, 68786, 1, 64);
    (71840, 71871, 1, 32); (93760, 93791, 1, 32); (125184, 125217, 1, 34) ].

Definition lower_cp (c : codepoint) : pystr :=
  if c =? 304 then [105; 775]
  else
    match List.find (fun r => let '(a, b, s, _) := r in
                              in_range a b c && ((c - a) mod s =? 0))
            lower_runs with
    | Some (_, _, _, d) => [c + d]
    | None => [c]
    end.

(** [s.lower()]. *)
Definition lower (s : pystr) : pystr := concat (List.map lower_cp s).

(** [s[i:j]] for [i <= j]. *)
Definition sub (s : pystr) (i j : nat) : pystr := take (j - i) (drop i s).

(** [s.startswith(pat, i)]. *)
Definition starts_at (pat : string) (s : pystr) (i : nat) : bool :=
  (i <=? length s)%nat && startswith (str_lit pat) (drop i s).

(** [s.find(c, i)]. *)
Fixpoint find_in (c : codepoint) (s : pystr) (i : nat) : option nat :=
  match s with
  | [] => None
  | x :: s' => if x =? c then Some i else find_in c s' (S i)
  end.

Definition find_char (c : codepoint) (s : pystr) (i : nat) : option nat :=
  find_in c (drop i s) i.

Definition is_str (pat : string) (s : pystr) : bool :=
  bool_decide (s = str_lit pat).

Definition lt : codepoint := 60.
Definition gt : codepoint := 62.
Definition amp : codepoint := 38.
Definition semicolon : codepoint := 59.

(** *** The regular expressions of html.parser and _markupbase *)

Definition name_char : codepoint -> bool :=
  fun c => negb (bool_decide (c ∈ [9; 10; 13; 12; 32; 47; 62; 0])).

Definition quote_char (c : codepoint) : bool := (c =? 39) || (c =? 34).

(** [(?:\s|/(?!>))*] *)
Definition space_or_slash : regex :=
  Star (Alt (Chr space) (Seq (chr 47) (NotAhead (chr gt)))).

Definition attr_value : regex :=
  Alt (seqs [chr 39; Star (Chr (fun c => negb (c =? 39))); chr 39])
    (Alt (seqs [chr 34; Star (Chr (fun c => negb (c =? 34))); chr 34])
       (Seq (NotAhead (Chr quote_char))
          (Star (Chr (fun c => negb (c =? gt) && negb (space c)))))).

Definition attr_name : regex :=
  seqs [ Behind (fun c => quote_char c || space c || (c =? 47));
         Chr (fun c => negb (space c) && negb (c =? 47) && negb (c =? gt));
         Star (Chr (fun c => negb (space c) && negb (c =? 47)
                             && negb (c =? 61) && negb (c =? gt))) ].

Definition interesting_normal : regex := Chr (fun c => (c =? amp) || (c =? lt)).
Definition incomplete : regex :=
  Seq (chr amp) (Chr (fun c => alpha c || (c =? 35))).
Definition entityref : regex :=
  seqs [ chr amp;
         Group 1 (Seq (Chr alpha)
                    (Star (Chr (fun c => alnum c || (c =? 45) || (c =? 46)))));
         Chr (fun c => negb (alnum c)) ].
Definition charref : regex :=
  seqs [ lit "&#";
         Alt (plus (Chr digit))
           (Seq (Chr (fun c => (c =? 120) || (c =? 88))) (plus (Chr hex)));
         Chr (fun c => negb (hex c)) ].
Definition starttagopen : regex := Seq (chr lt) (Chr alpha).
Definition endtagopen : regex := Seq (lit "</") (Chr alpha).
Definition commentclose : regex := seqs [lit "--"; Star (Chr space); chr gt].
Definition tagfind_tolerant : regex :=
  Seq (Group 1 (Seq (Chr alpha) (Star (Chr name_char)))) space_or_slash.
Definition attrfind_tolerant : regex :=
  seqs [ Group 1 attr_name;
         opt (Group 2 (seqs [ Star (Chr space); plus (chr 61);
                              Star (Chr space); Group 3 attr_value ]));
         space_or_slash ].
Definition locatestarttagend_tolerant : regex :=
  seqs [ chr lt; Chr alpha; Star (Chr name_char);
         opt (Seq (Star (Chr (fun c => space c || (c =? 47))))
                (Star (seqs [ attr_name;
                              opt (seqs [ Star (Chr space); plus (chr 61);
                                          Star (Chr space); attr_value;
                                          Star (Chr space) ]);
                              space_or_slash ])));
         Star (Chr space) ].
Definition endtagfind : regex :=
  seqs [ lit "</"; Star (Chr space);
         Group 1 (Seq (Chr alpha)
                    (Star (Chr (fun c => alnum c || one_of "-.:_" c))));
         Star (Chr space); chr gt ].
Definition declname : regex :=
  seqs [ Chr alpha; Star (Chr (fun c => alnum c || one_of "-_." c));
         Star (Chr space) ].
Definition markedsectionclose : regex :=
  seqs [chr 93; Star (Chr space); chr 93; Star (Chr space); chr gt].
Definition msmarkedsectionclose : regex :=
  seqs [chr 93; Star (Chr space); chr gt].

(** A character of a pattern compiled with [re.I]: besides the two cases
    of the letter, [i] matches U+0130 and U+0131, [s] U+017F and [k]
    U+212A. *)
Definition ignore_case (p c : codepoint) : bool :=
  (c =? p) || (alpha p && (c =? p - 32))
  || ((p =? 105) && ((c =? 304) || (c =? 305)))
  || ((p =? 115) && (c =? 383))
  || ((p =? 107) && (c =? 8490)).

(** [</\s*elem\s*>] with [re.I], for a lower-case [elem]. *)
Definition cdata_close (elem : pystr) : regex :=
  seqs [ lit "</"; Star (Chr space);
         seqs (List.map (fun p => Chr (ignore_case p)) elem);
         Star (Chr space); chr gt ].

(** *** The tokenizer *)

Inductive token : Type :=
  | TStart (name : pystr)
  | TStartEnd (name : pystr)
  | TEnd (name : pystr)
  | TData (data : pystr)
  | TCharRef (name : pystr)
  | TEntityRef (name : pystr)
  | TComment (data : pystr)
  | TDecl (data : pystr)
  | TUnknownDecl (data : pystr)
  | TPi (data : pystr).

(** The parser's [cdata_elem] and the handler calls made so far, latest
    first. *)
Record pstate : Type := mk_pstate {
  cdata_elem : option pystr;
  emitted : list token
}.

Definition emit (t : token) (st : pstate) : pstate :=
  mk_pstate (cdata_elem st) (t :: emitted st).

Definition set_cdata (elem : option pystr) (st : pstate) : pstate :=
  mk_pstate elem (emitted st).

(** The position a parse function returns, [None] for [-1]. *)
Definition parsed : Type := result (option nat * pstate).

Definition end_of (m : mstate) : nat := pos m.

Definition group_text (n : nat) (m : mstate) (raw : pystr) : pystr :=
  match group n m with
  | Some (a, b) => sub raw a b
  | None => []
  end.

Definition check_for_whole_start_tag (raw : pystr) (i : nat)
  : result (option nat) :=
  match re_match locatestarttagend_tolerant raw i with
  | Some m =>
      let j := end_of m in
      match raw !! j with
      | None => Ok None
      | Some next =>
          if next =? gt then Ok (Some (S j))
          else if next =? 47 then
            if starts_at "/>" raw j then Ok (Some (j + 2)%nat) else Ok None
          else if alpha next || (next =? 61) then Ok None
          else if (i <? j)%nat then Ok (Some j) else Ok (Some (S i))
      end
  | None => Raise AssertionError
  end.

(** The loop over the attributes of [parse_starttag]: where it stops. *)
Fixpoint skip_attrs (fuel : nat) (raw : pystr) (k endpos : nat) : nat :=
  match fuel with
  | O => k
  | S fuel' =>
      if (k <? endpos)%nat then
        match re_match attrfind_tolerant raw k with
        | Some m => skip_attrs fuel' raw (end_of m) endpos
        | None => k
        end
      else k
  end.

Definition parse_starttag (raw : pystr) (i : nat) (st : pstate) : parsed :=
  e ← check_for_whole_start_tag raw i;
  match e with
  | None => Ok (None, st)
  | Some endpos =>
      match re_match tagfind_tolerant raw (S i) with
      | None => Raise AssertionError
      | Some m =>
          let tag := lower (group_text 1 m raw) in
          let k := skip_attrs (length raw) raw (end_of m) endpos in
          let end_ := strip (sub raw k endpos) in
          if negb (is_str ">" end_ || is_str "/>" end_)
          then Ok (Some endpos, emit (TData (sub raw i endpos)) st)
          else if is_str "/>" end_
          then Ok (Some endpos, emit (TStartEnd tag) st)
          else
            let st := emit (TStart tag) st in
            Ok (Some endpos,
                if is_str "script" tag || is_str "style" tag
                then set_cdata (Some tag) st else st)
      end
  end.

Definition parse_bogus_comment (raw : pystr) (i : nat) (st : pstate)
  : parsed :=
  match find_char gt raw (i + 2) with
  | None => Ok (None, st)
  | Some p => Ok (Some (S p), emit (TComment (sub raw (i + 2) p)) st)
  end.

Definition parse_endtag (raw : pystr) (i : nat) (st : pstate) : parsed :=
  match find_char gt raw (S i) with
  | None => Ok (None, st)
  | Some g =>
      let gtpos := S g in
      match re_match endtagfind raw i with
      | None =>
          match cdata_elem st with
          | Some _ => Ok (Some gtpos, emit (TData (sub raw i gtpos)) st)
          | None =>
              match re_match tagfind_tolerant raw (i + 2) with
              | None =>
                  if is_str "</>" (sub raw i (i + 3))
                  then Ok (Some (i + 3)%nat, st)
                  else parse_bogus_comment raw i st
              | Some nm =>
                  let tagname := lower (group_text 1 nm raw) in
                  let next := match find_char gt raw (end_of nm) with
                              | Some p => S p
                              | None => O
                              end in
                  Ok (Some next, emit (TEnd tagname) st)
              end
          end
      | Some m =>
          let elem := lower (group_text 1 m raw) in
          match cdata_elem st with
          | Some c =>
              if negb (bool_decide (elem = c))
              then Ok (Some gtpos, emit (TData (sub raw i gtpos)) st)
              else Ok (Some gtpos, set_cdata None (emit (TEnd elem) st))
          | None => Ok (Some gtpos, set_cdata None (emit (TEnd elem) st))
          end
      end
  end.

Definition parse_comment (raw : pystr) (i : nat) (st : pstate) : parsed :=
  match re_search commentclose raw (i + 4) with
  | None => Ok (None, st)
  | Some (j, m) => Ok (Some (end_of m), emit (TComment (sub raw (i + 4) j)) st)
  end.

Definition parse_pi (raw : pystr) (i : nat) (st : pstate) : parsed :=
  match find_char gt raw (i + 2) with
  | None => Ok (None, st)
  | Some j => Ok (Some (S j), emit (TPi (sub raw (i + 2) j)) st)
  end.

(** [_scan_name]: the name and the position after it. *)
Definition scan_name (raw : pystr) (i : nat) : result (option (pystr * nat)) :=
  if (i =? length raw)%nat then Ok None
  else
    match re_match declname raw i with
    | Some m =>
        if (end_of m =? length raw)%nat then Ok None
        else Ok (Some (lower (strip (sub raw i (end_of m))), end_of m))
    | None => Raise AssertionError
    end.

Definition parse_marked_section (raw : pystr) (i : nat) (st : pstate)
  : parsed :=
  s ← scan_name raw (i + 3);
  match s with
  | None => Ok (None, st)
  | Some (name, _) =>
      close ←
        (if List.existsb (fun k => is_str k name)
              ["temp"; "cdata"; "ignore"; "include"; "rcdata"]%string
         then Ok markedsectionclose
         else if List.existsb (fun k => is_str k name)
                   ["if"; "else"; "endif"]%string
         then Ok msmarkedsectionclose
         else Raise AssertionError);
      match re_search close raw (i + 3) with
      | None => Ok (None, st)
      | Some (j, m) =>
          Ok (Some (end_of m), emit (TUnknownDecl (sub raw (i + 3) j)) st)
      end
  end.

Definition is_doctype (raw : pystr) (i : nat) : bool :=
  is_str "<!doctype" (lower (sub raw i (i + 9))).

Definition parse_html_declaration (raw : pystr) (i : nat) (st : pstate)
  : parsed :=
  if starts_at "<!--" raw i then parse_comment raw i st
  else if starts_at "<![" raw i then parse_marked_section raw i st
  else if is_doctype raw i then
    match find_char gt raw (i + 9) with
    | None => Ok (None, st)
    | Some g => Ok (Some (S g), emit (TDecl (sub raw (i + 2) g)) st)
    end
  else parse_bogus_comment raw i st.

(** [s.endswith(suffix, i)]. *)
Definition ends_with_from (suffix : string) (s : pystr) (i : nat) : bool :=
  let t := drop i s in
  let n := length (str_lit suffix) in
  (n <=? length t)%nat && bool_decide (drop (length t - n) t = str_lit suffix).

(** What [goahead] reports for a construct that the end of the input
    leaves open. *)
Definition unterminated (raw : pystr) (i : nat) (st : pstate)
  : result pstate :=
  let n := length raw in
  if matches starttagopen raw i then Ok st
  else if starts_at "</" raw i then
    if (i + 2 =? n)%nat then Ok (emit (TData (str_lit "</")) st)
    else if matches endtagopen raw i then Ok st
    else Ok (emit (TComment (drop (i + 2) raw)) st)
  else if starts_at "<!--" raw i then
    let cut := if ends_with_from "--!" raw (i + 4) then 3%nat
               else if ends_with_from "--" raw (i + 4) then 2%nat
               else if ends_with_from "-" raw (i + 4) then 1%nat
               else 0%nat in
    Ok (emit (TComment (sub raw (i + 4) (n - cut))) st)
  else if starts_at "<![CDATA[" raw i
  then Ok (emit (TUnknownDecl (drop (i + 3) raw)) st)
  else if is_doctype raw i then Ok (emit (TDecl (drop (i + 2) raw)) st)
  else if starts_at "<!" raw i then Ok (emit (TComment (drop (i + 2) raw)) st)
  else if starts_at "<?" raw i then Ok (emit (TPi (drop (i + 2) raw)) st)
  else Raise AssertionError.

(** One turn of the loop of [goahead]: go on at a position, or stop
    there. *)
Inductive turn : Type :=
  | Continue (i : nat) (st : pstate)
  | Break (i : nat) (st : pstate).

(** After a reference matched up to [k], the next position: the
    character that ended the match is read again unless it is [;]. *)
Definition after_reference (raw : pystr) (k : nat) : nat :=
  if starts_at ";" raw (k - 1) then k else (k - 1)%nat.

Definition markup_turn (end_ : bool) (raw : pystr) (i : nat) (st : pstate)
  : result turn :=
  let n := length raw in
  if starts_at "<" raw i then
    r ← (if matches starttagopen raw i
         then Some <$> parse_starttag raw i st
         else if starts_at "</" raw i then Some <$> parse_endtag raw i st
         else if starts_at "<!--" raw i then Some <$> parse_comment raw i st
         else if starts_at "<?" raw i then Some <$> parse_pi raw i st
         else if starts_at "<!" raw i
         then Some <$> parse_html_declaration raw i st
         else if (S i <? n)%nat || end_
         then Ok (Some (Some (S i), emit (TData (str_lit "<")) st))
         else Ok None);
    match r with
    | None => Ok (Break i st)
    | Some (Some k, st') => Ok (Continue k st')
    | Some (None, st') =>
        if negb end_ then Ok (Break i st')
        else st'' ← unterminated raw i st'; Ok (Continue n st'')
    end
  else if starts_at "&#" raw i then
    match re_match charref raw i with
    | Some m =>
        let k := end_of m in
        Ok (Continue (after_reference raw k)
              (emit (TCharRef (sub raw (i + 2) (k - 1))) st))
    | None =>
        if bool_decide (semicolon ∈ drop i raw)
        then Ok (Break (i + 2) (emit (TData (sub raw i (i + 2))) st))
        else Ok (Break i st)
    end
  else if starts_at "&" raw i then
    match re_match entityref raw i with
    | Some m =>
        Ok (Continue (after_reference raw (end_of m))
              (emit (TEntityRef (group_text 1 m raw)) st))
    | None =>
        match re_match incomplete raw i with
        | Some m =>
            if end_ && bool_decide (sub raw i (end_of m) = drop i raw)
            then Ok (Break (S i) st)
            else Ok (Break i st)
        | None =>
            if (S i <? n)%nat
            then Ok (Continue (S i) (emit (TData (str_lit "&")) st))
            else Ok (Break i st)
        end
    end
  else Raise AssertionError.

Definition goahead_turn (end_ : bool) (raw : pystr) (i : nat) (st : pstate)
  : result turn :=
  let n := length raw in
  let found :=
    match cdata_elem st with
    | None => Some (default n (fst <$> re_search interesting_normal raw i))
    | Some elem => fst <$> re_search (cdata_close elem) raw i
    end in
  match found with
  | None => Ok (Break i st)
  | Some j =>
      let st := if (i <? j)%nat then emit (TData (sub raw i j)) st else st in
      if (j =? n)%nat then Ok (Break j st)
      else markup_turn end_ raw j st
  end.

Fixpoint goahead_loop (fuel : nat) (end_ : bool) (raw : pystr) (i : nat)
  (st : pstate) : result (nat * pstate) :=
  if (length raw <=? i)%nat then Ok (i, st)
  else
    match fuel with
    | O => Ok (i, st)
    | S fuel' =>
        t ← goahead_turn end_ raw i st;
        match t with
        | Continue i' st' => goahead_loop fuel' end_ raw i' st'
        | Break i' st' => Ok (i', st')
        end
    end.

(** [goahead(end)]: the data left in the buffer and the state. *)
Definition goahead (end_ : bool) (raw : pystr) (st : pstate)
  : result (pystr * pstate) :=
  r ← goahead_loop (S (length raw)) end_ raw 0 st;
  let '(i, st) := r in
  if end_ && (i <? length raw)%nat && negb (bool_decide (is_Some (cdata_elem st)))
  then Ok ([], emit (TData (drop i raw)) st)
  else Ok (drop i raw, st).

(** [parser.feed(markup); parser.close()]: the handler calls in order. *)
Definition tokenize (markup : pystr) : result (list token) :=
  r ← goahead false markup (mk_pstate None []);
  r' ← goahead true (fst r) (snd r);
  Ok (rev (emitted (snd r'))).

(** *** The tree builder *)

(** The classes of the strings of a document. *)
Inductive string_class : Type :=
  | NavigableString
  | CData
  | Comment
  | Doctype
  | Declaration
  | ProcessingInstruction
  | Script
  | Stylesheet
  | TemplateString
  | RubyTextString
  | RubyParenthesisString.

(** Tags whose strings get a class of their own. *)
Definition string_containers (name : pystr) : option string_class :=
  if is_str "rt" name then Some RubyTextString
  else if is_str "rp" name then Some RubyParenthesisString
  else if is_str "style" name then Some Stylesheet
  else if is_str "script" name then Some Script
  else if is_str "template" name then Some TemplateString
  else None.

Definition empty_element_tags : list string :=
  [ "area"; "base"; "br"; "col"; "embed"; "hr"; "img"; "input"; "keygen";
    "link"; "menuitem"; "meta"; "param"; "source"; "track"; "wbr";
    "basefont"; "bgsound"; "command"; "frame"; "image"; "isindex";
    "nextid"; "spacer" ]%string.

Definition is_empty_element (name : pystr) : bool :=
  List.existsb (fun t => is_str t name) empty_element_tags.

(** The open tags (innermost first), the data collected for the next
    string, the strings of the document (latest first) and the void tags
    closed on opening. *)
Record soup : Type := mk_soup {
  tag_stack : list pystr;
  current_data : list pystr;
  strings : list (string_class * pystr);
  already_closed : list pystr
}.

(** The class of a string that ends now: the one asked for, or the one
    of the innermost open container, or [NavigableString]. *)
Definition string_container (base : option string_class) (s : soup)
  : string_class :=
  match base with
  | Some c => c
  | None =>
      match omap string_containers (tag_stack s) with
      | c :: _ => c
      | [] => NavigableString
      end
  end.

(** [endData]: the collected data becomes a string.  (A string of ASCII
    white space is first replaced by one space or newline; [get_text]
    drops it either way.) *)
Definition end_data (base : option string_class) (s : soup) : soup :=
  match current_data s with
  | [] => s
  | parts =>
      mk_soup (tag_stack s) []
        ((string_container base s, concat parts) :: strings s)
        (already_closed s)
  end.

Definition handle_data (data : pystr) (s : soup) : soup :=
  mk_soup (tag_stack s) (current_data s ++ [data]) (strings s)
    (already_closed s).

(** [_popToTag]: close the open tags up to the innermost one called
    [name], if there is one. *)
Fixpoint pop_to (name : pystr) (stack : list pystr) : option (list pystr) :=
  match stack with
  | [] => None
  | t :: stack' =>
      if bool_decide (t = name) then Some stack' else pop_to name stack'
  end.

Definition soup_starttag (name : pystr) (s : soup) : soup :=
  let s := end_data None s in
  mk_soup (name :: tag_stack s) (current_data s) (strings s)
    (already_closed s).

Definition soup_endtag (name : pystr) (s : soup) : soup :=
  let s := end_data None s in
  mk_soup (default (tag_stack s) (pop_to name (tag_stack s)))
    (current_data s) (strings s) (already_closed s).

(** [l.remove(x)] for an [x] in [l]. *)
Fixpoint remove_first (x : pystr) (l : list pystr) : list pystr :=
  match l with
  | [] => []
  | y :: l' => if bool_decide (y = x) then l' else y :: remove_first x l'
  end.

(** The parser's [handle_endtag] with [check_already_closed=True]. *)
Definition parser_endtag (name : pystr) (s : soup) : soup :=
  if bool_decide (name ∈ already_closed s)
  then mk_soup (tag_stack s) (current_data s) (strings s)
         (remove_first name (already_closed s))
  else soup_endtag name s.

Definition special_string (c : string_class) (data : pystr) (s : soup)
  : soup :=
  end_data (Some c) (handle_data data (end_data None s)).

(** Numbers of character references. *)
Definition hex_value (c : codepoint) : Z :=
  if digit c then c - 48
  else if in_range 97 102 c then c - 87
  else c - 55.

Definition number (base : Z) (s : pystr) : Z :=
  fold_left (fun acc c => acc * base + hex_value c) s 0.

(** windows-1252 for the bytes 0x80..0x9F, the bytes it leaves undefined
    standing for themselves. *)
Definition cp1252_high : list Z :=
  [ 8364; 129; 8218; 402; 8222; 8230; 8224; 8225; 710; 8240; 352; 8249;
    338; 141; 381; 143; 144; 8216; 8217; 8220; 8221; 8226; 8211; 8212;
    732; 8482; 353; 8250; 339; 157; 382; 376 ].

Definition replacement_character : codepoint := 65533.

(** The named character references of HTML 5 ([html.entities.html5]). *)
Definition html5 : list (string * pystr) :=
  [ ("AElig", [198]); ("AElig;", [198]); ("AMP", [38]); ("AMP;", [38]);
    ("Aacute", [193]); ("Aacute;", [193]); ("Abreve;", [258]);
    ("Acirc", [194]); ("Acirc;", [194]); ("Acy;", [1040]); ("Afr;", [120068]);
    ("Agrave", [192]); ("Agrave;", [192]); ("Alpha;", [913]);
    ("Amacr;", [256]); ("And;", [10835]); ("Aogon;", [260]);
    ("Aopf;", [120120]); ("ApplyFunction;", [8289]); ("Aring", [197]);
    ("Aring;", [197]); ("Ascr;", [119964]); ("Assign;", [8788]);
    ("Atilde", [195]); ("Atilde;", [195]); ("Auml", [196]); ("Auml;", [196]);
    ("Backslash;", [8726]); ("Barv;", [10983]); ("Barwed;", [8966]);
    ("Bcy;", [1041]); ("Because;", [8757]); ("Bernoullis;", [8492]);
    ("Beta;", [914]); ("Bfr;", [120069]); ("Bopf;", [120121]);
    ("Breve;", [728]); ("Bscr;", [8492]); ("Bumpeq;", [8782]);
    ("CHcy;", [1063]); ("COPY", [169]); ("COPY;", [169]); ("Cacute;", [262]);
    ("Cap;", [8914]); ("CapitalDifferentialD;", [8517]); ("Cayleys;", [8493]);
    ("Ccaron;", [268]); ("Ccedil", [199]); ("Ccedil;", [199]);
    ("Ccirc;", [264]); ("Cconint;", [8752]); ("Cdot;", [266]);
    ("Cedilla;", [184]); ("CenterDot;", [183]); ("Cfr;", [8493]);
    ("Chi;", [935]); ("CircleDot;", [8857]); ("CircleMinus;", [8854]);
    ("CirclePlus;", [8853]); ("CircleTimes;", [8855]);
    ("ClockwiseContourIntegral;", [8754]); ("CloseCurlyDoubleQuote;", [8221]);
    ("CloseCurlyQuote;", [8217]); ("Colon;", [8759]); ("Colone;", [10868]);
    ("Congruent;", [8801]); ("Conint;", [8751]); ("ContourIntegral;", [8750]);
    ("Copf;", [8450]); ("Coproduct;", [8720]);
    ("CounterClockwiseContourIntegral;", [8755]); ("Cross;", [10799]);
    ("Cscr;", [119966]); ("Cup;", [8915]); ("CupCap;", [8781]);
    ("DD;", [8517]); ("DDotrahd;", [10513]); ("DJcy;", [1026]);
    ("DScy;", [1029]); ("DZcy;", [1039]); ("Dagger;", [8225]);
    ("Darr;", [8609]); ("Dashv;", [10980]); ("Dcaron;", [270]);
    ("Dcy;", [1044]); ("Del;", [8711]); ("Delta;", [916]); ("Dfr;", [120071]);
    ("DiacriticalAcute;", [180]); ("DiacriticalDot;", [729]);
    ("DiacriticalDoubleAcute;", [733]); ("DiacriticalGrave;", [96]);
    ("DiacriticalTilde;", [732]); ("Diamond;", [8900]);
    ("DifferentialD;", [8518]); ("Dopf;", [120123]); ("Dot;", [168]);
    ("DotDot;", [8412]); ("DotEqual;", [8784]);
    ("DoubleContourIntegral;", [8751]); ("DoubleDot;", [168]);
    ("DoubleDownArrow;", [8659]); ("DoubleLeftArrow;", [8656]);
    ("DoubleLeftRightArrow;", [8660]); ("DoubleLeftTee;", [10980]);
    ("DoubleLongLeftArrow;", [10232]); ("DoubleLongLeftRightArrow;", [10234]);
    ("DoubleLongRightArrow;", [10233]); ("DoubleRightArrow;", [8658]);
    ("DoubleRightTee;", [8872]); ("DoubleUpArrow;", [8657]);
    ("DoubleUpDownArrow;", [8661]); ("DoubleVerticalBar;", [8741]);
    ("DownArrow;", [8595]); ("DownArrowBar;", [10515]);
    ("DownArrowUpArrow;", [8693]); ("DownBreve;", [785]);
    ("DownLeftRightVector;", [10576]); ("DownLeftTeeVector;", [10590]);
    ("DownLeftVector;", [8637]); ("DownLeftVectorBar;", [10582]);
    ("DownRightTeeVector;", [10591]); ("DownRightVector;", [8641]);
    ("DownRightVectorBar;", [10583]); ("DownTee;", [8868]);
    ("DownTeeArrow;", [8615]); ("Downarrow;", [8659]); ("Dscr;", [119967]);
    ("Dstrok;", [272]); ("ENG;", [330]); ("ETH", [208]); ("ETH;", [208]);
    ("Eacute", [201]); ("Eacute;", [201]); ("Ecaron;", [282]);
    ("Ecirc", [202]); ("Ecirc;", [202]); ("Ecy;", [1069]); ("Edot;", [278]);
    ("Efr;", [120072]); ("Egrave", [200]); ("Egrave;", [200]);
    ("Element;", [8712]); ("Emacr;", [274]); ("EmptySmallSquare;", [9723]);
    ("EmptyVerySmallSquare;", [9643]); ("Eogon;", [280]); ("Eopf;", [120124]);
    ("Epsilon;", [917]); ("Equal;", [10869]); ("EqualTilde;", [8770]);
    ("Equilibrium;", [8652]); ("Escr;", [8496]); ("Esim;", [10867]);
    ("Eta;", [919]); ("Euml", [203]); ("Euml;", [203]); ("Exists;", [8707]);
    ("ExponentialE;", [8519]); ("Fcy;", [1060]); ("Ffr;", [120073]);
    ("FilledSmallSquare;", [9724]); ("FilledVerySmallSquare;", [9642]);
    ("Fopf;", [120125]); ("ForAll;", [8704]); ("Fouriertrf;", [8497]);
    ("Fscr;", [8497]); ("GJcy;", [1027]); ("GT", [62]); ("GT;", [62]);
    ("Gamma;", [915]); ("Gammad;", [988]); ("Gbreve;", [286]);
    ("Gcedil;", [290]); ("Gcirc;", [284]); ("Gcy;", [1043]); ("Gdot;", [288]);
    ("Gfr;", [120074]); ("Gg;", [8921]); ("Gopf;", [120126]);
    ("GreaterEqual;", [8805]); ("GreaterEqualLess;", [8923]);
    ("GreaterFullEqual;", [8807]); ("GreaterGreater;", [10914]);
    ("GreaterLess;", [8823]); ("GreaterSlantEqual;", [10878]);
    ("GreaterTilde;", [8819]); ("Gscr;", [119970]); ("Gt;", [8811]);
    ("HARDcy;", [1066]); ("Hacek;", [711]); ("Hat;", [94]); ("Hcirc;", [292]);
    ("Hfr;", [8460]); ("HilbertSpace;", [8459]); ("Hopf;", [8461]);
    ("HorizontalLine;", [9472]); ("Hscr;", [8459]); ("Hstrok;", [294]);
    ("HumpDownHump;", [8782]); ("HumpEqual;", [8783]); ("IEcy;", [1045]);
    ("IJlig;", [306]); ("IOcy;", [1025]); ("Iacute", [205]);
    ("Iacute;", [205]); ("Icirc", [206]); ("Icirc;", [206]); ("Icy;", [1048]);
    ("Idot;", [304]); ("Ifr;", [8465]); ("Igrave", [204]); ("Igrave;", [204]);
    ("Im;", [8465]); ("Imacr;", [298]); ("ImaginaryI;", [8520]);
    ("Implies;", [8658]); ("Int;", [8748]); ("Integral;", [8747]);
    ("Intersection;", [8898]); ("InvisibleComma;", [8291]);
    ("InvisibleTimes;", [8290]); ("Iogon;", [302]); ("Iopf;", [120128]);
    ("Iota;", [921]); ("Iscr;", [8464]); ("Itilde;", [296]);
    ("Iukcy;", [1030]); ("Iuml", [207]); ("Iuml;", [207]); ("Jcirc;", [308]);
    ("Jcy;", [1049]); ("Jfr;", [120077]); ("Jopf;", [120129]);
    ("Jscr;", [119973]); ("Jsercy;", [1032]); ("Jukcy;", [1028]);
    ("KHcy;", [1061]); ("KJcy;", [1036]); ("Kappa;", [922]);
    ("Kcedil;", [310]); ("Kcy;", [1050]); ("Kfr;", [120078]);
    ("Kopf;", [120130]); ("Kscr;", [119974]); ("LJcy;", [1033]); ("LT", [60]);
    ("LT;", [60]); ("Lacute;", [313]); ("Lambda;", [923]); ("Lang;", [10218]);
    ("Laplacetrf;", [8466]); ("Larr;", [8606]); ("Lcaron;", [317]);
    ("Lcedil;", [315]); ("Lcy;", [1051]); ("LeftAngleBracket;", [10216]);
    ("LeftArrow;", [8592]); ("LeftArrowBar;", [8676]);
    ("LeftArrowRightArrow;", [8646]); ("LeftCeiling;", [8968]);
    ("LeftDoubleBracket;", [10214]); ("LeftDownTeeVector;", [10593]);
    ("LeftDownVector;", [8643]); ("LeftDownVectorBar;", [10585]);
    ("LeftFloor;", [8970]); ("LeftRightArrow;", [8596]);
    ("LeftRightVector;", [10574]); ("LeftTee;", [8867]);
    ("LeftTeeArrow;", [8612]); ("LeftTeeVector;", [10586]);
    ("LeftTriangle;", [8882]); ("LeftTriangleBar;", [10703]);
    ("LeftTriangleEqual;", [8884]); ("LeftUpDownVector;", [10577]);
    ("LeftUpTeeVector;", [10592]); ("LeftUpVector;", [8639]);
    ("LeftUpVectorBar;", [10584]); ("LeftVector;", [8636]);
    ("LeftVectorBar;", [10578]); ("Leftarrow;", [8656]);
    ("Leftrightarrow;", [8660]); ("LessEqualGreater;", [8922]);
    ("LessFullEqual;", [8806]); ("LessGreater;", [8822]);
    ("LessLess;", [10913]); ("LessSlantEqual;", [10877]);
    ("LessTilde;", [8818]); ("Lfr;", [120079]); ("Ll;", [8920]);
    ("Lleftarrow;", [8666]); ("Lmidot;", [319]); ("LongLeftArrow;", [10229]);
    ("LongLeftRightArrow;", [10231]); ("LongRightArrow;", [10230]);
    ("Longleftarrow;", [10232]); ("Longleftrightarrow;", [10234]);
    ("Longrightarrow;", [10233]); ("Lopf;", [120131]);
    ("LowerLeftArrow;", [8601]); ("LowerRightArrow;", [8600]);
    ("Lscr;", [8466]); ("Lsh;", [8624]); ("Lstrok;", [321]); ("Lt;", [8810]);
    ("Map;", [10501]); ("Mcy;", [1052]); ("MediumSpace;", [8287]);
    ("Mellintrf;", [8499]); ("Mfr;", [120080]); ("MinusPlus;", [8723]);
    ("Mopf;", [120132]); ("Mscr;", [8499]); ("Mu;", [924]); ("NJcy;", [1034]);
    ("Nacute;", [323]); ("Ncaron;", [327]); ("Ncedil;", [325]);
    ("Ncy;", [1053]); ("NegativeMediumSpace;", [8203]);
    ("NegativeThickSpace;", [8203]); ("NegativeThinSpace;", [8203]);
    ("NegativeVeryThinSpace;", [8203]); ("NestedGreaterGreater;", [8811]);
    ("NestedLessLess;", [8810]); ("NewLine;", [10]); ("Nfr;", [120081]);
    ("NoBreak;", [8288]); ("NonBreakingSpace;", [160]); ("Nopf;", [8469]);
    ("Not;", [10988]); ("NotCongruent;", [8802]); ("NotCupCap;", [8813]);
    ("NotDoubleVerticalBar;", [8742]); ("NotElement;", [8713]);
    ("NotEqual;", [8800]); ("NotEqualTilde;", [8770; 824]);
    ("NotExists;", [8708]); ("NotGreater;", [8815]);
    ("NotGreaterEqual;", [8817]); ("NotGreaterFullEqual;", [8807; 824]);
    ("NotGreaterGreater;", [8811; 824]); ("NotGreaterLess;", [8825]);
    ("NotGreaterSlantEqual;", [10878; 824]); ("NotGreaterTilde;", [8821]);
    ("NotHumpDownHump;", [8782; 824]); ("NotHumpEqual;", [8783; 824]);
    ("NotLeftTriangle;", [8938]); ("NotLeftTriangleBar;", [10703; 824]);
    ("NotLeftTriangleEqual;", [8940]); ("NotLess;", [8814]);
    ("NotLessEqual;", [8816]); ("NotLessGreater;", [8824]);
    ("NotLessLess;", [8810; 824]); ("NotLessSlantEqual;", [10877; 824]);
    ("NotLessTilde;", [8820]); ("NotNestedGreaterGreater;", [10914; 824]);
    ("NotNestedLessLess;", [10913; 824]); ("NotPrecedes;", [8832]);
    ("NotPrecedesEqual;", [10927; 824]); ("NotPrecedesSlantEqual;", [8928]);
    ("NotReverseElement;", [8716]); ("NotRightTriangle;", [8939]);
    ("NotRightTriangleBar;", [10704; 824]); ("NotRightTriangleEqual;", [8941]);
    ("NotSquareSubset;", [8847; 824]); ("NotSquareSubsetEqual;", [8930]);
    ("NotSquareSuperset;", [8848; 824]); ("NotSquareSupersetEqual;", [8931]);
    ("NotSubset;", [8834; 8402]); ("NotSubsetEqual;", [8840]);
    ("NotSucceeds;", [8833]); ("NotSucceedsEqual;", [10928; 824]);
    ("NotSucceedsSlantEqual;", [8929]); ("NotSucceedsTilde;", [8831; 824]);
    ("NotSuperset;", [8835; 8402]); ("NotSupersetEqual;", [8841]);
    ("NotTilde;", [8769]); ("NotTildeEqual;", [8772]);
    ("NotTildeFullEqual;", [8775]); ("NotTildeTilde;", [8777]);
    ("NotVerticalBar;", [8740]); ("Nscr;", [119977]); ("Ntilde", [209]);
    ("Ntilde;", [209]); ("Nu;", [925]); ("OElig;", [338]); ("Oacute", [211]);
    ("Oacute;", [211]); ("Ocirc", [212]); ("Ocirc;", [212]); ("Ocy;", [1054]);
    ("Odblac;", [336]); ("Ofr;", [120082]); ("Ograve", [210]);
    ("Ograve;", [210]); ("Omacr;", [332]); ("Omega;", [937]);
    ("Omicron;", [927]); ("Oopf;", [120134]);
    ("OpenCurlyDoubleQuote;", [8220]); ("OpenCurlyQuote;", [8216]);
    ("Or;", [10836]); ("Oscr;", [119978]); ("Oslash", [216]);
    ("Oslash;", [216]); ("Otilde", [213]); ("Otilde;", [213]);
    ("Otimes;", [10807]); ("Ouml", [214]); ("Ouml;", [214]);
    ("OverBar;", [8254]); ("OverBrace;", [9182]); ("OverBracket;", [9140]);
    ("OverParenthesis;", [9180]); ("PartialD;", [8706]); ("Pcy;", [1055]);
    ("Pfr;", [120083]); ("Phi;", [934]); ("Pi;", [928]); ("PlusMinus;", [177]);
    ("Poincareplane;", [8460]); ("Popf;", [8473]); ("Pr;", [10939]);
    ("Precedes;", [8826]); ("PrecedesEqual;", [10927]);
    ("PrecedesSlantEqual;", [8828]); ("PrecedesTilde;", [8830]);
    ("Prime;", [8243]); ("Product;", [8719]); ("Proportion;", [8759]);
    ("Proportional;", [8733]); ("Pscr;", [119979]); ("Psi;", [936]);
    ("QUOT", [34]); ("QUOT;", [34]); ("Qfr;", [120084]); ("Qopf;", [8474]);
    ("Qscr;", [119980]); ("RBarr;", [10512]); ("REG", [174]); ("REG;", [174]);
    ("Racute;", [340]); ("Rang;", [10219]); ("Rarr;", [8608]);
    ("Rarrtl;", [10518]); ("Rcaron;", [344]); ("Rcedil;", [342]);
    ("Rcy;", [1056]); ("Re;", [8476]); ("ReverseElement;", [8715]);
    ("ReverseEquilibrium;", [8651]); ("ReverseUpEquilibrium;", [10607]);
    ("Rfr;", [8476]); ("Rho;", [929]); ("RightAngleBracket;", [10217]);
    ("RightArrow;", [8594]); ("RightArrowBar;", [8677]);
    ("RightArrowLeftArrow;", [8644]); ("RightCeiling;", [8969]);
    ("RightDoubleBracket;", [10215]); ("RightDownTeeVector;", [10589]);
    ("RightDownVector;", [8642]); ("RightDownVectorBar;", [10581]);
    ("RightFloor;", [8971]); ("RightTee;", [8866]); ("RightTeeArrow;", [8614]);
    ("RightTeeVector;", [10587]); ("RightTriangle;", [8883]);
    ("RightTriangleBar;", [10704]); ("RightTriangleEqual;", [8885]);
    ("RightUpDownVector;", [10575]); ("RightUpTeeVector;", [10588]);
    ("RightUpVector;", [8638]); ("RightUpVectorBar;", [10580]);
    ("RightVector;", [8640]); ("RightVectorBar;", [10579]);
    ("Rightarrow;", [8658]); ("Ropf;", [8477]); ("RoundImplies;", [10608]);
    ("Rrightarrow;", [8667]); ("Rscr;", [8475]); ("Rsh;", [8625]);
    ("RuleDelayed;", [10740]); ("SHCHcy;", [1065]); ("SHcy;", [1064]);
    ("SOFTcy;", [1068]); ("Sacute;", [346]); ("Sc;", [10940]);
    ("Scaron;", [352]); ("Scedil;", [350]); ("Scirc;", [348]);
    ("Scy;", [1057]); ("Sfr;", [120086]); ("ShortDownArrow;", [8595]);
    ("ShortLeftArrow;", [8592]); ("ShortRightArrow;", [8594]);
    ("ShortUpArrow;", [8593]); ("Sigma;", [931]); ("SmallCircle;", [8728]);
    ("Sopf;", [120138]); ("Sqrt;", [8730]); ("Square;", [9633]);
    ("SquareIntersection;", [8851]); ("SquareSubset;", [8847]);
    ("SquareSubsetEqual;", [8849]); ("SquareSuperset;", [8848]);
    ("SquareSupersetEqual;", [8850]); ("SquareUnion;", [8852]);
    ("Sscr;", [119982]); ("Star;", [8902]); ("Sub;", [8912]);
    ("Subset;", [8912]); ("SubsetEqual;", [8838]); ("Succeeds;", [8827]);
    ("SucceedsEqual;", [10928]); ("SucceedsSlantEqual;", [8829]);
    ("SucceedsTilde;", [8831]); ("SuchThat;", [8715]); ("Sum;", [8721]);
    ("Sup;", [8913]); ("Superset;", [8835]); ("SupersetEqual;", [8839]);
    ("Supset;", [8913]); ("THORN", [222]); ("THORN;", [222]);
    ("TRADE;", [8482]); ("TSHcy;", [1035]); ("TScy;", [1062]); ("Tab;", [9]);
    ("Tau;", [932]); ("Tcaron;", [356]); ("Tcedil;", [354]); ("Tcy;", [1058]);
    ("Tfr;", [120087]); ("Therefore;", [8756]); ("Theta;", [920]);
    ("ThickSpace;", [8287; 8202]); ("ThinSpace;", [8201]); ("Tilde;", [8764]);
    ("TildeEqual;", [8771]); ("TildeFullEqual;", [8773]);
    ("TildeTilde;", [8776]); ("Topf;", [120139]); ("TripleDot;", [8411]);
    ("Tscr;", [119983]); ("Tstrok;", [358]); ("Uacute", [218]);
    ("Uacute;", [218]); ("Uarr;", [8607]); ("Uarrocir;", [10569]);
    ("Ubrcy;", [1038]); ("Ubreve;", [364]); ("Ucirc", [219]);
    ("Ucirc;", [219]); ("Ucy;", [1059]); ("Udblac;", [368]);
    ("Ufr;", [120088]); ("Ugrave", [217]); ("Ugrave;", [217]);
    ("Umacr;", [362]); ("UnderBar;", [95]); ("UnderBrace;", [9183]);
    ("UnderBracket;", [9141]); ("UnderParenthesis;", [9181]);
    ("Union;", [8899]); ("UnionPlus;", [8846]); ("Uogon;", [370]);
    ("Uopf;", [120140]); ("UpArrow;", [8593]); ("UpArrowBar;", [10514]);
    ("UpArrowDownArrow;", [8645]); ("UpDownArrow;", [8597]);
    ("UpEquilibrium;", [10606]); ("UpTee;", [8869]); ("UpTeeArrow;", [8613]);
    ("Uparrow;", [8657]); ("Updownarrow;", [8661]);
    ("UpperLeftArrow;", [8598]); ("UpperRightArrow;", [8599]);
    ("Upsi;", [978]); ("Upsilon;", [933]); ("Uring;", [366]);
    ("Uscr;", [119984]); ("Utilde;", [360]); ("Uuml", [220]); ("Uuml;", [220]);
    ("VDash;", [8875]); ("Vbar;", [10987]); ("Vcy;", [1042]);
    ("Vdash;", [8873]); ("Vdashl;", [10982]); ("Vee;", [8897]);
    ("Verbar;", [8214]); ("Vert;", [8214]); ("VerticalBar;", [8739]);
    ("VerticalLine;", [124]); ("VerticalSeparator;", [10072]);
    ("VerticalTilde;", [8768]); ("VeryThinSpace;", [8202]); ("Vfr;", [120089]);
    ("Vopf;", [120141]); ("Vscr;", [119985]); ("Vvdash;", [8874]);
    ("Wcirc;", [372]); ("Wedge;", [8896]); ("Wfr;", [120090]);
    ("Wopf;", [120142]); ("Wscr;", [119986]); ("Xfr;", [120091]);
    ("Xi;", [926]); ("Xopf;", [120143]); ("Xscr;", [119987]);
    ("YAcy;", [1071]); ("YIcy;", [1031]); ("YUcy;", [1070]); ("Yacute", [221]);
    ("Yacute;", [221]); ("Ycirc;", [374]); ("Ycy;", [1067]);
    ("Yfr;", [120092]); ("Yopf;", [120144]); ("Yscr;", [119988]);
    ("Yuml;", [376]); ("ZHcy;", [1046]); ("Zacute;", [377]);
    ("Zcaron;", [381]); ("Zcy;", [1047]); ("Zdot;", [379]);
    ("ZeroWidthSpace;", [8203]); ("Zeta;", [918]); ("Zfr;", [8488]);
    ("Zopf;", [8484]); ("Zscr;", [119989]); ("aacute", [225]);
    ("aacute;", [225]); ("abreve;", [259]); ("ac;", [8766]);
    ("acE;", [8766; 819]); ("acd;", [8767]); ("acirc", [226]);
    ("acirc;", [226]); ("acute", [180]); ("acute;", [180]); ("acy;", [1072]);
    ("aelig", [230]); ("aelig;", [230]); ("af;", [8289]); ("afr;", [120094]);
    ("agrave", [224]); ("agrave;", [224]); ("alefsym;", [8501]);
    ("aleph;", [8501]); ("alpha;", [945]); ("amacr;", [257]);
    ("amalg;", [10815]); ("amp", [38]); ("amp;", [38]); ("and;", [8743]);
    ("andand;", [10837]); ("andd;", [10844]); ("andslope;", [10840]);
    ("andv;", [10842]); ("ang;", [8736]); ("ange;", [10660]);
    ("angle;", [8736]); ("angmsd;", [8737]); ("angmsdaa;", [10664]);
    ("angmsdab;", [10665]); ("angmsdac;", [10666]); ("angmsdad;", [10667]);
    ("angmsdae;", [10668]); ("angmsdaf;", [10669]); ("angmsdag;", [10670]);
    ("angmsdah;", [10671]); ("angrt;", [8735]); ("angrtvb;", [8894]);
    ("angrtvbd;", [10653]); ("angsph;", [8738]); ("angst;", [197]);
    ("angzarr;", [9084]); ("aogon;", [261]); ("aopf;", [120146]);
    ("ap;", [8776]); ("apE;", [10864]); ("apacir;", [10863]); ("ape;", [8778]);
    ("apid;", [8779]); ("apos;", [39]); ("approx;", [8776]);
    ("approxeq;", [8778]); ("aring", [229]); ("aring;", [229]);
    ("ascr;", [119990]); ("ast;", [42]); ("asymp;", [8776]);
    ("asympeq;", [8781]); ("atilde", [227]); ("atilde;", [227]);
    ("auml", [228]); ("auml;", [228]); ("awconint;", [8755]);
    ("awint;", [10769]); ("bNot;", [10989]); ("backcong;", [8780]);
    ("backepsilon;", [1014]); ("backprime;", [8245]); ("backsim;", [8765]);
    ("backsimeq;", [8909]); ("barvee;", [8893]); ("barwed;", [8965]);
    ("barwedge;", [8965]); ("bbrk;", [9141]); ("bbrktbrk;", [9142]);
    ("bcong;", [8780]); ("bcy;", [1073]); ("bdquo;", [8222]);
    ("becaus;", [8757]); ("because;", [8757]); ("bemptyv;", [10672]);
    ("bepsi;", [1014]); ("bernou;", [8492]); ("beta;", [946]);
    ("beth;", [8502]); ("between;", [8812]); ("bfr;", [120095]);
    ("bigcap;", [8898]); ("bigcirc;", [9711]); ("bigcup;", [8899]);
    ("bigodot;", [10752]); ("bigoplus;", [10753]); ("bigotimes;", [10754]);
    ("bigsqcup;", [10758]); ("bigstar;", [9733]); ("bigtriangledown;", [9661]);
    ("bigtriangleup;", [9651]); ("biguplus;", [10756]); ("bigvee;", [8897]);
    ("bigwedge;", [8896]); ("bkarow;", [10509]); ("blacklozenge;", [10731]);
    ("blacksquare;", [9642]); ("blacktriangle;", [9652]);
    ("blacktriangledown;", [9662]); ("blacktriangleleft;", [9666]);
    ("blacktriangleright;", [9656]); ("blank;", [9251]); ("blk12;", [9618]);
    ("blk14;", [9617]); ("blk34;", [9619]); ("block;", [9608]);
    ("bne;", [61; 8421]); ("bnequiv;", [8801; 8421]); ("bnot;", [8976]);
    ("bopf;", [120147]); ("bot;", [8869]); ("bottom;", [8869]);
    ("bowtie;", [8904]); ("boxDL;", [9559]); ("boxDR;", [9556]);
    ("boxDl;", [9558]); ("boxDr;", [9555]); ("boxH;", [9552]);
    ("boxHD;", [9574]); ("boxHU;", [9577]); ("boxHd;", [9572]);
    ("boxHu;", [9575]); ("boxUL;", [9565]); ("boxUR;", [9562]);
    ("boxUl;", [9564]); ("boxUr;", [9561]); ("boxV;", [9553]);
    ("boxVH;", [9580]); ("boxVL;", [9571]); ("boxVR;", [9568]);
    ("boxVh;", [9579]); ("boxVl;", [9570]); ("boxVr;", [9567]);
    ("boxbox;", [10697]); ("boxdL;", [9557]); ("boxdR;", [9554]);
    ("boxdl;", [9488]); ("boxdr;", [9484]); ("boxh;", [9472]);
    ("boxhD;", [9573]); ("boxhU;", [9576]); ("boxhd;", [9516]);
    ("boxhu;", [9524]); ("boxminus;", [8863]); ("boxplus;", [8862]);
    ("boxtimes;", [8864]); ("boxuL;", [9563]); ("boxuR;", [9560]);
    ("boxul;", [9496]); ("boxur;", [9492]); ("boxv;", [9474]);
    ("boxvH;", [9578]); ("boxvL;", [9569]); ("boxvR;", [9566]);
    ("boxvh;", [9532]); ("boxvl;", [9508]); ("boxvr;", [9500]);
    ("bprime;", [8245]); ("breve;", [728]); ("brvbar", [166]);
    ("brvbar;", [166]); ("bscr;", [119991]); ("bsemi;", [8271]);
    ("bsim;", [8765]); ("bsime;", [8909]); ("bsol;", [92]);
    ("bsolb;", [10693]); ("bsolhsub;", [10184]); ("bull;", [8226]);
    ("bullet;", [8226]); ("bump;", [8782]); ("bumpE;", [10926]);
    ("bumpe;", [8783]); ("bumpeq;", [8783]); ("cacute;", [263]);
    ("cap;", [8745]); ("capand;", [10820]); ("capbrcup;", [10825]);
    ("capcap;", [10827]); ("capcup;", [10823]); ("capdot;", [10816]);
    ("caps;", [8745; 65024]); ("caret;", [8257]); ("caron;", [711]);
    ("ccaps;", [10829]); ("ccaron;", [269]); ("ccedil", [231]);
    ("ccedil;", [231]); ("ccirc;", [265]); ("ccups;", [10828]);
    ("ccupssm;", [10832]); ("cdot;", [267]); ("cedil", [184]);
    ("cedil;", [184]); ("cemptyv;", [10674]); ("cent", [162]);
    ("cent;", [162]); ("centerdot;", [183]); ("cfr;", [120096]);
    ("chcy;", [1095]); ("check;", [10003]); ("checkmark;", [10003]);
    ("chi;", [967]); ("cir;", [9675]); ("cirE;", [10691]); ("circ;", [710]);
    ("circeq;", [8791]); ("circlearrowleft;", [8634]);
    ("circlearrowright;", [8635]); ("circledR;", [174]); ("circledS;", [9416]);
    ("circledast;", [8859]); ("circledcirc;", [8858]);
    ("circleddash;", [8861]); ("cire;", [8791]); ("cirfnint;", [10768]);
    ("cirmid;", [10991]); ("cirscir;", [10690]); ("clubs;", [9827]);
    ("clubsuit;", [9827]); ("colon;", [58]); ("colone;", [8788]);
    ("coloneq;", [8788]); ("comma;", [44]); ("commat;", [64]);
    ("comp;", [8705]); ("compfn;", [8728]); ("complement;", [8705]);
    ("complexes;", [8450]); ("cong;", [8773]); ("congdot;", [10861]);
    ("conint;", [8750]); ("copf;", [120148]); ("coprod;", [8720]);
    ("copy", [169]); ("copy;", [169]); ("copysr;", [8471]); ("crarr;", [8629]);
    ("cross;", [10007]); ("cscr;", [119992]); ("csub;", [10959]);
    ("csube;", [10961]); ("csup;", [10960]); ("csupe;", [10962]);
    ("ctdot;", [8943]); ("cudarrl;", [10552]); ("cudarrr;", [10549]);
    ("cuepr;", [8926]); ("cuesc;", [8927]); ("cularr;", [8630]);
    ("cularrp;", [10557]); ("cup;", [8746]); ("cupbrcap;", [10824]);
    ("cupcap;", [10822]); ("cupcup;", [10826]); ("cupdot;", [8845]);
    ("cupor;", [10821]); ("cups;", [8746; 65024]); ("curarr;", [8631]);
    ("curarrm;", [10556]); ("curlyeqprec;", [8926]); ("curlyeqsucc;", [8927]);
    ("curlyvee;", [8910]); ("curlywedge;", [8911]); ("curren", [164]);
    ("curren;", [164]); ("curvearrowleft;", [8630]);
    ("curvearrowright;", [8631]); ("cuvee;", [8910]); ("cuwed;", [8911]);
    ("cwconint;", [8754]); ("cwint;", [8753]); ("cylcty;", [9005]);
    ("dArr;", [8659]); ("dHar;", [10597]); ("dagger;", [8224]);
    ("daleth;", [8504]); ("darr;", [8595]); ("dash;", [8208]);
    ("dashv;", [8867]); ("dbkarow;", [10511]); ("dblac;", [733]);
    ("dcaron;", [271]); ("dcy;", [1076]); ("dd;", [8518]);
    ("ddagger;", [8225]); ("ddarr;", [8650]); ("ddotseq;", [10871]);
    ("deg", [176]); ("deg;", [176]); ("delta;", [948]); ("demptyv;", [10673]);
    ("dfisht;", [10623]); ("dfr;", [120097]); ("dharl;", [8643]);
    ("dharr;", [8642]); ("diam;", [8900]); ("diamond;", [8900]);
    ("diamondsuit;", [9830]); ("diams;", [9830]); ("die;", [168]);
    ("digamma;", [989]); ("disin;", [8946]); ("div;", [247]);
    ("divide", [247]); ("divide;", [247]); ("divideontimes;", [8903]);
    ("divonx;", [8903]); ("djcy;", [1106]); ("dlcorn;", [8990]);
    ("dlcrop;", [8973]); ("dollar;", [36]); ("dopf;", [120149]);
    ("dot;", [729]); ("doteq;", [8784]); ("doteqdot;", [8785]);
    ("dotminus;", [8760]); ("dotplus;", [8724]); ("dotsquare;", [8865]);
    ("doublebarwedge;", [8966]); ("downarrow;", [8595]);
    ("downdownarrows;", [8650]); ("downharpoonleft;", [8643]);
    ("downharpoonright;", [8642]); ("drbkarow;", [10512]); ("drcorn;", [8991]);
    ("drcrop;", [8972]); ("dscr;", [119993]); ("dscy;", [1109]);
    ("dsol;", [10742]); ("dstrok;", [273]); ("dtdot;", [8945]);
    ("dtri;", [9663]); ("dtrif;", [9662]); ("duarr;", [8693]);
    ("duhar;", [10607]); ("dwangle;", [10662]); ("dzcy;", [1119]);
    ("dzigrarr;", [10239]); ("eDDot;", [10871]); ("eDot;", [8785]);
    ("eacute", [233]); ("eacute;", [233]); ("easter;", [10862]);
    ("ecaron;", [283]); ("ecir;", [8790]); ("ecirc", [234]); ("ecirc;", [234]);
    ("ecolon;", [8789]); ("ecy;", [1101]); ("edot;", [279]); ("ee;", [8519]);
    ("efDot;", [8786]); ("efr;", [120098]); ("eg;", [10906]);
    ("egrave", [232]); ("egrave;", [232]); ("egs;", [10902]);
    ("egsdot;", [10904]); ("el;", [10905]); ("elinters;", [9191]);
    ("ell;", [8467]); ("els;", [10901]); ("elsdot;", [10903]);
    ("emacr;", [275]); ("empty;", [8709]); ("emptyset;", [8709]);
    ("emptyv;", [8709]); ("emsp13;", [8196]); ("emsp14;", [8197]);
    ("emsp;", [8195]); ("eng;", [331]); ("ensp;", [8194]); ("eogon;", [281]);
    ("eopf;", [120150]); ("epar;", [8917]); ("eparsl;", [10723]);
    ("eplus;", [10865]); ("epsi;", [949]); ("epsilon;", [949]);
    ("epsiv;", [1013]); ("eqcirc;", [8790]); ("eqcolon;", [8789]);
    ("eqsim;", [8770]); ("eqslantgtr;", [10902]); ("eqslantless;", [10901]);
    ("equals;", [61]); ("equest;", [8799]); ("equiv;", [8801]);
    ("equivDD;", [10872]); ("eqvparsl;", [10725]); ("erDot;", [8787]);
    ("erarr;", [10609]); ("escr;", [8495]); ("esdot;", [8784]);
    ("esim;", [8770]); ("eta;", [951]); ("eth", [240]); ("eth;", [240]);
    ("euml", [235]); ("euml;", [235]); ("euro;", [8364]); ("excl;", [33]);
    ("exist;", [8707]); ("expectation;", [8496]); ("exponentiale;", [8519]);
    ("fallingdotseq;", [8786]); ("fcy;", [1092]); ("female;", [9792]);
    ("ffilig;", [64259]); ("fflig;", [64256]); ("ffllig;", [64260]);
    ("ffr;", [120099]); ("filig;", [64257]); ("fjlig;", [102; 106]);
    ("flat;", [9837]); ("fllig;", [64258]); ("fltns;", [9649]);
    ("fnof;", [402]); ("fopf;", [120151]); ("forall;", [8704]);
    ("fork;", [8916]); ("forkv;", [10969]); ("fpartint;", [10765]);
    ("frac12", [189]); ("frac12;", [189]); ("frac13;", [8531]);
    ("frac14", [188]); ("frac14;", [188]); ("frac15;", [8533]);
    ("frac16;", [8537]); ("frac18;", [8539]); ("frac23;", [8532]);
    ("frac25;", [8534]); ("frac34", [190]); ("frac34;", [190]);
    ("frac35;", [8535]); ("frac38;", [8540]); ("frac45;", [8536]);
    ("frac56;", [8538]); ("frac58;", [8541]); ("frac78;", [8542]);
    ("frasl;", [8260]); ("frown;", [8994]); ("fscr;", [119995]);
    ("gE;", [8807]); ("gEl;", [10892]); ("gacute;", [501]); ("gamma;", [947]);
    ("gammad;", [989]); ("gap;", [10886]); ("gbreve;", [287]);
    ("gcirc;", [285]); ("gcy;", [1075]); ("gdot;", [289]); ("ge;", [8805]);
    ("gel;", [8923]); ("geq;", [8805]); ("geqq;", [8807]);
    ("geqslant;", [10878]); ("ges;", [10878]); ("gescc;", [10921]);
    ("gesdot;", [10880]); ("gesdoto;", [10882]); ("gesdotol;", [10884]);
    ("gesl;", [8923; 65024]); ("gesles;", [10900]); ("gfr;", [120100]);
    ("gg;", [8811]); ("ggg;", [8921]); ("gimel;", [8503]); ("gjcy;", [1107]);
    ("gl;", [8823]); ("glE;", [10898]); ("gla;", [10917]); ("glj;", [10916]);
    ("gnE;", [8809]); ("gnap;", [10890]); ("gnapprox;", [10890]);
    ("gne;", [10888]); ("gneq;", [10888]); ("gneqq;", [8809]);
    ("gnsim;", [8935]); ("gopf;", [120152]); ("grave;", [96]);
    ("gscr;", [8458]); ("gsim;", [8819]); ("gsime;", [10894]);
    ("gsiml;", [10896]); ("gt", [62]); ("gt;", [62]); ("gtcc;", [10919]);
    ("gtcir;", [10874]); ("gtdot;", [8919]); ("gtlPar;", [10645]);
    ("gtquest;", [10876]); ("gtrapprox;", [10886]); ("gtrarr;", [10616]);
    ("gtrdot;", [8919]); ("gtreqless;", [8923]); ("gtreqqless;", [10892]);
    ("gtrless;", [8823]); ("gtrsim;", [8819]); ("gvertneqq;", [8809; 65024]);
    ("gvnE;", [8809; 65024]); ("hArr;", [8660]); ("hairsp;", [8202]);
    ("half;", [189]); ("hamilt;", [8459]); ("hardcy;", [1098]);
    ("harr;", [8596]); ("harrcir;", [10568]); ("harrw;", [8621]);
    ("hbar;", [8463]); ("hcirc;", [293]); ("hearts;", [9829]);
    ("heartsuit;", [9829]); ("hellip;", [8230]); ("hercon;", [8889]);
    ("hfr;", [120101]); ("hksearow;", [10533]); ("hkswarow;", [10534]);
    ("hoarr;", [8703]); ("homtht;", [8763]); ("hookleftarrow;", [8617]);
    ("hookrightarrow;", [8618]); ("hopf;", [120153]); ("horbar;", [8213]);
    ("hscr;", [119997]); ("hslash;", [8463]); ("hstrok;", [295]);
    ("hybull;", [8259]); ("hyphen;", [8208]); ("iacute", [237]);
    ("iacute;", [237]); ("ic;", [8291]); ("icirc", [238]); ("icirc;", [238]);
    ("icy;", [1080]); ("iecy;", [1077]); ("iexcl", [161]); ("iexcl;", [161]);
    ("iff;", [8660]); ("ifr;", [120102]); ("igrave", [236]);
    ("igrave;", [236]); ("ii;", [8520]); ("iiiint;", [10764]);
    ("iiint;", [8749]); ("iinfin;", [10716]); ("iiota;", [8489]);
    ("ijlig;", [307]); ("imacr;", [299]); ("image;", [8465]);
    ("imagline;", [8464]); ("imagpart;", [8465]); ("imath;", [305]);
    ("imof;", [8887]); ("imped;", [437]); ("in;", [8712]); ("incare;", [8453]);
    ("infin;", [8734]); ("infintie;", [10717]); ("inodot;", [305]);
    ("int;", [8747]); ("intcal;", [8890]); ("integers;", [8484]);
    ("intercal;", [8890]); ("intlarhk;", [10775]); ("intprod;", [10812]);
    ("iocy;", [1105]); ("iogon;", [303]); ("iopf;", [120154]);
    ("iota;", [953]); ("iprod;", [10812]); ("iquest", [191]);
    ("iquest;", [191]); ("iscr;", [119998]); ("isin;", [8712]);
    ("isinE;", [8953]); ("isindot;", [8949]); ("isins;", [8948]);
    ("isinsv;", [8947]); ("isinv;", [8712]); ("it;", [8290]);
    ("itilde;", [297]); ("iukcy;", [1110]); ("iuml", [239]); ("iuml;", [239]);
    ("jcirc;", [309]); ("jcy;", [1081]); ("jfr;", [120103]); ("jmath;", [567]);
    ("jopf;", [120155]); ("jscr;", [119999]); ("jsercy;", [1112]);
    ("jukcy;", [1108]); ("kappa;", [954]); ("kappav;", [1008]);
    ("kcedil;", [311]); ("kcy;", [1082]); ("kfr;", [120104]);
    ("kgreen;", [312]); ("khcy;", [1093]); ("kjcy;", [1116]);
    ("kopf;", [120156]); ("kscr;", [120000]); ("lAarr;", [8666]);
    ("lArr;", [8656]); ("lAtail;", [10523]); ("lBarr;", [10510]);
    ("lE;", [8806]); ("lEg;", [10891]); ("lHar;", [10594]); ("lacute;", [314]);
    ("laemptyv;", [10676]); ("lagran;", [8466]); ("lambda;", [955]);
    ("lang;", [10216]); ("langd;", [10641]); ("langle;", [10216]);
    ("lap;", [10885]); ("laquo", [171]); ("laquo;", [171]); ("larr;", [8592]);
    ("larrb;", [8676]); ("larrbfs;", [10527]); ("larrfs;", [10525]);
    ("larrhk;", [8617]); ("larrlp;", [8619]); ("larrpl;", [10553]);
    ("larrsim;", [10611]); ("larrtl;", [8610]); ("lat;", [10923]);
    ("latail;", [10521]); ("late;", [10925]); ("lates;", [10925; 65024]);
    ("lbarr;", [10508]); ("lbbrk;", [10098]); ("lbrace;", [123]);
    ("lbrack;", [91]); ("lbrke;", [10635]); ("lbrksld;", [10639]);
    ("lbrkslu;", [10637]); ("lcaron;", [318]); ("lcedil;", [316]);
    ("lceil;", [8968]); ("lcub;", [123]); ("lcy;", [1083]); ("ldca;", [10550]);
    ("ldquo;", [8220]); ("ldquor;", [8222]); ("ldrdhar;", [10599]);
    ("ldrushar;", [10571]); ("ldsh;", [8626]); ("le;", [8804]);
    ("leftarrow;", [8592]); ("leftarrowtail;", [8610]);
    ("leftharpoondown;", [8637]); ("leftharpoonup;", [8636]);
    ("leftleftarrows;", [8647]); ("leftrightarrow;", [8596]);
    ("leftrightarrows;", [8646]); ("leftrightharpoons;", [8651]);
    ("leftrightsquigarrow;", [8621]); ("leftthreetimes;", [8907]);
    ("leg;", [8922]); ("leq;", [8804]); ("leqq;", [8806]);
    ("leqslant;", [10877]); ("les;", [10877]); ("lescc;", [10920]);
    ("lesdot;", [10879]); ("lesdoto;", [10881]); ("lesdotor;", [10883]);
    ("lesg;", [8922; 65024]); ("lesges;", [10899]); ("lessapprox;", [10885]);
    ("lessdot;", [8918]); ("lesseqgtr;", [8922]); ("lesseqqgtr;", [10891]);
    ("lessgtr;", [8822]); ("lesssim;", [8818]); ("lfisht;", [10620]);
    ("lfloor;", [8970]); ("lfr;", [120105]); ("lg;", [8822]);
    ("lgE;", [10897]); ("lhard;", [8637]); ("lharu;", [8636]);
    ("lharul;", [10602]); ("lhblk;", [9604]); ("ljcy;", [1113]);
    ("ll;", [8810]); ("llarr;", [8647]); ("llcorner;", [8990]);
    ("llhard;", [10603]); ("lltri;", [9722]); ("lmidot;", [320]);
    ("lmoust;", [9136]); ("lmoustache;", [9136]); ("lnE;", [8808]);
    ("lnap;", [10889]); ("lnapprox;", [10889]); ("lne;", [10887]);
    ("lneq;", [10887]); ("lneqq;", [8808]); ("lnsim;", [8934]);
    ("loang;", [10220]); ("loarr;", [8701]); ("lobrk;", [10214]);
    ("longleftarrow;", [10229]); ("longleftrightarrow;", [10231]);
    ("longmapsto;", [10236]); ("longrightarrow;", [10230]);
    ("looparrowleft;", [8619]); ("looparrowright;", [8620]);
    ("lopar;", [10629]); ("lopf;", [120157]); ("loplus;", [10797]);
    ("lotimes;", [10804]); ("lowast;", [8727]); ("lowbar;", [95]);
    ("loz;", [9674]); ("lozenge;", [9674]); ("lozf;", [10731]);
    ("lpar;", [40]); ("lparlt;", [10643]); ("lrarr;", [8646]);
    ("lrcorner;", [8991]); ("lrhar;", [8651]); ("lrhard;", [10605]);
    ("lrm;", [8206]); ("lrtri;", [8895]); ("lsaquo;", [8249]);
    ("lscr;", [120001]); ("lsh;", [8624]); ("lsim;", [8818]);
    ("lsime;", [10893]); ("lsimg;", [10895]); ("lsqb;", [91]);
    ("lsquo;", [8216]); ("lsquor;", [8218]); ("lstrok;", [322]); ("lt", [60]);
    ("lt;", [60]); ("ltcc;", [10918]); ("ltcir;", [10873]); ("ltdot;", [8918]);
    ("lthree;", [8907]); ("ltimes;", [8905]); ("ltlarr;", [10614]);
    ("ltquest;", [10875]); ("ltrPar;", [10646]); ("ltri;", [9667]);
    ("ltrie;", [8884]); ("ltrif;", [9666]); ("lurdshar;", [10570]);
    ("luruhar;", [10598]); ("lvertneqq;", [8808; 65024]);
    ("lvnE;", [8808; 65024]); ("mDDot;", [8762]); ("macr", [175]);
    ("macr;", [175]); ("male;", [9794]); ("malt;", [10016]);
    ("maltese;", [10016]); ("map;", [8614]); ("mapsto;", [8614]);
    ("mapstodown;", [8615]); ("mapstoleft;", [8612]); ("mapstoup;", [8613]);
    ("marker;", [9646]); ("mcomma;", [10793]); ("mcy;", [1084]);
    ("mdash;", [8212]); ("measuredangle;", [8737]); ("mfr;", [120106]);
    ("mho;", [8487]); ("micro", [181]); ("micro;", [181]); ("mid;", [8739]);
    ("midast;", [42]); ("midcir;", [10992]); ("middot", [183]);
    ("middot;", [183]); ("minus;", [8722]); ("minusb;", [8863]);
    ("minusd;", [8760]); ("minusdu;", [10794]); ("mlcp;", [10971]);
    ("mldr;", [8230]); ("mnplus;", [8723]); ("models;", [8871]);
    ("mopf;", [120158]); ("mp;", [8723]); ("mscr;", [120002]);
    ("mstpos;", [8766]); ("mu;", [956]); ("multimap;", [8888]);
    ("mumap;", [8888]); ("nGg;", [8921; 824]); ("nGt;", [8811; 8402]);
    ("nGtv;", [8811; 824]); ("nLeftarrow;", [8653]);
    ("nLeftrightarrow;", [8654]); ("nLl;", [8920; 824]);
    ("nLt;", [8810; 8402]); ("nLtv;", [8810; 824]); ("nRightarrow;", [8655]);
    ("nVDash;", [8879]); ("nVdash;", [8878]); ("nabla;", [8711]);
    ("nacute;", [324]); ("nang;", [8736; 8402]); ("nap;", [8777]);
    ("napE;", [10864; 824]); ("napid;", [8779; 824]); ("napos;", [329]);
    ("napprox;", [8777]); ("natur;", [9838]); ("natural;", [9838]);
    ("naturals;", [8469]); ("nbsp", [160]); ("nbsp;", [160]);
    ("nbump;", [8782; 824]); ("nbumpe;", [8783; 824]); ("ncap;", [10819]);
    ("ncaron;", [328]); ("ncedil;", [326]); ("ncong;", [8775]);
    ("ncongdot;", [10861; 824]); ("ncup;", [10818]); ("ncy;", [1085]);
    ("ndash;", [8211]); ("ne;", [8800]); ("neArr;", [8663]);
    ("nearhk;", [10532]); ("nearr;", [8599]); ("nearrow;", [8599]);
    ("nedot;", [8784; 824]); ("nequiv;", [8802]); ("nesear;", [10536]);
    ("nesim;", [8770; 824]); ("nexist;", [8708]); ("nexists;", [8708]);
    ("nfr;", [120107]); ("ngE;", [8807; 824]); ("nge;", [8817]);
    ("ngeq;", [8817]); ("ngeqq;", [8807; 824]); ("ngeqslant;", [10878; 824]);
    ("nges;", [10878; 824]); ("ngsim;", [8821]); ("ngt;", [8815]);
    ("ngtr;", [8815]); ("nhArr;", [8654]); ("nharr;", [8622]);
    ("nhpar;", [10994]); ("ni;", [8715]); ("nis;", [8956]); ("nisd;", [8954]);
    ("niv;", [8715]); ("njcy;", [1114]); ("nlArr;", [8653]);
    ("nlE;", [8806; 824]); ("nlarr;", [8602]); ("nldr;", [8229]);
    ("nle;", [8816]); ("nleftarrow;", [8602]); ("nleftrightarrow;", [8622]);
    ("nleq;", [8816]); ("nleqq;", [8806; 824]); ("nleqslant;", [10877; 824]);
    ("nles;", [10877; 824]); ("nless;", [8814]); ("nlsim;", [8820]);
    ("nlt;", [8814]); ("nltri;", [8938]); ("nltrie;", [8940]);
    ("nmid;", [8740]); ("nopf;", [120159]); ("not", [172]); ("not;", [172]);
    ("notin;", [8713]); ("notinE;", [8953; 824]); ("notindot;", [8949; 824]);
    ("notinva;", [8713]); ("notinvb;", [8951]); ("notinvc;", [8950]);
    ("notni;", [8716]); ("notniva;", [8716]); ("notnivb;", [8958]);
    ("notnivc;", [8957]); ("npar;", [8742]); ("nparallel;", [8742]);
    ("nparsl;", [11005; 8421]); ("npart;", [8706; 824]); ("npolint;", [10772]);
    ("npr;", [8832]); ("nprcue;", [8928]); ("npre;", [10927; 824]);
    ("nprec;", [8832]); ("npreceq;", [10927; 824]); ("nrArr;", [8655]);
    ("nrarr;", [8603]); ("nrarrc;", [10547; 824]); ("nrarrw;", [8605; 824]);
    ("nrightarrow;", [8603]); ("nrtri;", [8939]); ("nrtrie;", [8941]);
    ("nsc;", [8833]); ("nsccue;", [8929]); ("nsce;", [10928; 824]);
    ("nscr;", [120003]); ("nshortmid;", [8740]); ("nshortparallel;", [8742]);
    ("nsim;", [8769]); ("nsime;", [8772]); ("nsimeq;", [8772]);
    ("nsmid;", [8740]); ("nspar;", [8742]); ("nsqsube;", [8930]);
    ("nsqsupe;", [8931]); ("nsub;", [8836]); ("nsubE;", [10949; 824]);
    ("nsube;", [8840]); ("nsubset;", [8834; 8402]); ("nsubseteq;", [8840]);
    ("nsubseteqq;", [10949; 824]); ("nsucc;", [8833]);
    ("nsucceq;", [10928; 824]); ("nsup;", [8837]); ("nsupE;", [10950; 824]);
    ("nsupe;", [8841]); ("nsupset;", [8835; 8402]); ("nsupseteq;", [8841]);
    ("nsupseteqq;", [10950; 824]); ("ntgl;", [8825]); ("ntilde", [241]);
    ("ntilde;", [241]); ("ntlg;", [8824]); ("ntriangleleft;", [8938]);
    ("ntrianglelefteq;", [8940]); ("ntriangleright;", [8939]);
    ("ntrianglerighteq;", [8941]); ("nu;", [957]); ("num;", [35]);
    ("numero;", [8470]); ("numsp;", [8199]); ("nvDash;", [8877]);
    ("nvHarr;", [10500]); ("nvap;", [8781; 8402]); ("nvdash;", [8876]);
    ("nvge;", [8805; 8402]); ("nvgt;", [62; 8402]); ("nvinfin;", [10718]);
    ("nvlArr;", [10498]); ("nvle;", [8804; 8402]); ("nvlt;", [60; 8402]);
    ("nvltrie;", [8884; 8402]); ("nvrArr;", [10499]);
    ("nvrtrie;", [8885; 8402]); ("nvsim;", [8764; 8402]); ("nwArr;", [8662]);
    ("nwarhk;", [10531]); ("nwarr;", [8598]); ("nwarrow;", [8598]);
    ("nwnear;", [10535]); ("oS;", [9416]); ("oacute", [243]);
    ("oacute;", [243]); ("oast;", [8859]); ("ocir;", [8858]); ("ocirc", [244]);
    ("ocirc;", [244]); ("ocy;", [1086]); ("odash;", [8861]);
    ("odblac;", [337]); ("odiv;", [10808]); ("odot;", [8857]);
    ("odsold;", [10684]); ("oelig;", [339]); ("ofcir;", [10687]);
    ("ofr;", [120108]); ("ogon;", [731]); ("ograve", [242]);
    ("ograve;", [242]); ("ogt;", [10689]); ("ohbar;", [10677]);
    ("ohm;", [937]); ("oint;", [8750]); ("olarr;", [8634]);
    ("olcir;", [10686]); ("olcross;", [10683]); ("oline;", [8254]);
    ("olt;", [10688]); ("omacr;", [333]); ("omega;", [969]);
    ("omicron;", [959]); ("omid;", [10678]); ("ominus;", [8854]);
    ("oopf;", [120160]); ("opar;", [10679]); ("operp;", [10681]);
    ("oplus;", [8853]); ("or;", [8744]); ("orarr;", [8635]); ("ord;", [10845]);
    ("order;", [8500]); ("orderof;", [8500]); ("ordf", [170]);
    ("ordf;", [170]); ("ordm", [186]); ("ordm;", [186]); ("origof;", [8886]);
    ("oror;", [10838]); ("orslope;", [10839]); ("orv;", [10843]);
    ("oscr;", [8500]); ("oslash", [248]); ("oslash;", [248]);
    ("osol;", [8856]); ("otilde", [245]); ("otilde;", [245]);
    ("otimes;", [8855]); ("otimesas;", [10806]); ("ouml", [246]);
    ("ouml;", [246]); ("ovbar;", [9021]); ("par;", [8741]); ("para", [182]);
    ("para;", [182]); ("parallel;", [8741]); ("parsim;", [10995]);
    ("parsl;", [11005]); ("part;", [8706]); ("pcy;", [1087]);
    ("percnt;", [37]); ("period;", [46]); ("permil;", [8240]);
    ("perp;", [8869]); ("pertenk;", [8241]); ("pfr;", [120109]);
    ("phi;", [966]); ("phiv;", [981]); ("phmmat;", [8499]); ("phone;", [9742]);
    ("pi;", [960]); ("pitchfork;", [8916]); ("piv;", [982]);
    ("planck;", [8463]); ("planckh;", [8462]); ("plankv;", [8463]);
    ("plus;", [43]); ("plusacir;", [10787]); ("plusb;", [8862]);
    ("pluscir;", [10786]); ("plusdo;", [8724]); ("plusdu;", [10789]);
    ("pluse;", [10866]); ("plusmn", [177]); ("plusmn;", [177]);
    ("plussim;", [10790]); ("plustwo;", [10791]); ("pm;", [177]);
    ("pointint;", [10773]); ("popf;", [120161]); ("pound", [163]);
    ("pound;", [163]); ("pr;", [8826]); ("prE;", [10931]); ("prap;", [10935]);
    ("prcue;", [8828]); ("pre;", [10927]); ("prec;", [8826]);
    ("precapprox;", [10935]); ("preccurlyeq;", [8828]); ("preceq;", [10927]);
    ("precnapprox;", [10937]); ("precneqq;", [10933]); ("precnsim;", [8936]);
    ("precsim;", [8830]); ("prime;", [8242]); ("primes;", [8473]);
    ("prnE;", [10933]); ("prnap;", [10937]); ("prnsim;", [8936]);
    ("prod;", [8719]); ("profalar;", [9006]); ("profline;", [8978]);
    ("profsurf;", [8979]); ("prop;", [8733]); ("propto;", [8733]);
    ("prsim;", [8830]); ("prurel;", [8880]); ("pscr;", [120005]);
    ("psi;", [968]); ("puncsp;", [8200]); ("qfr;", [120110]);
    ("qint;", [10764]); ("qopf;", [120162]); ("qprime;", [8279]);
    ("qscr;", [120006]); ("quaternions;", [8461]); ("quatint;", [10774]);
    ("quest;", [63]); ("questeq;", [8799]); ("quot", [34]); ("quot;", [34]);
    ("rAarr;", [8667]); ("rArr;", [8658]); ("rAtail;", [10524]);
    ("rBarr;", [10511]); ("rHar;", [10596]); ("race;", [8765; 817]);
    ("racute;", [341]); ("radic;", [8730]); ("raemptyv;", [10675]);
    ("rang;", [10217]); ("rangd;", [10642]); ("range;", [10661]);
    ("rangle;", [10217]); ("raquo", [187]); ("raquo;", [187]);
    ("rarr;", [8594]); ("rarrap;", [10613]); ("rarrb;", [8677]);
    ("rarrbfs;", [10528]); ("rarrc;", [10547]); ("rarrfs;", [10526]);
    ("rarrhk;", [8618]); ("rarrlp;", [8620]); ("rarrpl;", [10565]);
    ("rarrsim;", [10612]); ("rarrtl;", [8611]); ("rarrw;", [8605]);
    ("ratail;", [10522]); ("ratio;", [8758]); ("rationals;", [8474]);
    ("rbarr;", [10509]); ("rbbrk;", [10099]); ("rbrace;", [125]);
    ("rbrack;", [93]); ("rbrke;", [10636]); ("rbrksld;", [10638]);
    ("rbrkslu;", [10640]); ("rcaron;", [345]); ("rcedil;", [343]);
    ("rceil;", [8969]); ("rcub;", [125]); ("rcy;", [1088]); ("rdca;", [10551]);
    ("rdldhar;", [10601]); ("rdquo;", [8221]); ("rdquor;", [8221]);
    ("rdsh;", [8627]); ("real;", [8476]); ("realine;", [8475]);
    ("realpart;", [8476]); ("reals;", [8477]); ("rect;", [9645]);
    ("reg", [174]); ("reg;", [174]); ("rfisht;", [10621]); ("rfloor;", [8971]);
    ("rfr;", [120111]); ("rhard;", [8641]); ("rharu;", [8640]);
    ("rharul;", [10604]); ("rho;", [961]); ("rhov;", [1009]);
    ("rightarrow;", [8594]); ("rightarrowtail;", [8611]);
    ("rightharpoondown;", [8641]); ("rightharpoonup;", [8640]);
    ("rightleftarrows;", [8644]); ("rightleftharpoons;", [8652]);
    ("rightrightarrows;", [8649]); ("rightsquigarrow;", [8605]);
    ("rightthreetimes;", [8908]); ("ring;", [730]); ("risingdotseq;", [8787]);
    ("rlarr;", [8644]); ("rlhar;", [8652]); ("rlm;", [8207]);
    ("rmoust;", [9137]); ("rmoustache;", [9137]); ("rnmid;", [10990]);
    ("roang;", [10221]); ("roarr;", [8702]); ("robrk;", [10215]);
    ("ropar;", [10630]); ("ropf;", [120163]); ("roplus;", [10798]);
    ("rotimes;", [10805]); ("rpar;", [41]); ("rpargt;", [10644]);
    ("rppolint;", [10770]); ("rrarr;", [8649]); ("rsaquo;", [8250]);
    ("rscr;", [120007]); ("rsh;", [8625]); ("rsqb;", [93]); ("rsquo;", [8217]);
    ("rsquor;", [8217]); ("rthree;", [8908]); ("rtimes;", [8906]);
    ("rtri;", [9657]); ("rtrie;", [8885]); ("rtrif;", [9656]);
    ("rtriltri;", [10702]); ("ruluhar;", [10600]); ("rx;", [8478]);
    ("sacute;", [347]); ("sbquo;", [8218]); ("sc;", [8827]); ("scE;", [10932]);
    ("scap;", [10936]); ("scaron;", [353]); ("sccue;", [8829]);
    ("sce;", [10928]); ("scedil;", [351]); ("scirc;", [349]);
    ("scnE;", [10934]); ("scnap;", [10938]); ("scnsim;", [8937]);
    ("scpolint;", [10771]); ("scsim;", [8831]); ("scy;", [1089]);
    ("sdot;", [8901]); ("sdotb;", [8865]); ("sdote;", [10854]);
    ("seArr;", [8664]); ("searhk;", [10533]); ("searr;", [8600]);
    ("searrow;", [8600]); ("sect", [167]); ("sect;", [167]); ("semi;", [59]);
    ("seswar;", [10537]); ("setminus;", [8726]); ("setmn;", [8726]);
    ("sext;", [10038]); ("sfr;", [120112]); ("sfrown;", [8994]);
    ("sharp;", [9839]); ("shchcy;", [1097]); ("shcy;", [1096]);
    ("shortmid;", [8739]); ("shortparallel;", [8741]); ("shy", [173]);
    ("shy;", [173]); ("sigma;", [963]); ("sigmaf;", [962]); ("sigmav;", [962]);
    ("sim;", [8764]); ("simdot;", [10858]); ("sime;", [8771]);
    ("simeq;", [8771]); ("simg;", [10910]); ("simgE;", [10912]);
    ("siml;", [10909]); ("simlE;", [10911]); ("simne;", [8774]);
    ("simplus;", [10788]); ("simrarr;", [10610]); ("slarr;", [8592]);
    ("smallsetminus;", [8726]); ("smashp;", [10803]); ("smeparsl;", [10724]);
    ("smid;", [8739]); ("smile;", [8995]); ("smt;", [10922]);
    ("smte;", [10924]); ("smtes;", [10924; 65024]); ("softcy;", [1100]);
    ("sol;", [47]); ("solb;", [10692]); ("solbar;", [9023]);
    ("sopf;", [120164]); ("spades;", [9824]); ("spadesuit;", [9824]);
    ("spar;", [8741]); ("sqcap;", [8851]); ("sqcaps;", [8851; 65024]);
    ("sqcup;", [8852]); ("sqcups;", [8852; 65024]); ("sqsub;", [8847]);
    ("sqsube;", [8849]); ("sqsubset;", [8847]); ("sqsubseteq;", [8849]);
    ("sqsup;", [8848]); ("sqsupe;", [8850]); ("sqsupset;", [8848]);
    ("sqsupseteq;", [8850]); ("squ;", [9633]); ("square;", [9633]);
    ("squarf;", [9642]); ("squf;", [9642]); ("srarr;", [8594]);
    ("sscr;", [120008]); ("ssetmn;", [8726]); ("ssmile;", [8995]);
    ("sstarf;", [8902]); ("star;", [9734]); ("starf;", [9733]);
    ("straightepsilon;", [1013]); ("straightphi;", [981]); ("strns;", [175]);
    ("sub;", [8834]); ("subE;", [10949]); ("subdot;", [10941]);
    ("sube;", [8838]); ("subedot;", [10947]); ("submult;", [10945]);
    ("subnE;", [10955]); ("subne;", [8842]); ("subplus;", [10943]);
    ("subrarr;", [10617]); ("subset;", [8834]); ("subseteq;", [8838]);
    ("subseteqq;", [10949]); ("subsetneq;", [8842]); ("subsetneqq;", [10955]);
    ("subsim;", [10951]); ("subsub;", [10965]); ("subsup;", [10963]);
    ("succ;", [8827]); ("succapprox;", [10936]); ("succcurlyeq;", [8829]);
    ("succeq;", [10928]); ("succnapprox;", [10938]); ("succneqq;", [10934]);
    ("succnsim;", [8937]); ("succsim;", [8831]); ("sum;", [8721]);
    ("sung;", [9834]); ("sup1", [185]); ("sup1;", [185]); ("sup2", [178]);
    ("sup2;", [178]); ("sup3", [179]); ("sup3;", [179]); ("sup;", [8835]);
    ("supE;", [10950]); ("supdot;", [10942]); ("supdsub;", [10968]);
    ("supe;", [8839]); ("supedot;", [10948]); ("suphsol;", [10185]);
    ("suphsub;", [10967]); ("suplarr;", [10619]); ("supmult;", [10946]);
    ("supnE;", [10956]); ("supne;", [8843]); ("supplus;", [10944]);
    ("supset;", [8835]); ("supseteq;", [8839]); ("supseteqq;", [10950]);
    ("supsetneq;", [8843]); ("supsetneqq;", [10956]); ("supsim;", [10952]);
    ("supsub;", [10964]); ("supsup;", [10966]); ("swArr;", [8665]);
    ("swarhk;", [10534]); ("swarr;", [8601]); ("swarrow;", [8601]);
    ("swnwar;", [10538]); ("szlig", [223]); ("szlig;", [223]);
    ("target;", [8982]); ("tau;", [964]); ("tbrk;", [9140]);
    ("tcaron;", [357]); ("tcedil;", [355]); ("tcy;", [1090]);
    ("tdot;", [8411]); ("telrec;", [8981]); ("tfr;", [120113]);
    ("there4;", [8756]); ("therefore;", [8756]); ("theta;", [952]);
    ("thetasym;", [977]); ("thetav;", [977]); ("thickapprox;", [8776]);
    ("thicksim;", [8764]); ("thinsp;", [8201]); ("thkap;", [8776]);
    ("thksim;", [8764]); ("thorn", [254]); ("thorn;", [254]);
    ("tilde;", [732]); ("times", [215]); ("times;", [215]);
    ("timesb;", [8864]); ("timesbar;", [10801]); ("timesd;", [10800]);
    ("tint;", [8749]); ("toea;", [10536]); ("top;", [8868]);
    ("topbot;", [9014]); ("topcir;", [10993]); ("topf;", [120165]);
    ("topfork;", [10970]); ("tosa;", [10537]); ("tprime;", [8244]);
    ("trade;", [8482]); ("triangle;", [9653]); ("triangledown;", [9663]);
    ("triangleleft;", [9667]); ("trianglelefteq;", [8884]);
    ("triangleq;", [8796]); ("triangleright;", [9657]);
    ("trianglerighteq;", [8885]); ("tridot;", [9708]); ("trie;", [8796]);
    ("triminus;", [10810]); ("triplus;", [10809]); ("trisb;", [10701]);
    ("tritime;", [10811]); ("trpezium;", [9186]); ("tscr;", [120009]);
    ("tscy;", [1094]); ("tshcy;", [1115]); ("tstrok;", [359]);
    ("twixt;", [8812]); ("twoheadleftarrow;", [8606]);
    ("twoheadrightarrow;", [8608]); ("uArr;", [8657]); ("uHar;", [10595]);
    ("uacute", [250]); ("uacute;", [250]); ("uarr;", [8593]);
    ("ubrcy;", [1118]); ("ubreve;", [365]); ("ucirc", [251]);
    ("ucirc;", [251]); ("ucy;", [1091]); ("udarr;", [8645]);
    ("udblac;", [369]); ("udhar;", [10606]); ("ufisht;", [10622]);
    ("ufr;", [120114]); ("ugrave", [249]); ("ugrave;", [249]);
    ("uharl;", [8639]); ("uharr;", [8638]); ("uhblk;", [9600]);
    ("ulcorn;", [8988]); ("ulcorner;", [8988]); ("ulcrop;", [8975]);
    ("ultri;", [9720]); ("umacr;", [363]); ("uml", [168]); ("uml;", [168]);
    ("uogon;", [371]); ("uopf;", [120166]); ("uparrow;", [8593]);
    ("updownarrow;", [8597]); ("upharpoonleft;", [8639]);
    ("upharpoonright;", [8638]); ("uplus;", [8846]); ("upsi;", [965]);
    ("upsih;", [978]); ("upsilon;", [965]); ("upuparrows;", [8648]);
    ("urcorn;", [8989]); ("urcorner;", [8989]); ("urcrop;", [8974]);
    ("uring;", [367]); ("urtri;", [9721]); ("uscr;", [120010]);
    ("utdot;", [8944]); ("utilde;", [361]); ("utri;", [9653]);
    ("utrif;", [9652]); ("uuarr;", [8648]); ("uuml", [252]); ("uuml;", [252]);
    ("uwangle;", [10663]); ("vArr;", [8661]); ("vBar;", [10984]);
    ("vBarv;", [10985]); ("vDash;", [8872]); ("vangrt;", [10652]);
    ("varepsilon;", [1013]); ("varkappa;", [1008]); ("varnothing;", [8709]);
    ("varphi;", [981]); ("varpi;", [982]); ("varpropto;", [8733]);
    ("varr;", [8597]); ("varrho;", [1009]); ("varsigma;", [962]);
    ("varsubsetneq;", [8842; 65024]); ("varsubsetneqq;", [10955; 65024]);
    ("varsupsetneq;", [8843; 65024]); ("varsupsetneqq;", [10956; 65024]);
    ("vartheta;", [977]); ("vartriangleleft;", [8882]);
    ("vartriangleright;", [8883]); ("vcy;", [1074]); ("vdash;", [8866]);
    ("vee;", [8744]); ("veebar;", [8891]); ("veeeq;", [8794]);
    ("vellip;", [8942]); ("verbar;", [124]); ("vert;", [124]);
    ("vfr;", [120115]); ("vltri;", [8882]); ("vnsub;", [8834; 8402]);
    ("vnsup;", [8835; 8402]); ("vopf;", [120167]); ("vprop;", [8733]);
    ("vrtri;", [8883]); ("vscr;", [120011]); ("vsubnE;", [10955; 65024]);
    ("vsubne;", [8842; 65024]); ("vsupnE;", [10956; 65024]);
    ("vsupne;", [8843; 65024]); ("vzigzag;", [10650]); ("wcirc;", [373]);
    ("wedbar;", [10847]); ("wedge;", [8743]); ("wedgeq;", [8793]);
    ("weierp;", [8472]); ("wfr;", [120116]); ("wopf;", [120168]);
    ("wp;", [8472]); ("wr;", [8768]); ("wreath;", [8768]); ("wscr;", [120012]);
    ("xcap;", [8898]); ("xcirc;", [9711]); ("xcup;", [8899]);
    ("xdtri;", [9661]); ("xfr;", [120117]); ("xhArr;", [10234]);
    ("xharr;", [10231]); ("xi;", [958]); ("xlArr;", [10232]);
    ("xlarr;", [10229]); ("xmap;", [10236]); ("xnis;", [8955]);
    ("xodot;", [10752]); ("xopf;", [120169]); ("xoplus;", [10753]);
    ("xotime;", [10754]); ("xrArr;", [10233]); ("xrarr;", [10230]);
    ("xscr;", [120013]); ("xsqcup;", [10758]); ("xuplus;", [10756]);
    ("xutri;", [9651]); ("xvee;", [8897]); ("xwedge;", [8896]);
    ("yacute", [253]); ("yacute;", [253]); ("yacy;", [1103]);
    ("ycirc;", [375]); ("ycy;", [1099]); ("yen", [165]); ("yen;", [165]);
    ("yfr;", [120118]); ("yicy;", [1111]); ("yopf;", [120170]);
    ("yscr;", [120014]); ("yucy;", [1102]); ("yuml", [255]); ("yuml;", [255]);
    ("zacute;", [378]); ("zcaron;", [382]); ("zcy;", [1079]); ("zdot;", [380]);
    ("zeetrf;", [8488]); ("zeta;", [950]); ("zfr;", [120119]);
    ("zhcy;", [1078]); ("zigrarr;", [8669]); ("zopf;", [120171]);
    ("zscr;", [120015]); ("zwj;", [8205]); ("zwnj;", [8204]) ]%string.

Definition html5_get (name : pystr) : option pystr :=
  snd <$> List.find (fun e => is_str (fst e) name) html5.

(** The parser's [handle_charref]. *)
Definition charref_data (name : pystr) : pystr :=
  let n := match name with
           | c :: digits =>
               if (c =? 120) || (c =? 88) then number 16 digits
               else number 10 name
           | [] => 0
           end in
  if in_range 128 159 n then [nth (Z.to_nat (n - 128)) cp1252_high n]
  else if n <=? 1114111 then [n]
  else [replacement_character].

(** The parser's [handle_entityref]. *)
Definition entityref_data (name : pystr) : pystr :=
  match html5_get (name ++ [semicolon]) with
  | Some character => character
  | None => amp :: name
  end.

Definition handle_token (t : token) (s : soup) : soup :=
  match t with
  | TStart name =>
      let s := soup_starttag name s in
      if is_empty_element name then
        let s := soup_endtag name s in
        mk_soup (tag_stack s) (current_data s) (strings s)
          (already_closed s ++ [name])
      else s
  | TStartEnd name => parser_endtag name (soup_starttag name s)
  | TEnd name => parser_endtag name s
  | TData data => handle_data data s
  | TCharRef name => handle_data (charref_data name) s
  | TEntityRef name => handle_data (entityref_data name) s
  | TComment data => special_string Comment data s
  | TDecl data => special_string Doctype (drop 8 data) s
  | TUnknownDecl data =>
      if is_str "cdata[" (List.map (fun c => if in_range 65 90 c
                                             then c + 32 else c)
                            (take 6 data))
      then special_string CData (drop 6 data) s
      else special_string Declaration data s
  | TPi data => special_string ProcessingInstruction data s
  end.

(** The strings of the document in order, with their classes. *)
Definition build (tokens : list token) : list (string_class * pystr) :=
  let s := fold_left (fun s t => handle_token t s) tokens
             (mk_soup [] [] [] []) in
  rev (strings (end_data None s)).

Definition interesting_string (c : string_class) : bool :=
  match c with
  | NavigableString | CData => true
  | _ => false
  end.

(** [soup.get_text(separator, strip=True)]. *)
Definition get_text (separator : pystr) (doc : list (string_class * pystr))
  : pystr :=
  join separator
    (List.filter (fun t => negb (bool_decide (t = [])))
       (List.map (fun p => strip (snd p))
          (List.filter (fun p => interesting_string (fst p)) doc))).

(** An [AssertionError] of the parser reaches the caller as
    [ParserRejectedMarkup]. *)
Definition soup_get_text (markup : pystr) : result pystr :=
  match tokenize markup with
  | Ok tokens => Ok (get_text (str_lit " ") (build tokens))
  | Raise _ => Raise ParserRejectedMarkup
  end.

(** *** html.unescape *)

Definition ref_name_char (c : codepoint) : bool :=
  negb (bool_decide (c ∈ [9; 10; 12; 32; 60; 38; 35; 59])).

Definition unescape_charref : regex :=
  Seq (chr amp)
    (Group 1
       (Alt (seqs [chr 35; plus (Chr digit); opt (chr semicolon)])
          (Alt (seqs [chr 35; Chr (fun c => (c =? 120) || (c =? 88));
                      plus (Chr hex); opt (chr semicolon)])
             (seqs [Chr ref_name_char; upto 31 (Chr ref_name_char);
                    opt (chr semicolon)])))).

Definition invalid_codepoint (n : Z) : bool :=
  in_range 1 8 n || in_range 14 31 n || in_range 127 159 n
  || in_range 64976 65007 n || (n =? 11)
  || ((Z.land n 65534 =? 65534) && (n <=? 1114111)).

Definition rstrip_semicolon (s : pystr) : pystr :=
  match rev s with
  | c :: r => if c =? semicolon then rev r else s
  | [] => s
  end.

(** The longest proper prefix of [s], of two characters at least, that
    names a character, with what it stands for and the rest of [s]. *)
Fixpoint longest_prefix (x : nat) (s : pystr) : option pystr :=
  match x with
  | O | 1%nat => None
  | S x' =>
      match html5_get (take x s) with
      | Some v => Some (v ++ drop x s)
      | None => longest_prefix x' s
      end
  end.

Definition replace_charref (s : pystr) : pystr :=
  match s with
  | 35 :: body =>
      let num := match body with
                 | c :: digits =>
                     if (c =? 120) || (c =? 88)
                     then number 16 (rstrip_semicolon digits)
                     else number 10 (rstrip_semicolon body)
                 | [] => 0
                 end in
      if num =? 0 then [replacement_character]
      else if num =? 13 then [13]
      else if in_range 128 159 num
      then [nth (Z.to_nat (num - 128)) cp1252_high num]
      else if in_range 55296 57343 num || (1114111 <? num)
      then [replacement_character]
      else if invalid_codepoint num then []
      else [num]
  | _ =>
      match html5_get s with
      | Some v => v
      | None => default (amp :: s) (longest_prefix (length s - 1) s)
      end
  end.

Fixpoint unescape_from (fuel : nat) (s : pystr) (i : nat) : pystr :=
  match fuel with
  | O => drop i s
  | S fuel' =>
      match re_search unescape_charref s i with
      | None => drop i s
      | Some (j, m) =>
          sub s i j ++ replace_charref (group_text 1 m s)
          ++ unescape_from fuel' s (end_of m)
      end
  end.

Definition unescape (s : pystr) : pystr := unescape_from (length s) s 0.

End HTML.

(** ** strip_html (lines 67-72) *)

Definition strip_html (value : option pystr) : result pystr :=
  if negb (truthy value) then Ok []
  else
    text ← HTML.soup_get_text (or_empty value);
    Ok (HTML.unescape text).

(** ** Lists: slicing and sorting *)

(** [l[:n]]: a negative [n] counts from the end, and the bound is clipped
    to the list. *)
Definition slice_to {A} (n : Z) (l : list A) : list A :=
  let len := Z.of_nat (length l) in
  let stop := if n <? 0 then Z.max 0 (n + len) else Z.min n len in
  take (Z.to_nat stop) l.

(** [l.sort(key=key, reverse=True)]: a stable sort, largest key first;
    elements with equal keys keep their order. *)
Fixpoint insert_desc {A} (key : A -> float) (x : A) (l : list A) : list A :=
  match l with
  | [] => [x]
  | y :: l' =>
      if key x <? key y then y :: insert_desc key x l' else x :: l
  end.

Fixpoint sort_desc {A} (key : A -> float) (l : list A) : list A :=
  match l with
  | [] => []
  | x :: l' => insert_desc key x (sort_desc key l')
  end.

(** ** The payload and the file system *)

Record podcast_meta : Type := mk_podcast_meta {
  podcast_title : pystr;
  source_rss : pystr;
  generated_at : pystr
}.

Record payload : Type := mk_payload {
  podcast : podcast_meta;
  episodes : list episode
}.

(** Command-line arguments ([parse_args], lines 25-41): [--limit] is any
    int, [None] when the option is not given. *)
Record args : Type := mk_args {
  rss_url : pystr;
  out : pystr;
  limit : option Z
}.

(** What the run does to its environment, in program order. *)
Inductive event : Type :=
  | EvGet (url : pystr)
  | EvNormalize (e : entry)
  | EvMakedirs (path : pystr)
  | EvWrite (path : pystr)
  | EvPrint (line : pystr).

(** The file system (directories and regular files), standard output and
    the trace of events.  A file written by the script holds the text
    [json.dump] produces for a payload and a newline; it is kept as the
    payload. *)
Record world : Type := mk_world {
  files : gmap pystr payload;
  dirs : gset pystr;
  stdout : list pystr;
  trace : list event
}.

(** A computation that reads and changes the world and may raise. *)
Definition io (A : Type) : Type := world -> result A * world.

Definition io_ret {A} (a : A) : io A := fun w => (Ok a, w).

Definition io_bind {A B} (c : io A) (k : A -> io B) : io B := fun w =>
  match c w with
  | (Ok a, w') => k a w'
  | (Raise e, w') => (Raise e, w')
  end.

Notation "x <- c ;; k" := (io_bind c (fun x => k))
  (at level 100, c at next level, right associativity).

Definition lift {A} (c : result A) : io A := fun w => (c, w).

Definition log (ev : event) : io unit := fun w =>
  (Ok tt, mk_world (files w) (dirs w) (stdout w) (trace w ++ [ev])).

Fixpoint io_map {A B} (f : A -> io B) (l : list A) : io (list B) :=
  match l with
  | [] => io_ret []
  | x :: l' => y <- f x;; ys <- io_map f l';; io_ret (y :: ys)
  end.

Definition slash : codepoint := 47.

(** [os.path.dirname]: the part before the last slash, without trailing
    slashes unless it is the root. *)
Fixpoint rstrip_slash (r : pystr) : pystr :=
  match r with
  | c :: r' => if c =? slash then rstrip_slash r' else r
  | [] => []
  end.

Fixpoint drop_basename (r : pystr) : pystr :=
  match r with
  | c :: r' => if c =? slash then r else drop_basename r'
  | [] => []
  end.

Definition dirname (p : pystr) : pystr :=
  let head := drop_basename (rev p) in
  match rstrip_slash head with
  | [] => rev head
  | h => rev h
  end.

(** [os.makedirs(path, exist_ok=True)]. *)
Definition makedirs (path : pystr) : io unit := fun w =>
  let w := mk_world (files w) (dirs w) (stdout w)
             (trace w ++ [EvMakedirs path]) in
  match files w !! path with
  | Some _ => (Raise OSError, w)
  | None => (Ok tt, mk_world (files w) ({[ path ]} ∪ dirs w) (stdout w)
                       (trace w))
  end.

(** [open(path, "w")], [json.dump] and the final newline. *)
Definition write_json (path : pystr) (p : payload) : io unit := fun w =>
  let w := mk_world (files w) (dirs w) (stdout w)
             (trace w ++ [EvWrite path]) in
  if bool_decide (path ∈ dirs w) then (Raise OSError, w)
  else if negb (bool_decide (dirname path = []))
          && negb (bool_decide (dirname path ∈ dirs w))
  then (Raise OSError, w)
  else (Ok tt, mk_world (<[ path := p ]> (files w)) (dirs w) (stdout w)
                 (trace w)).

Definition print (line : pystr) : io unit := fun w =>
  (Ok tt, mk_world (files w) (dirs w) (stdout w ++ [line])
            (trace w ++ [EvPrint line])).

(** [str(n)] for an int. *)
Fixpoint digits_of (fuel : nat) (n : Z) : pystr :=
  match fuel with
  | O => []
  | S f => (if n <? 10 then [] else digits_of f (n / 10)) ++ [48 + n mod 10]
  end.

Definition str_of_nat (n : nat) : pystr := digits_of (S n) (Z.of_nat n).

Section Pipeline.

Context `{Collaborators}.

(** ** normalize_entry (lines 119-132) *)

Definition normalize_entry (e : entry) : result episode :=
  published ← to_iso_datetime e;
  let audio_url := extract_audio_url e in
  description ←
    strip_html (py_or (py_or (entry_summary e) (entry_description e))
                  (Some []));
  duration ← parse_duration (entry_itunes_duration e);
  id ← build_episode_id e audio_url published;
  Ok (mk_episode id (strip (or_empty (py_or (entry_title e) (Some []))))
        description published (entry_link e) audio_url duration).

(** ** fetch_feed (lines 135-138) *)

Definition raise_for_status (r : response) : result unit :=
  if in_range 400 599 (status_code r) then Raise HTTPError else Ok tt.

(** The value of [fetch_feed]: the parsed feed, or the exception of the
    request or of the status check. *)
Definition fetch_feed_result (rss_url : pystr) : result parsed_feed :=
  response ← requests_get rss_url;
  _ ← raise_for_status response;
  Ok (feedparser_parse (content response)).

Definition fetch_feed (rss_url : pystr) : io parsed_feed :=
  _ <- log (EvGet rss_url);;
  lift (fetch_feed_result rss_url).

(** ** main (lines 141-182) *)

(** [sort_key] (lines 153-160). *)
Definition sort_key (item : episode) : float :=
  let published := published item in
  if negb (truthy published) then 0
  else
    match datetime_fromisoformat
            (replace (str_lit "Z") (str_lit "+00:00") (or_empty published))
    with
    | Some dt => timestamp dt
    | None => 0
    end.

(** Lines 148-162: the limit, the title filter and the sort. *)
Definition has_title (episode : episode) : bool :=
  truthy (Some (title episode)).

Definition select_episodes (limit : option Z) (episodes : list episode)
  : list episode :=
  let episodes := match limit with
                  | Some n => slice_to n episodes
                  | None => episodes
                  end in
  let episodes := List.filter has_title episodes in
  sort_desc sort_key episodes.

(** Lines 146-162 without the trace: the episodes of the payload, from
    the entries of the feed. *)
Definition build_episodes (limit : option Z) (entries : list entry)
  : result (list episode) :=
  candidates ← mapM normalize_entry entries;
  Ok (select_episodes limit candidates).

Definition main (a : args) : io unit :=
  feed <- fetch_feed (rss_url a);;
  let podcast_title :=
    or_empty (py_or (feed_title feed) (Some (str_lit "Podcast"))) in
  candidates <-
    io_map (fun e => _ <- log (EvNormalize e);; lift (normalize_entry e))
      (entries feed);;
  let episodes := select_episodes (limit a) candidates in
  let payload :=
    mk_payload (mk_podcast_meta podcast_title (rss_url a) iso_utc_now)
      episodes in
  let out_path := out a in
  let out_dir := dirname out_path in
  _ <- (if truthy (Some out_dir) then makedirs out_dir else io_ret tt);;
  _ <- write_json out_path payload;;
  print (str_lit "Wrote " ++ str_of_nat (length episodes)
         ++ str_lit " episodes to " ++ out_path).

(** The process: exit status 0 when [main] returns, 1 when an exception
    reaches the top level. *)
Definition run (a : args) (w : world) : Z * world :=
  match main a w with
  | (Ok _, w') => (0, w')
  | (Raise _, w') => (1, w')
  end.

End Pipeline.

(** ** Reference collaborators

    A closed instance of the interface, for running the program on
    concrete feeds: the request answers [reply], the feed parser returns
    [feed], dateutil rejects every string, the local zone is UTC, and
    [datetime.fromisoformat] reads the strings [isoformat] prints for a
    whole number of seconds,
    [YYYY-MM-DD?HH:MM:SS] with an optional offset [+HH:MM] or [-HH:MM]. *)

Fixpoint ascii_number (acc : Z) (s : pystr) : option Z :=
  match s with
  | [] => Some acc
  | c :: s' =>
      if in_range 48 57 c then ascii_number (10 * acc + (c - 48)) s'
      else None
  end.

(** The number written in the [len] characters of [s] from [start]. *)
Definition field (start len : nat) (s : pystr) : option Z :=
  let f := take len (drop start s) in
  if bool_decide (length f = len) then ascii_number 0 f else None.

Definition char_at (i : nat) (c : codepoint) (s : pystr) : bool :=
  bool_decide (s !! i = Some c).

Definition reference_offset (s : pystr) : option (option Z) :=
  match s with
  | [] => Some None
  | sign :: rest =>
      if ((sign =? 43) || (sign =? 45)) && bool_decide (length rest = 5%nat)
         && char_at 2 colon rest
      then
        hh ← field 0 2 rest;
        mm ← field 3 2 rest;
        Some (Some ((if sign =? 45 then -1 else 1) * (hh * 3600 + mm * 60)))
      else None
  end.

Definition reference_fromisoformat (s : pystr) : option datetime :=
  if char_at 4 45 s && char_at 7 45 s && char_at 13 colon s
     && char_at 16 colon s
  then
    y ← field 0 4 s;
    m ← field 5 2 s;
    d ← field 8 2 s;
    hh ← field 11 2 s;
    mi ← field 14 2 s;
    ss ← field 17 2 s;
    tz ← reference_offset (drop 19 s);
    match datetime_new [y; m; d; hh; mi; ss] tz with
    | Ok dt => Some dt
    | Raise _ => None
    end
  else None.

Definition reference (reply : result response) (feed : parsed_feed)
  : Collaborators := {|
  date_parser_parse := fun _ => Raise ValueError;
  datetime_fromisoformat := reference_fromisoformat;
  local_utcoffset := fun _ => 0;
  requests_get := fun _ => reply;
  feedparser_parse := fun _ => feed;
  datetime_now_utc := mk_datetime 2024 1 1 0 0 0 0 utc
|}.

Definition ok_reply : result response := Ok (mk_response 200 []).

Definition no_feed : parsed_feed := mk_parsed_feed None [].

(** An entry with no field set, and entries that set one or two. *)
Definition blank_entry : entry :=
  mk_entry None None None None None None None None None None None None.

Definition titled (t : string) : entry :=
  mk_entry None None (Some (str_lit t)) None None None None None None None
    None None.

Definition with_duration (d : duration_raw) (e : entry) : entry :=
  mk_entry (entry_id e) (entry_guid e) (entry_title e) (entry_summary e)
    (entry_description e) (entry_link e) (entry_published e)
    (entry_updated e) (entry_published_parsed e) (entry_updated_parsed e)
    (Some d) (entry_enclosures e).

Definition with_published_parsed (t : list Z) (e : entry) : entry :=
  mk_entry (entry_id e) (entry_guid e) (entry_title e) (entry_summary e)
    (entry_description e) (entry_link e) (entry_published e)
    (entry_updated e) (Some t) (entry_updated_parsed e)
    (entry_itunes_duration e) (entry_enclosures e).

Definition with_updated_parsed (t : list Z) (e : entry) : entry :=
  mk_entry (entry_id e) (entry_guid e) (entry_title e) (entry_summary e)
    (entry_description e) (entry_link e) (entry_published e)
    (entry_updated e) (entry_published_parsed e) (Some t)
    (entry_itunes_duration e) (entry_enclosures e).

Definition with_guid (g : string) (e : entry) : entry :=
  mk_entry (entry_id e) (Some (str_lit g)) (entry_title e) (entry_summary e)
    (entry_description e) (entry_link e) (entry_published e)
    (entry_updated e) (entry_published_parsed e) (entry_updated_parsed e)
    (entry_itunes_duration e) (entry_enclosures e).

Definition empty_world : world := mk_world ∅ ∅ [] [].

(** ** Vocabulary of the statements *)

(** [desc key x y]: in a list in descending order of [key], [x] may stand
    before [y]. *)
Definition desc {A} (key : A -> float) (x y : A) : Prop := key y <= key x.

(** The elements of key [k], in order. *)
Definition with_key {A} (key : A -> float) (k : float) (l : list A) : list A :=
  List.filter (fun x => key x =? k) l.

Definition blank_episode : episode := mk_episode [] [] [] None None None None.

(** An episode with a name and a publication date. *)
Definition dated (name : string) (when : option string) : episode :=
  mk_episode (str_lit name) (str_lit name) [] (str_lit <$> when) None None
    None.




(** The components are a date and time of day of the calendar (years 1 to
    9999). *)
Definition valid_time (y m d hh mi ss : Z) : bool :=
  in_range 1 9999 y && in_range 1 12 m && in_range 1 (days_in_month y m) d
  && in_range 0 23 hh && in_range 0 59 mi && in_range 0 59 ss.

(** ISO 8601 in UTC with the suffix [Z]: [YYYY-MM-DDTHH:MM:SSZ]. *)
Definition iso8601_z (y m d hh mi ss : Z) : pystr :=
  zfill 4 y ++ str_lit "-" ++ zfill 2 m ++ str_lit "-" ++ zfill 2 d
  ++ str_lit "T" ++ zfill 2 hh ++ str_lit ":" ++ zfill 2 mi ++ str_lit ":"
  ++ zfill 2 ss ++ str_lit "Z".

(** Time components read as UTC and formatted. *)
Definition format_utc (components : list Z) : result (option pystr) :=
  dt ← datetime_new components utc;
  Ok (Some (iso_z dt)).

(** What [isoformat] prints before the offset. *)
Definition isoformat_local (dt : datetime) : pystr :=
  isoformat (with_tzinfo None dt).

(** A parsed date in UTC: a value without a zone is taken to be in UTC,
    one with a zone is converted. *)
Definition in_utc `{Collaborators} (dt : datetime) : result datetime :=
  astimezone_utc (match tzinfo dt with
                  | None => with_tzinfo utc dt
                  | Some _ => dt
                  end).

(** The text that is hashed for an entry without a guid. *)
Definition id_base (title : pystr) (published audio_url : option pystr)
  : pystr :=
  title ++ str_lit "|" ++ or_empty published ++ str_lit "|"
  ++ or_empty audio_url.

Definition not_plus (c : codepoint) : Prop := c <> 43.

(** The payload [main] assembles from the parsed feed and the candidate
    episodes (lines 164-171). *)
Definition payload_of `{Collaborators} (a : args) (feed : parsed_feed)
  (candidates : list episode) : payload :=
  mk_payload
    (mk_podcast_meta
       (or_empty (py_or (feed_title feed) (Some (str_lit "Podcast"))))
       (rss_url a) iso_utc_now)
    (select_episodes (limit a) candidates).

(** The world after the request of [fetch_feed] and nothing else. *)
Definition after_request (url : pystr) (w : world) : world :=
  mk_world (files w) (dirs w) (stdout w) (trace w ++ [EvGet url]).


(** Whole seconds from 1970-01-01T00:00:00Z to the instant an aware
    value denotes. *)
Definition epoch_second (dt : datetime) : Z :=
  wall_seconds dt - default 0 (tzinfo dt) - epoch_seconds.

(** The float of an integer that binary64 represents exactly. *)
Definition exact_float (n : Z) : float := n * 2 ^ float_unit_exp.


(** The fields of a value are those of a [datetime] object. *)
Definition valid_datetime (dt : datetime) : bool :=
  valid_time (year dt) (month dt) (day dt) (hour dt) (minute dt) (second dt)
  && in_range 0 999999 (microsecond dt).

(** [ord2ymd] undoes [ymd2ord] on the days of year [y], and the ordinal
    of each day, moved on by as many periods of 400 years as stay within
    the year 9999, is in the range of ordinals. *)
Definition roundtrip_year (y : Z) : bool :=
  List.forallb
    (fun m =>
       List.forallb
         (fun d =>
            let ord := ymd2ord y (Z.of_nat m) (Z.of_nat d) in
            let '(y', m', d') := ord2ymd ord in
            (y' =? y) && (m' =? Z.of_nat m) && (d' =? Z.of_nat d)
            && (1 <=? ord)
            && (ord + 146097 * ((9999 - y) / 400) <=? max_ordinal))
         (seq 1 (Z.to_nat (days_in_month y (Z.of_nat m)))))
    (seq 1 12).

(** * Properties *)

(** ** Results *)

Lemma bind_Ok {A B} (c : result A) (f : A -> result B) (b : B) :
  c ≫= f = Ok b -> exists a, c = Ok a /\ f a = Ok b.
Proof. destruct c as [a|e]; simpl; [eauto | discriminate]. Qed.

Lemma mapM_Ok_length {A B} (f : A -> result B) (l : list A) (k : list B) :
  mapM f l = Ok k -> length k = length l.
Proof.
  revert k. induction l as [|x l IH]; intros k Hk; simpl in Hk.
  - injection Hk as <-. reflexivity.
  - apply bind_Ok in Hk as (y & Hy & Hk).
    apply bind_Ok in Hk as (ys & Hys & Hk).
    injection Hk as <-. simpl. f_equal. auto.
Qed.

Lemma mapM_Ok_Forall2 {A B} (f : A -> result B) (l : list A) (k : list B) :
  mapM f l = Ok k -> Forall2 (fun x y => f x = Ok y) l k.
Proof.
  revert k. induction l as [|x l IH]; intros k Hk; simpl in Hk.
  - injection Hk as <-. constructor.
  - apply bind_Ok in Hk as (y & Hy & Hk).
    apply bind_Ok in Hk as (ys & Hys & Hk).
    injection Hk as <-. constructor; auto.
Qed.

(** ** Slices *)

Section Slices.

Context {A : Type}.
Implicit Types (l : list A) (n k : Z).

Lemma slice_to_nonneg n l : 0 <= n -> slice_to n l = take (Z.to_nat n) l.
Proof.
  intros Hn. unfold slice_to.
  destruct (n <? 0) eqn:E; [lia|].
  destruct (Z.le_gt_cases n (Z.of_nat (length l))).
  - rewrite Z.min_l by lia. reflexivity.
  - rewrite Z.min_r by lia. rewrite Nat2Z.id.
    rewrite !take_ge by lia. reflexivity.
Qed.

Lemma slice_to_zero l : slice_to 0 l = [].
Proof. rewrite slice_to_nonneg by lia. reflexivity. Qed.

Lemma slice_to_negative k l :
  0 < k -> slice_to (- k) l = take (length l - Z.to_nat k) l.
Proof.
  intros Hk. unfold slice_to.
  destruct (- k <? 0) eqn:E; [|lia].
  f_equal. lia.
Qed.

(** A negative bound removes the last [k] elements. *)
Lemma slice_to_negative_drops_last k l :
  0 < k ->
  exists last_k, l = slice_to (- k) l ++ last_k
                 /\ length last_k = Nat.min (Z.to_nat k) (length l).
Proof.
  intros Hk. rewrite slice_to_negative by assumption.
  exists (drop (length l - Z.to_nat k) l). split.
  - symmetry. apply take_drop.
  - rewrite length_drop. lia.
Qed.

Lemma slice_to_prefix n l : exists rest, l = slice_to n l ++ rest.
Proof.
  unfold slice_to. eexists. symmetry. apply take_drop.
Qed.

End Slices.

(** ** The stable descending sort *)

Section Sorting.

Context {A : Type} (key : A -> float).
Implicit Types (x y : A) (l : list A).

Lemma insert_desc_perm x l : Permutation (x :: l) (insert_desc key x l).
Proof.
  induction l as [|y l IH]; simpl.
  - reflexivity.
  - destruct (key x <? key y).
    + rewrite perm_swap. constructor. exact IH.
    + reflexivity.
Qed.

Lemma sort_desc_perm l : Permutation l (sort_desc key l).
Proof.
  induction l as [|x l IH]; simpl.
  - constructor.
  - rewrite <- insert_desc_perm. constructor. exact IH.
Qed.

Lemma sort_desc_length l : length (sort_desc key l) = length l.
Proof. symmetry. apply Permutation_length, sort_desc_perm. Qed.

Lemma insert_desc_sorted x l :
  StronglySorted (desc key) l -> StronglySorted (desc key) (insert_desc key x l).
Proof.
  induction 1 as [|y l Hl IH Hy]; simpl.
  - repeat constructor.
  - destruct (key x <? key y) eqn:E.
    + constructor; [exact IH|].
      rewrite <- insert_desc_perm. constructor; [|exact Hy].
      unfold desc in *. lia.
    + constructor; [constructor; assumption|].
      constructor; [unfold desc in *; lia|].
      eapply Forall_impl; [exact Hy|].
      unfold desc in *. intros z Hz. simpl in Hz. lia.
Qed.

Lemma sort_desc_sorted l : StronglySorted (desc key) (sort_desc key l).
Proof.
  induction l as [|x l IH]; simpl.
  - constructor.
  - apply insert_desc_sorted, IH.
Qed.

Lemma insert_desc_with_key k x l :
  with_key key k (insert_desc key x l) = with_key key k (x :: l).
Proof.
  induction l as [|y l IH]; simpl.
  - reflexivity.
  - destruct (key x <? key y) eqn:E; simpl.
    + unfold with_key in *. simpl in *. rewrite IH.
      destruct (key x =? k) eqn:Ex, (key y =? k) eqn:Ey; try reflexivity.
      lia.
    + reflexivity.
Qed.

(** Stability: elements with equal keys keep their order. *)
Lemma sort_desc_stable k l : with_key key k (sort_desc key l) = with_key key k l.
Proof.
  induction l as [|x l IH]; simpl.
  - reflexivity.
  - rewrite insert_desc_with_key. unfold with_key in *. simpl.
    rewrite IH. reflexivity.
Qed.

End Sorting.

(** ** Timestamps of whole seconds *)

Lemma round_half_even_exact (m d : Z) : 0 < d -> round_half_even (m * d) d = m.
Proof.
  intros Hd. unfold round_half_even.
  rewrite Z.div_mul, Z.mod_mul by lia.
  destruct (d <? 2 * 0) eqn:E1; [lia|].
  destruct (d =? 2 * 0) eqn:E2; [lia|]. reflexivity.
Qed.

Lemma float_of_pos_ratio_seconds (s : Z) :
  0 < s -> s * 10 ^ 6 < 2 ^ 71 ->
  float_of_pos_ratio (s * 10 ^ 6) (10 ^ 6) = exact_float s.
Proof.
  intros Hs Hb. unfold float_of_pos_ratio, exact_float, float_unit_exp.
  assert (Hlo : 19 <= Z.log2 (s * 10 ^ 6)).
  { change 19 with (Z.log2 (2 ^ 19)). apply Z.log2_le_mono. lia. }
  assert (Hhi : Z.log2 (s * 10 ^ 6) < 71).
  { apply Z.log2_lt_pow2; lia. }
  change (Z.log2 (10 ^ 6)) with 19.
  set (e0 := Z.log2 (s * 10 ^ 6) - 19) in *.
  set (e := if _ <? _ then e0 - 1 else e0).
  assert (He : -1 <= e <= 51).
  { subst e. destruct (_ <? _); lia. }
  clearbody e. clear e0 Hlo Hhi.
  rewrite (Z.max_l (e - 52)) by lia.
  rewrite (Z.max_r 0 (- (e - 52))) by lia.
  rewrite (Z.max_l 0 (e - 52)) by lia.
  change (2 ^ 0) with 1. rewrite Z.mul_1_r.
  replace (s * 10 ^ 6 * 2 ^ (- (e - 52)))
    with (s * 2 ^ (- (e - 52)) * 10 ^ 6) by ring.
  rewrite round_half_even_exact by lia.
  rewrite <- Z.mul_assoc, <- Z.pow_add_r by lia.
  f_equal. f_equal. lia.
Qed.

(** The quotient of a whole number of seconds, counted in microseconds,
    by [10 ** 6] is that number, exactly. *)
Lemma float_of_ratio_seconds (s : Z) :
  Z.abs s < 2 ^ 51 -> float_of_ratio (s * 10 ^ 6) (10 ^ 6) = exact_float s.
Proof.
  intros Hb. unfold float_of_ratio.
  destruct (Z.eq_dec s 0) as [-> | Hs]; [reflexivity|].
  destruct (s * 10 ^ 6 =? 0) eqn:E; [lia|].
  change (10 ^ 6 =? 0) with false. cbn [orb].
  change (Z.sgn (10 ^ 6)) with 1. change (Z.abs (10 ^ 6)) with (10 ^ 6).
  rewrite Z.mul_1_r.
  replace (Z.abs (s * 10 ^ 6)) with (Z.abs s * 10 ^ 6) by lia.
  replace (Z.sgn (s * 10 ^ 6)) with (Z.sgn s) by lia.
  rewrite float_of_pos_ratio_seconds by lia.
  unfold exact_float. rewrite Z.mul_assoc.
  f_equal. lia.
Qed.

(** The timestamp of an aware value of whole seconds is the number of
    seconds since the epoch, exactly; so of two such values the later
    has the larger key. *)
Lemma timestamp_whole_seconds `{Collaborators} (dt : datetime) :
  is_Some (tzinfo dt) -> microsecond dt = 0 ->
  Z.abs (epoch_second dt) < 2 ^ 51 ->
  timestamp dt = exact_float (epoch_second dt).
Proof.
  intros [off Htz] Hus Hb. unfold timestamp, epoch_second in *.
  rewrite Htz in *. simpl in Hb. rewrite Hus, Z.add_0_r.
  apply float_of_ratio_seconds, Hb.
Qed.

Lemma exact_float_lt (a b : Z) : a < b <-> exact_float a < exact_float b.
Proof. unfold exact_float, float_unit_exp. lia. Qed.

(** ** Text without markup *)

Section PlainText.

Import Regex.














End PlainText.

(** ** The calendar *)

Lemma is_leap_period (y k : Z) : is_leap (y + 400 * k) = is_leap y.
Proof.
  unfold is_leap.
  replace ((y + 400 * k) mod 4) with (y mod 4)
    by (replace (y + 400 * k) with (y + (100 * k) * 4) by ring;
        symmetry; apply Z_mod_plus_full).
  replace ((y + 400 * k) mod 100) with (y mod 100)
    by (replace (y + 400 * k) with (y + (4 * k) * 100) by ring;
        symmetry; apply Z_mod_plus_full).
  replace ((y + 400 * k) mod 400) with (y mod 400)
    by (replace (y + 400 * k) with (y + k * 400) by ring;
        symmetry; apply Z_mod_plus_full).
  reflexivity.
Qed.

Lemma days_in_month_period (y k m : Z) :
  days_in_month (y + 400 * k) m = days_in_month y m.
Proof. unfold days_in_month. rewrite is_leap_period. reflexivity. Qed.

Lemma days_before_month_period (y k m : Z) :
  days_before_month (y + 400 * k) m = days_before_month y m.
Proof.
  unfold days_before_month. f_equal. rewrite !List.map_map.
  apply List.map_ext. intros n. apply days_in_month_period.
Qed.

Lemma days_before_year_period (y k : Z) :
  days_before_year (y + 400 * k) = days_before_year y + 146097 * k.
Proof.
  unfold days_before_year.
  replace (y + 400 * k - 1) with (y - 1 + 400 * k) by ring.
  replace ((y - 1 + 400 * k) / 4) with ((y - 1) / 4 + 100 * k)
    by (replace (y - 1 + 400 * k) with (y - 1 + (100 * k) * 4) by ring;
        symmetry; apply Z_div_plus_full; lia).
  replace ((y - 1 + 400 * k) / 100) with ((y - 1) / 100 + 4 * k)
    by (replace (y - 1 + 400 * k) with (y - 1 + (4 * k) * 100) by ring;
        symmetry; apply Z_div_plus_full; lia).
  replace ((y - 1 + 400 * k) / 400) with ((y - 1) / 400 + k)
    by (replace (y - 1 + 400 * k) with (y - 1 + k * 400) by ring;
        symmetry; apply Z_div_plus_full; lia).
  ring.
Qed.

Lemma ymd2ord_period (y k m d : Z) :
  ymd2ord (y + 400 * k) m d = ymd2ord y m d + 146097 * k.
Proof.
  unfold ymd2ord.
  rewrite days_before_year_period, days_before_month_period. ring.
Qed.

Lemma ord2ymd_period (n k : Z) :
  ord2ymd (n + 146097 * k)
  = let '(y, m, d) := ord2ymd n in (y + 400 * k, m, d).
Proof.
  unfold ord2ymd.
  replace (n + 146097 * k - 1) with (n - 1 + k * 146097) by ring.
  rewrite Z_div_plus_full, Z_mod_plus_full by lia.
  set (r := (n - 1) mod 146097).
  set (y := (n - 1) / 146097 * 400 + 1 + r / 36524 * 100
            + r mod 36524 / 1461 * 4 + r mod 36524 mod 1461 / 365).
  replace (((n - 1) / 146097 + k) * 400 + 1 + r / 36524 * 100
           + r mod 36524 / 1461 * 4 + r mod 36524 mod 1461 / 365)
    with (y + 400 * k) by (subst y; ring).
  destruct ((r mod 36524 mod 1461 / 365 =? 4) || (r / 36524 =? 4)).
  - f_equal. f_equal. ring.
  - rewrite !days_before_month_period, !days_in_month_period.
    destruct (_ <? _); reflexivity.
Qed.

Lemma roundtrip_first_period : List.forallb roundtrip_year (List.map Z.of_nat (seq 1 400)) = true.
Proof. vm_compute. reflexivity. Qed.

Lemma in_seq_Z (lo len : nat) (z : Z) :
  Z.of_nat lo <= z < Z.of_nat lo + Z.of_nat len -> In (Z.to_nat z) (seq lo len).
Proof. intros Hz. apply in_seq. lia. Qed.

Lemma days_in_month_range (y m : Z) : 28 <= days_in_month y m <= 31.
Proof.
  unfold days_in_month.
  repeat match goal with |- context [if ?b then _ else _] => destruct b end;
    lia.
Qed.

Lemma first_period (y m d : Z) :
  1 <= y <= 400 -> 1 <= m <= 12 -> 1 <= d <= days_in_month y m ->
  ord2ymd (ymd2ord y m d) = (y, m, d)
  /\ 1 <= ymd2ord y m d
  /\ ymd2ord y m d + 146097 * ((9999 - y) / 400) <= max_ordinal.
Proof.
  intros Hy Hm Hd.
  pose proof roundtrip_first_period as H.
  rewrite forallb_forall in H.
  specialize (H y). unfold roundtrip_year in H.
  assert (Hin : In y (List.map Z.of_nat (seq 1 400))).
  { apply in_map_iff. exists (Z.to_nat y). split; [lia|].
    apply in_seq_Z. lia. }
  specialize (H Hin). rewrite forallb_forall in H.
  assert (Hinm : In (Z.to_nat m) (seq 1 12)) by (apply in_seq_Z; lia).
  specialize (H (Z.to_nat m) Hinm).
  rewrite Z2Nat.id in H by lia.
  rewrite forallb_forall in H.
  assert (Hind : In (Z.to_nat d) (seq 1 (Z.to_nat (days_in_month y m)))).
  { apply in_seq_Z. pose proof (days_in_month_range y m). lia. }
  specialize (H (Z.to_nat d) Hind). cbv zeta in H.
  rewrite Z2Nat.id in H by lia.
  destruct (ord2ymd (ymd2ord y m d)) as [[y' m'] d'].
  repeat (apply andb_prop in H; destruct H as [H ?]).
  split; [f_equal; [f_equal|]; lia | lia].
Qed.

(** [ord2ymd] undoes [ymd2ord] on the dates of the calendar, whose
    ordinals are in range. *)
Lemma ord2ymd_ymd2ord (y m d : Z) :
  1 <= y <= 9999 -> 1 <= m <= 12 -> 1 <= d <= days_in_month y m ->
  ord2ymd (ymd2ord y m d) = (y, m, d)
  /\ 1 <= ymd2ord y m d <= max_ordinal.
Proof.
  intros Hy Hm Hd.
  set (k := (y - 1) / 400). set (y0 := (y - 1) mod 400 + 1).
  assert (Hy0 : y = y0 + 400 * k).
  { subst y0 k. pose proof (Z.div_mod (y - 1) 400). lia. }
  assert (Hr : 1 <= y0 <= 400).
  { subst y0. pose proof (Z.mod_pos_bound (y - 1) 400). lia. }
  assert (Hk : 0 <= k <= (9999 - y0) / 400).
  { split; [subst k; apply Z.div_pos; lia|].
    apply Z.div_le_lower_bound; lia. }
  rewrite Hy0, days_in_month_period in Hd.
  destruct (first_period y0 m d Hr Hm Hd) as (Hrt & Hlo & Hhi).
  rewrite Hy0, ymd2ord_period, ord2ymd_period, Hrt.
  split; [reflexivity|]. nia.
Qed.

Lemma time_of_day (ord hh mi ss : Z) :
  0 <= hh <= 23 -> 0 <= mi <= 59 -> 0 <= ss <= 59 ->
  let t := ord * 86400 + hh * 3600 + mi * 60 + ss in
  t / 86400 = ord /\ t mod 86400 / 3600 = hh
  /\ t mod 86400 mod 3600 / 60 = mi /\ t mod 86400 mod 60 = ss.
Proof.
  intros Hh Hm Hs t. subst t.
  assert (Hr : (ord * 86400 + hh * 3600 + mi * 60 + ss) mod 86400
               = hh * 3600 + mi * 60 + ss).
  { symmetry. apply (Z.mod_unique_pos _ _ ord); lia. }
  rewrite Hr. repeat split.
  - symmetry. apply (Z.div_unique_pos _ _ _ (hh * 3600 + mi * 60 + ss)); lia.
  - symmetry. apply (Z.div_unique_pos _ _ _ (mi * 60 + ss)); lia.
  - replace ((hh * 3600 + mi * 60 + ss) mod 3600) with (mi * 60 + ss)
      by (apply (Z.mod_unique_pos _ _ hh); lia).
    symmetry. apply (Z.div_unique_pos _ _ _ ss); lia.
  - symmetry. apply (Z.mod_unique_pos _ _ (hh * 60 + mi)); lia.
Qed.

(** The wall-clock reading of a value gives the value back. *)
Lemma of_wall_seconds_wall_seconds (dt : datetime) (tz : option Z) :
  valid_datetime dt = true ->
  of_wall_seconds (wall_seconds dt) (microsecond dt) tz
  = Ok (with_tzinfo tz dt).
Proof.
  unfold valid_datetime, valid_time, in_range. intros Hv.
  destruct (ord2ymd_ymd2ord (year dt) (month dt) (day dt))
    as (Hrt & Hord); try lia.
  destruct (time_of_day (ymd2ord (year dt) (month dt) (day dt))
              (hour dt) (minute dt) (second dt))
    as (Hq & Hh & Hm & Hs); try lia.
  unfold of_wall_seconds, wall_seconds. rewrite Hq.
  unfold in_range.
  destruct ((1 <=? _) && (_ <=? max_ordinal)) eqn:E; [|lia].
  rewrite Hrt, Hh, Hm, Hs. reflexivity.
Qed.

(** A parsed value without a zone, or in UTC, is printed as it reads. *)
Lemma in_utc_same `{Collaborators} (dt : datetime) :
  valid_datetime dt = true -> tzinfo dt = None \/ tzinfo dt = utc ->
  in_utc dt = Ok (with_tzinfo utc dt).
Proof.
  intros Hv Htz. unfold in_utc, astimezone_utc.
  destruct Htz as [Htz | Htz]; rewrite Htz.
  - cbn [tzinfo with_tzinfo utc microsecond]. rewrite Z.sub_0_r.
    apply (of_wall_seconds_wall_seconds (with_tzinfo utc dt) utc Hv).
  - cbn [utc]. rewrite Htz. cbn [utc]. rewrite Z.sub_0_r.
    apply of_wall_seconds_wall_seconds, Hv.
Qed.

(** ** The collection builder *)

Lemma has_title_empty (c : episode) : title c = [] -> has_title c = false.
Proof. unfold has_title. intros ->. reflexivity. Qed.

Lemma has_title_nonempty (c : episode) : title c <> [] -> has_title c = true.
Proof. unfold has_title. destruct (title c); [congruence | reflexivity]. Qed.

(** C1.  The candidates are the normalized entries in feed order; the
    limit is applied to them before the filter on the title, for every
    limit [n]; a limit [n >= 0] keeps the [n] leading candidates; and a
    feed of two entries whose titles normalize to [""] and a non-empty
    string gives no episode under limit 1, whereas it gives the second
    episode without a limit, as would a limit applied after the filter. *)
Theorem limit_before_title_filter `{Collaborators} :
  (forall (n : Z) (feed_entries : list entry),
     build_episodes (Some n) feed_entries =
       (candidates ← mapM normalize_entry feed_entries;
        Ok (sort_desc sort_key
              (List.filter has_title (slice_to n candidates)))))
  /\ (forall (feed_entries : list entry) (candidates : list episode),
        mapM normalize_entry feed_entries = Ok candidates ->
        Forall2 (fun e c => normalize_entry e = Ok c) feed_entries candidates)
  /\ (forall (n : Z) (candidates : list episode),
        0 <= n -> slice_to n candidates = take (Z.to_nat n) candidates)
  /\ (forall (a b : entry) (ca cb : episode),
        normalize_entry a = Ok ca -> normalize_entry b = Ok cb ->
        title ca = [] -> title cb <> [] ->
        build_episodes (Some 1) [a; b] = Ok []
        /\ build_episodes None [a; b] = Ok [cb]
        /\ take 1 (List.filter has_title [ca; cb]) = [cb]).
Proof.
  split; [|split; [|split]].
  - intros n feed_entries. reflexivity.
  - intros feed_entries candidates. apply mapM_Ok_Forall2.
  - intros n candidates Hn. apply slice_to_nonneg, Hn.
  - intros a b ca cb Ha Hb Hca Hcb.
    unfold build_episodes. simpl. rewrite Ha, Hb. simpl.
    unfold select_episodes. simpl.
    rewrite (has_title_empty ca Hca), (has_title_nonempty cb Hcb).
    repeat split; reflexivity.
Qed.

Lemma limit_before_title_filter_witness :
  @build_episodes (reference ok_reply no_feed) (Some 1)
    [titled ""; titled "B"] = Ok [].
Proof.
  refine (proj1 (proj2 (proj2 (proj2 (@limit_before_title_filter
            (reference ok_reply no_feed)))) (titled "") (titled "B")
            (mk_episode _ [] [] None None None None)
            (mk_episode _ (str_lit "B") [] None None None None)
            _ _ _ _)).
  - vm_compute. reflexivity.
  - vm_compute. reflexivity.
  - reflexivity.
  - discriminate.
Defined.

(** C10.  With limit 0 no episode is left, whatever the feed; a negative
    limit [-k] keeps all candidates but the last [k], which is not "the
    [m] leading candidates" for any fixed [m]. *)
Theorem limit_zero_and_negative `{Collaborators} :
  (forall feed_entries : list entry,
     build_episodes (Some 0) feed_entries =
       (_ ← mapM normalize_entry feed_entries; Ok []))
  /\ (forall candidates : list episode,
        select_episodes (Some 0) candidates = [])
  /\ (forall (k : Z) (candidates : list episode),
        0 < k ->
        select_episodes (Some (- k)) candidates =
          sort_desc sort_key
            (List.filter has_title
               (take (length candidates - Z.to_nat k) candidates))
        /\ exists last_k,
             candidates = slice_to (- k) candidates ++ last_k
             /\ length last_k = Nat.min (Z.to_nat k) (length candidates))
  /\ (forall k : Z,
        0 < k ->
        ~ exists m : nat,
            forall candidates : list episode,
              slice_to (- k) candidates = take m candidates).
Proof.
  split; [|split; [|split]].
  - intros feed_entries. unfold build_episodes, select_episodes.
    destruct (mapM normalize_entry feed_entries) as [cs|e]; simpl;
      [|reflexivity].
    rewrite slice_to_zero. reflexivity.
  - intros candidates. unfold select_episodes.
    rewrite slice_to_zero. reflexivity.
  - intros k candidates Hk. split.
    + unfold select_episodes. rewrite slice_to_negative by exact Hk.
      reflexivity.
    + apply slice_to_negative_drops_last, Hk.
  - intros k Hk [m Hm].
    specialize (Hm (List.repeat blank_episode (m + Z.to_nat k + 1))).
    rewrite slice_to_negative in Hm by exact Hk.
    apply (f_equal length) in Hm.
    rewrite !length_take, repeat_length in Hm. lia.
Qed.

Lemma limit_zero_and_negative_witness :
  @select_episodes (reference ok_reply no_feed) (Some (- 1))
    [blank_episode; blank_episode] =
  sort_desc (@sort_key (reference ok_reply no_feed))
    (List.filter has_title (take (2 - Z.to_nat 1) [blank_episode; blank_episode])).
Proof.
  refine (proj1 (proj1 (proj2 (proj2 (@limit_zero_and_negative
            (reference ok_reply no_feed)))) 1
            [blank_episode; blank_episode] _)).
  lia.
Defined.

(** ** The order of the episodes *)

Lemma sort_key_absent `{Collaborators} (e : episode) :
  truthy (published e) = false -> sort_key e = 0.
Proof. unfold sort_key. intros ->. reflexivity. Qed.

Lemma sort_key_unparsed `{Collaborators} (e : episode) (s : pystr) :
  published e = Some s ->
  datetime_fromisoformat (replace (str_lit "Z") (str_lit "+00:00") s) = None ->
  sort_key e = 0.
Proof.
  unfold sort_key. intros -> Hs. simpl. rewrite Hs.
  destruct (negb _); reflexivity.
Qed.

Lemma sort_key_parsed `{Collaborators} (e : episode) (s : pystr)
  (dt : datetime) :
  published e = Some s -> s <> [] ->
  datetime_fromisoformat (replace (str_lit "Z") (str_lit "+00:00") s)
    = Some dt ->
  sort_key e = timestamp dt.
Proof.
  unfold sort_key. intros -> Hne Hs. simpl. rewrite Hs.
  destruct s; [congruence | reflexivity].
Qed.

(** C4.  The episodes left by the filter are put in descending order of
    [sort_key] by a stable sort: the result is a rearrangement of the
    filtered list (no episode is left out), every episode's key is at
    least the key of each episode after it, and the episodes of any one
    key stand in their feed order.  The key is 0 when [published] is
    absent (or empty) and when it does not parse back, and the timestamp
    of the parsed value otherwise; for a value of whole seconds with a
    zone -- such as the ones [to_iso_datetime] prints from structured
    components -- the timestamp is exactly the number of seconds since
    the epoch, so a later date has a larger key and stands first. *)
Theorem episodes_sorted_by_published `{Collaborators} :
  (forall (limit : option Z) (candidates : list episode),
     select_episodes limit candidates =
       sort_desc sort_key
         (List.filter has_title
            (match limit with
             | Some n => slice_to n candidates
             | None => candidates
             end)))
  /\ (forall filtered : list episode,
        Permutation filtered (sort_desc sort_key filtered)
        /\ StronglySorted (fun a b => sort_key b <= sort_key a)
             (sort_desc sort_key filtered)
        /\ forall k : float,
             List.filter (fun e => sort_key e =? k)
               (sort_desc sort_key filtered)
             = List.filter (fun e => sort_key e =? k) filtered)
  /\ (forall e : episode,
        (truthy (published e) = false -> sort_key e = 0)
        /\ (forall s,
              published e = Some s ->
              datetime_fromisoformat
                (replace (str_lit "Z") (str_lit "+00:00") s) = None ->
              sort_key e = 0)
        /\ (forall s dt,
              published e = Some s -> s <> [] ->
              datetime_fromisoformat
                (replace (str_lit "Z") (str_lit "+00:00") s) = Some dt ->
              sort_key e = timestamp dt))
  /\ (forall dt : datetime,
        is_Some (tzinfo dt) -> microsecond dt = 0 ->
        Z.abs (epoch_second dt) < 2 ^ 51 ->
        timestamp dt = exact_float (epoch_second dt))
  /\ (forall a b : Z, a < b <-> exact_float a < exact_float b).
Proof.
  split; [|split; [|split; [|split]]];
    [| | | apply @timestamp_whole_seconds | apply exact_float_lt].
  - reflexivity.
  - intros filtered. split; [|split].
    + apply sort_desc_perm.
    + exact (sort_desc_sorted sort_key filtered).
    + intros k. exact (sort_desc_stable sort_key k filtered).
  - intros e. split; [|split].
    + apply sort_key_absent.
    + apply sort_key_unparsed.
    + apply sort_key_parsed.
Qed.

(** An episode of 2023, one without a date and one of 2024, in feed
    order, come out as 2024, 2023, no date. *)
Lemma episodes_sorted_by_published_witness :
  @select_episodes (reference ok_reply no_feed) None
    [ dated "old" (Some "2023-01-01T00:00:00Z"%string); dated "undated" None;
      dated "new" (Some "2024-01-01T00:00:00Z"%string) ]
  = [ dated "new" (Some "2024-01-01T00:00:00Z"%string);
      dated "old" (Some "2023-01-01T00:00:00Z"%string); dated "undated" None ].
Proof.
  rewrite (proj1 (@episodes_sorted_by_published (reference ok_reply no_feed))).
  vm_compute. reflexivity.
Defined.

(** ** Numerals *)














(** ** parse_duration *)





(** ** Formatting dates *)

Lemma replace_plain (old new s : pystr) (o : codepoint) (old' : pystr) :
  old = o :: old' -> Forall (fun c => c <> o) s ->
  forall tail, replace_from old new 0 (s ++ tail)
               = s ++ replace_from old new 0 tail.
Proof.
  intros -> Hs tail. induction Hs as [|c s Hc _ IH]; simpl.
  - reflexivity.
  - destruct (o =? c) eqn:E; [lia|]. simpl. rewrite <- IH. reflexivity.
Qed.

Lemma utc_suffix_replaced (s : pystr) :
  Forall not_plus s ->
  replace (str_lit "+00:00") (str_lit "Z") (s ++ str_lit "+00:00")
  = s ++ str_lit "Z".
Proof.
  intros Hs. unfold replace.
  rewrite (replace_plain _ _ s 43 (str_lit "00:00")); [|reflexivity|exact Hs].
  reflexivity.
Qed.

Lemma zfill_not_plus (w : nat) (n : Z) : Forall not_plus (zfill w n).
Proof.
  revert n. induction w as [|w IH]; intros n; simpl.
  - constructor.
  - apply Forall_app. split; [apply IH|].
    constructor; [|constructor]. unfold not_plus.
    pose proof (Z.mod_pos_bound n 10). lia.
Qed.

Lemma literal_not_plus (s : string) :
  forallb (fun c => negb (c =? 43)) (str_lit s) = true ->
  Forall not_plus (str_lit s).
Proof.
  intros Hs. apply List.Forall_forall. intros c Hc.
  rewrite forallb_forall in Hs. specialize (Hs c Hc).
  unfold not_plus. lia.
Qed.

Lemma isoformat_local_not_plus (dt : datetime) :
  Forall not_plus (isoformat_local dt).
Proof.
  unfold isoformat_local, isoformat, with_tzinfo.
  cbn [year month day hour minute second microsecond tzinfo].
  destruct (microsecond dt =? 0);
    repeat first
      [ apply Forall_nil_2
      | apply zfill_not_plus
      | apply literal_not_plus; reflexivity
      | apply Forall_app_2 ].
Qed.

Lemma isoformat_utc (dt : datetime) :
  tzinfo dt = utc -> isoformat dt = isoformat_local dt ++ str_lit "+00:00".
Proof.
  intros Htz. unfold isoformat_local, isoformat, with_tzinfo.
  cbn [year month day hour minute second microsecond tzinfo].
  rewrite Htz, app_nil_r. rewrite <- !app_assoc. reflexivity.
Qed.

(** A value in UTC is printed with the suffix [Z] in place of the
    offset. *)
Lemma iso_z_utc (dt : datetime) :
  tzinfo dt = utc -> iso_z dt = isoformat_local dt ++ str_lit "Z".
Proof.
  intros Htz. unfold iso_z. rewrite (isoformat_utc dt Htz).
  apply utc_suffix_replaced, isoformat_local_not_plus.
Qed.

Lemma datetime_new_valid (y m d hh mi ss : Z) (tz : option Z) :
  valid_time y m d hh mi ss = true ->
  datetime_new [y; m; d; hh; mi; ss] tz
  = Ok (mk_datetime y m d hh mi ss 0 tz).
Proof.
  intros Hv. unfold datetime_new. simpl nth.
  assert (Hd : days_in_month y m <= 31).
  { unfold days_in_month.
    repeat match goal with |- context [if ?b then _ else _] => destruct b end;
      lia. }
  unfold valid_time in Hv. pose proof Hv as Hv'.
  unfold in_range in Hv'.
  replace (forallb fits_c_int [y; m; d; hh; mi; ss]) with true.
  2: { symmetry. simpl. unfold fits_c_int, in_range. lia. }
  simpl negb. cbn iota. rewrite Hv. reflexivity.
Qed.

Lemma format_utc_valid (y m d hh mi ss : Z) :
  valid_time y m d hh mi ss = true ->
  format_utc [y; m; d; hh; mi; ss] = Ok (Some (iso8601_z y m d hh mi ss)).
Proof.
  intros Hv. unfold format_utc. rewrite (datetime_new_valid _ _ _ _ _ _ _ Hv).
  simpl. rewrite iso_z_utc by reflexivity.
  unfold isoformat_local, isoformat, iso8601_z, with_tzinfo.
  cbn [year month day hour minute second microsecond tzinfo].
  rewrite Z.eqb_refl, !app_nil_r. rewrite <- !app_assoc. reflexivity.
Qed.

Lemma astimezone_utc_tzinfo `{Collaborators} (dt dt' : datetime) :
  astimezone_utc dt = Ok dt' -> tzinfo dt' = utc.
Proof.
  unfold astimezone_utc, of_wall_seconds.
  destruct (in_range 1 max_ordinal _); [|discriminate].
  destruct (ord2ymd _) as [[y m] d]. intros [= <-]. reflexivity.
Qed.

(** ** to_iso_datetime *)

(** C3.  The source of the date, by priority: the structured published
    components when present, else the structured updated components,
    both read as UTC; else the raw published string, or the raw updated
    one when that is absent or empty, parsed by dateutil, taken to be in
    UTC when the parsed value has no zone and converted to UTC (a value
    of the calendar without a zone, or in UTC, is printed as it reads),
    a parse failure giving null; else null.  Components that are a date and time
    of the calendar are printed as [YYYY-MM-DDTHH:MM:SSZ], so an entry
    with only updated components yields that time; a parsed raw string
    is printed with the suffix [Z] as well. *)
Theorem to_iso_datetime_priority `{Collaborators} (e : entry) :
  (truthy_tuple (entry_published_parsed e) = true ->
   to_iso_datetime e
   = format_utc (take 6 (default [] (entry_published_parsed e))))
  /\ (truthy_tuple (entry_published_parsed e) = false ->
      truthy_tuple (entry_updated_parsed e) = true ->
      to_iso_datetime e
      = format_utc (take 6 (default [] (entry_updated_parsed e))))
  /\ (truthy_tuple (entry_published_parsed e) = false ->
      truthy_tuple (entry_updated_parsed e) = false ->
      let raw := py_or (entry_published e) (entry_updated e) in
      (truthy raw = false -> to_iso_datetime e = Ok None)
      /\ (truthy raw = true ->
          (forall x, date_parser_parse (or_empty raw) = Raise x ->
                     to_iso_datetime e
                     = match x with
                       | ValueError | TypeError => Ok None
                       | _ => Raise x
                       end)
          /\ (forall dt dt',
                date_parser_parse (or_empty raw) = Ok dt ->
                in_utc dt = Ok dt' ->
                to_iso_datetime e
                = Ok (Some (isoformat_local dt' ++ str_lit "Z")))
          /\ (forall dt,
                date_parser_parse (or_empty raw) = Ok dt ->
                valid_datetime dt = true ->
                tzinfo dt = None \/ tzinfo dt = utc ->
                to_iso_datetime e
                = Ok (Some (isoformat_local dt ++ str_lit "Z")))))
  /\ (forall y m d hh mi ss rest,
        valid_time y m d hh mi ss = true ->
        (entry_published_parsed e = Some (y :: m :: d :: hh :: mi :: ss :: rest)
         -> to_iso_datetime e = Ok (Some (iso8601_z y m d hh mi ss)))
        /\ (truthy_tuple (entry_published_parsed e) = false ->
            entry_updated_parsed e
              = Some (y :: m :: d :: hh :: mi :: ss :: rest) ->
            to_iso_datetime e = Ok (Some (iso8601_z y m d hh mi ss)))).
Proof.
  assert (Hfirst : truthy_tuple (entry_published_parsed e) = true ->
                   to_iso_datetime e
                   = format_utc (take 6 (default [] (entry_published_parsed e)))).
  { intros Hp. unfold to_iso_datetime. rewrite Hp. reflexivity. }
  assert (Hsecond : truthy_tuple (entry_published_parsed e) = false ->
                    truthy_tuple (entry_updated_parsed e) = true ->
                    to_iso_datetime e
                    = format_utc (take 6 (default [] (entry_updated_parsed e)))).
  { intros Hp Hu. unfold to_iso_datetime. rewrite Hp, Hu. reflexivity. }
  split; [exact Hfirst|]. split; [exact Hsecond|]. split.
  - intros Hp Hu raw. subst raw. unfold to_iso_datetime. rewrite Hp, Hu.
    cbv zeta. split.
    + intros ->. reflexivity.
    + intros Hraw. rewrite Hraw. cbn [negb]. split.
      * intros x Hx. rewrite Hx. destruct x; reflexivity.
      * split.
        -- intros dt dt' Hdt Hutc. rewrite Hdt.
           unfold in_utc in Hutc. unfold mbind, result_bind.
           rewrite Hutc.
           rewrite (iso_z_utc dt' (astimezone_utc_tzinfo _ _ Hutc)).
           reflexivity.
        -- intros dt Hdt Hv Htz. rewrite Hdt.
           pose proof (in_utc_same dt Hv Htz) as Hutc.
           unfold in_utc in Hutc. unfold mbind, result_bind.
           rewrite Hutc.
           rewrite (iso_z_utc (with_tzinfo utc dt) eq_refl).
           reflexivity.
  - intros y m d hh mi ss rest Hv. split.
    + intros Hp. rewrite Hfirst by (rewrite Hp; reflexivity).
      rewrite Hp. apply (format_utc_valid _ _ _ _ _ _ Hv).
    + intros Hp Hu. rewrite Hsecond by (rewrite ?Hu; auto).
      rewrite Hu. apply (format_utc_valid _ _ _ _ _ _ Hv).
Qed.

(** An entry with only updated components. *)
Lemma to_iso_datetime_priority_witness :
  @to_iso_datetime (reference ok_reply no_feed)
    (with_updated_parsed [2024; 3; 9; 7; 5; 0; 5; 69; 0] blank_entry)
  = Ok (Some (str_lit "2024-03-09T07:05:00Z")).
Proof.
  exact (proj2
           (proj2 (proj2 (proj2
              (@to_iso_datetime_priority (reference ok_reply no_feed)
                 (with_updated_parsed [2024; 3; 9; 7; 5; 0; 5; 69; 0]
                    blank_entry))))
              2024 3 9 7 5 0 [5; 69; 0] eq_refl)
           eq_refl eq_refl).
Defined.

(** ** Episode ids *)

Lemma normalize_entry_Ok `{Collaborators} (e : entry) (ep : episode) :
  normalize_entry e = Ok ep ->
  to_iso_datetime e = Ok (published ep)
  /\ audio_url ep = extract_audio_url e
  /\ strip_html (py_or (py_or (entry_summary e) (entry_description e))
                   (Some [])) = Ok (description ep)
  /\ parse_duration (entry_itunes_duration e) = Ok (duration ep)
  /\ build_episode_id e (audio_url ep) (published ep) = Ok (id ep)
  /\ title ep = strip (or_empty (py_or (entry_title e) (Some [])))
  /\ link ep = entry_link e.
Proof.
  unfold normalize_entry. intros Hn.
  apply bind_Ok in Hn as (p & Hp & Hn).
  apply bind_Ok in Hn as (d & Hd & Hn).
  apply bind_Ok in Hn as (du & Hdu & Hn).
  apply bind_Ok in Hn as (i & Hi & Hn).
  injection Hn as <-. simpl. auto 10.
Qed.

(** C2.  An entry with a non-empty id (or, failing that, a non-empty
    guid) gets that string as its id, whatever its title, date and audio
    URL.  An entry without one gets the SHA-256 hex digest of the UTF-8
    bytes of [title|published|audio_url], the entry's title as supplied
    and an absent part counting as the empty string; so two such entries
    with the same title get the same id for the same date and audio URL.
    The id of the episode [normalize_entry] builds is derived this way
    from the episode's own date and audio URL. *)
Theorem episode_id_derivation :
  (forall (e : entry) (audio_url published : option pystr),
     let guid := py_or (entry_id e) (entry_guid e) in
     (truthy guid = true ->
      build_episode_id e audio_url published = Ok (or_empty guid))
     /\ (truthy guid = false ->
         build_episode_id e audio_url published
         = (bytes ← encode_utf8
                      (id_base (default [] (entry_title e)) published
                         audio_url);
            Ok (SHA256.hexdigest bytes))))
  /\ (forall (e1 e2 : entry) (audio_url published : option pystr),
        truthy (py_or (entry_id e1) (entry_guid e1)) = false ->
        truthy (py_or (entry_id e2) (entry_guid e2)) = false ->
        default [] (entry_title e1) = default [] (entry_title e2) ->
        build_episode_id e1 audio_url published
        = build_episode_id e2 audio_url published)
  /\ (forall (C : Collaborators) (e : entry) (ep : episode),
        normalize_entry e = Ok ep ->
        build_episode_id e (audio_url ep) (published ep) = Ok (id ep)).
Proof.
  split; [|split].
  - intros e a p guid. subst guid. unfold build_episode_id.
    split; intros ->; reflexivity.
  - intros e1 e2 a p H1 H2 Ht. unfold build_episode_id.
    rewrite H1, H2, Ht. reflexivity.
  - intros C e ep Hn. apply normalize_entry_Ok in Hn. tauto.
Qed.

(** An entry with a guid, and two entries without, titled alike. *)
Lemma episode_id_derivation_witness :
  build_episode_id (with_guid "urn:ep:1" (titled "A")) None None
    = Ok (str_lit "urn:ep:1")
  /\ build_episode_id (titled "A") None None
     = Ok (str_lit
             "6cc94c3a33ee3fe8541d8bd2eaf4240aee166c403c405a871dd4aad863fb8a53").
Proof.
  split.
  - exact (proj1 (proj1 episode_id_derivation
                    (with_guid "urn:ep:1" (titled "A")) None None) eq_refl).
  - rewrite (proj2 (proj1 episode_id_derivation (titled "A") None None)
               eq_refl).
    vm_compute. reflexivity.
Defined.

(** ** Durations *)




(** ** Exceptions that escape the normalizer *)

(** C6 at its failing inputs: a duration made of a digit that is not
    decimal, and structured date components out of range, make
    [normalize_entry] raise [ValueError]; markup the HTML parser rejects
    makes [strip_html] raise; and one such entry makes the whole
    collection fail. *)
Theorem normalize_entry_raises `{Collaborators} :
  parse_duration (Some (DurStr [178])) = Raise ValueError
  /\ normalize_entry (with_duration (DurStr [178]) (titled "A"))
     = Raise ValueError
  /\ to_iso_datetime
       (with_published_parsed [10000; 1; 1; 0; 0; 0; 5; 1; 0] (titled "A"))
     = Raise ValueError
  /\ normalize_entry
       (with_published_parsed [10000; 1; 1; 0; 0; 0; 5; 1; 0] (titled "A"))
     = Raise ValueError
  /\ normalize_entry
       (with_updated_parsed [2024; 2; 30; 0; 0; 0; 4; 61; 0] (titled "A"))
     = Raise ValueError
  /\ strip_html (Some (str_lit "<![foo]>")) = Raise ParserRejectedMarkup
  /\ build_episodes None
       [with_guid "g" (titled "A");
        with_duration (DurStr [178]) (titled "B")]
     = Raise ValueError.
Proof. repeat split; vm_compute; reflexivity. Qed.

(** ** The run *)

Section Run.

Context `{Collaborators}.

Lemma logged_normalize (e : entry) (w : world) :
  (_ <- log (EvNormalize e);; lift (normalize_entry e)) w
  = (normalize_entry e,
     mk_world (files w) (dirs w) (stdout w) (trace w ++ [EvNormalize e])).
Proof. reflexivity. Qed.

(** Normalizing the entries touches neither the files, the directories
    nor the output, and gives what [mapM normalize_entry] gives. *)
Lemma io_map_normalize (l : list entry) (w : world) :
  exists w',
    io_map (fun e => _ <- log (EvNormalize e);; lift (normalize_entry e)) l w
    = (mapM normalize_entry l, w')
    /\ files w' = files w /\ dirs w' = dirs w /\ stdout w' = stdout w.
Proof.
  revert w. induction l as [|e l IH]; intros w.
  - exists w. auto.
  - cbn [io_map]. unfold io_bind at 1. rewrite logged_normalize.
    change (mapM normalize_entry (e :: l))
      with (y ← normalize_entry e; k ← mapM normalize_entry l; mret (y :: k)).
    destruct (normalize_entry e) as [c|x].
    + destruct (IH (mk_world (files w) (dirs w) (stdout w)
                      (trace w ++ [EvNormalize e])))
        as (w' & Hm & Hf & Hd & Ho).
      unfold io_bind at 1. rewrite Hm.
      exists w'. split; [|auto].
      destruct (mapM normalize_entry l); reflexivity.
    + eexists. split; [reflexivity|]. auto.
Qed.

Lemma main_fetch_failure (a : args) (w : world) (e : exn) :
  fetch_feed_result (rss_url a) = Raise e ->
  main a w = (Raise e, after_request (rss_url a) w).
Proof.
  intros He. unfold main. unfold io_bind at 1.
  replace (fetch_feed (rss_url a) w)
    with (fetch_feed_result (rss_url a), after_request (rss_url a) w)
    by reflexivity.
  rewrite He. reflexivity.
Qed.

Lemma fetch_feed_result_raises (url : pystr) (e : exn) :
  fetch_feed_result url = Raise e
  <-> requests_get url = Raise e
      \/ exists r, requests_get url = Ok r
                   /\ in_range 400 599 (status_code r) = true
                   /\ e = HTTPError.
Proof.
  unfold fetch_feed_result, raise_for_status.
  destruct (requests_get url) as [r|x]; simpl.
  - destruct (in_range 400 599 (status_code r)) eqn:E; simpl.
    + split.
      * intros [= <-]. right. exists r. auto.
      * intros [Hx | (r' & _ & _ & ->)]; [discriminate | reflexivity].
    + split; [discriminate|].
      intros [Hx | (r' & Hr & Hs & _)]; [discriminate|].
      injection Hr as <-. congruence.
  - split.
    + intros [= <-]. left. reflexivity.
    + intros [[= <-] | (r & Hr & _)]; [reflexivity | discriminate].
Qed.

Lemma makedirs_files (path : pystr) (w : world) :
  files (snd (makedirs path w)) = files w.
Proof.
  unfold makedirs. simpl. destruct (files w !! path); reflexivity.
Qed.

Lemma write_json_files (path : pystr) (p : payload) (w : world) :
  files (snd (write_json path p w)) = files w
  \/ files (snd (write_json path p w)) = <[ path := p ]> (files w).
Proof.
  unfold write_json. simpl.
  repeat match goal with |- context [if ?b then _ else _] => destruct b end;
    simpl; auto.
Qed.

(** A change of the files is the write of the assembled payload. *)
Lemma main_world_files (a : args) (w : world) (r : result unit) (w' : world) :
  main a w = (r, w') ->
  files w' = files w
  \/ exists feed candidates,
       fetch_feed_result (rss_url a) = Ok feed
       /\ mapM normalize_entry (entries feed) = Ok candidates
       /\ files w' = <[ out a := payload_of a feed candidates ]> (files w).
Proof.
  unfold main. unfold io_bind at 1.
  replace (fetch_feed (rss_url a) w)
    with (fetch_feed_result (rss_url a), after_request (rss_url a) w)
    by reflexivity.
  destruct (fetch_feed_result (rss_url a)) as [feed|x];
    [|intros [= _ <-]; left; reflexivity].
  unfold io_bind at 1.
  destruct (io_map_normalize (entries feed) (after_request (rss_url a) w))
    as (w1 & Hm & Hf & _).
  rewrite Hm. simpl in Hf.
  destruct (mapM normalize_entry (entries feed)) as [cs|x] eqn:Hcs;
    [|intros [= _ <-]; left; exact Hf].
  unfold io_bind at 1.
  set (mk := if truthy (Some (dirname (out a)))
             then makedirs (dirname (out a)) else io_ret tt).
  assert (Hmk : files (snd (mk w1)) = files w).
  { subst mk. destruct (truthy _); [rewrite makedirs_files|]; exact Hf. }
  destruct (mk w1) as [[[]|x] w2]; cbn [snd] in Hmk;
    [|intros [= _ <-]; left; exact Hmk].
  unfold io_bind at 1.
  fold (payload_of a feed cs).
  pose proof (write_json_files (out a) (payload_of a feed cs) w2) as Hw.
  destruct (write_json (out a) (payload_of a feed cs) w2) as [[[]|x] w3];
    cbn [snd] in Hw; unfold print; intros [= _ <-]; cbn [files];
    (destruct Hw as [Hw | Hw];
     [ left; congruence
     | right; exists feed, cs; rewrite Hw, Hmk; auto ]).
Qed.

(** A change of the files is the write of the assembled payload. *)
Lemma main_files (a : args) (w : world) :
  files (snd (main a w)) = files w
  \/ exists feed candidates,
       fetch_feed_result (rss_url a) = Ok feed
       /\ mapM normalize_entry (entries feed) = Ok candidates
       /\ files (snd (main a w))
          = <[ out a := payload_of a feed candidates ]> (files w).
Proof.
  destruct (main a w) as [r w'] eqn:E. apply (main_world_files a w r w' E).
Qed.

End Run.

(** C8.  When [fetch_feed] raises -- the request itself raised, or its
    status is a client or server error (400 to 599) -- the run ends with
    status 1 having made the request and nothing else: no entry is
    normalized, no directory or file is created or written, nothing is
    printed.  In any run, a change of the files is the write of the one
    payload assembled after the fetch and the normalization of every
    entry succeeded. *)
Theorem fetch_failure_writes_nothing `{Collaborators} (a : args) (w : world) :
  (forall e : exn,
     fetch_feed_result (rss_url a) = Raise e ->
     main a w = (Raise e, after_request (rss_url a) w)
     /\ run a w = (1, after_request (rss_url a) w))
  /\ (forall e : exn,
        fetch_feed_result (rss_url a) = Raise e
        <-> requests_get (rss_url a) = Raise e
            \/ exists r, requests_get (rss_url a) = Ok r
                         /\ in_range 400 599 (status_code r) = true
                         /\ e = HTTPError)
  /\ (files (snd (main a w)) = files w
      \/ exists feed candidates,
           fetch_feed_result (rss_url a) = Ok feed
           /\ mapM normalize_entry (entries feed) = Ok candidates
           /\ files (snd (main a w))
              = <[ out a := payload_of a feed candidates ]> (files w)).
Proof.
  split; [|split].
  - intros e He. pose proof (main_fetch_failure a w e He) as Hm.
    split; [exact Hm|]. unfold run. rewrite Hm. reflexivity.
  - intros e. apply fetch_feed_result_raises.
  - apply main_files.
Qed.

(** A request answered with status 404. *)
Lemma fetch_failure_writes_nothing_witness :
  @run (reference (Ok (mk_response 404 [])) no_feed)
    (mk_args (str_lit "http://example.org/feed")
       (str_lit "resources/episodes.json") None) empty_world
  = (1, after_request (str_lit "http://example.org/feed") empty_world).
Proof.
  exact (proj2 (proj1 (@fetch_failure_writes_nothing
                         (reference (Ok (mk_response 404 [])) no_feed)
                         (mk_args (str_lit "http://example.org/feed")
                            (str_lit "resources/episodes.json") None)
                         empty_world) HTTPError eq_refl)).
Defined.

(** ** strip_html *)


